(** * BIMS licence relay: checkout creation and MercadoPago webhook

    A shallow embedding of [api/create-preference.js],
    [api/create-subscription.js] and [api/webhook.js] (and of their
    Netlify-style twins), with the parts of the JavaScript runtime those
    files rely on: [Date], hexadecimal [Buffer]s, HMAC-SHA256, string
    splitting and trimming, and property lookup on object literals.

    Conventions.
    - A JavaScript string is held in UTF-8 as a [string]; every
      character the code inspects (comma, equals sign, at sign, dot, hex
      digits) is ASCII, and white space is recognised on its UTF-8
      encoding.
    - A time value is a [Z] number of milliseconds since the epoch; an
      invalid date (NaN) is [None].
    - A JSON number is a rational ([Q]).
    - Asynchronous calls are sequenced by [await] in the source, so a run
      is a function of the world it starts in. *)

From Stdlib Require Import ZArith Lia List String Ascii QArith.
From stdpp Require Import base gmap strings list.

Local Open Scope Z_scope.

(** ** Dates: ECMA-262, section "Date Objects" *)

Module JSDate.

Definition msPerDay : Z := 86400000.

Definition Day (t : Z) : Z := t / msPerDay.
Definition TimeWithinDay (t : Z) : Z := t mod msPerDay.

Definition isLeapYear (y : Z) : bool :=
  (y mod 4 =? 0) && (negb (y mod 100 =? 0) || (y mod 400 =? 0)).

Definition DaysInYear (y : Z) : Z := if isLeapYear y then 366 else 365.

Definition DayFromYear (y : Z) : Z :=
  365 * (y - 1970) + (y - 1969) / 4 - (y - 1901) / 100 + (y - 1601) / 400.

Definition TimeFromYear (y : Z) : Z := msPerDay * DayFromYear y.

(** The year of a day number, in closed form: the 400-year cycle that
    starts on 1 January 1601 has 146097 days, its first three centuries
    36524 days each, every four-year group but a century's last 1461.
    [YearFromDay_spec] below shows that this is the largest year whose
    first day is not after the given day, which is how ECMA-262 defines
    YearFromTime. *)
Definition YearFromDay (d : Z) : Z :=
  let d' := d + 134774 in
  let era := d' / 146097 in
  let doe := d' mod 146097 in
  let c := Z.min (doe / 36524) 3 in
  let r1 := doe - 36524 * c in
  let q := r1 / 1461 in
  let r2 := r1 - 1461 * q in
  let yy := Z.min (r2 / 365) 3 in
  1601 + 400 * era + 100 * c + 4 * q + yy.

Definition YearFromTime (t : Z) : Z := YearFromDay (Day t).

Definition InLeapYear (t : Z) : Z :=
  if isLeapYear (YearFromTime t) then 1 else 0.

Definition DayWithinYear (t : Z) : Z := Day t - DayFromYear (YearFromTime t).

(** First day (within the year) of each month, [leap] being 0 or 1. *)
Definition monthStart (m leap : Z) : Z :=
  if m <=? 0 then 0
  else if m =? 1 then 31
  else if m =? 2 then 59 + leap
  else if m =? 3 then 90 + leap
  else if m =? 4 then 120 + leap
  else if m =? 5 then 151 + leap
  else if m =? 6 then 181 + leap
  else if m =? 7 then 212 + leap
  else if m =? 8 then 243 + leap
  else if m =? 9 then 273 + leap
  else if m =? 10 then 304 + leap
  else if m =? 11 then 334 + leap
  else 365 + leap.

Definition monthOfYearDay (dwy leap : Z) : Z :=
  if dwy <? 31 then 0
  else if dwy <? 59 + leap then 1
  else if dwy <? 90 + leap then 2
  else if dwy <? 120 + leap then 3
  else if dwy <? 151 + leap then 4
  else if dwy <? 181 + leap then 5
  else if dwy <? 212 + leap then 6
  else if dwy <? 243 + leap then 7
  else if dwy <? 273 + leap then 8
  else if dwy <? 304 + leap then 9
  else if dwy <? 334 + leap then 10
  else 11.

Definition MonthFromTime (t : Z) : Z :=
  monthOfYearDay (DayWithinYear t) (InLeapYear t).

Definition DateFromTime (t : Z) : Z :=
  DayWithinYear t - monthStart (MonthFromTime t) (InLeapYear t) + 1.

Definition HourFromTime (t : Z) : Z := (t / 3600000) mod 24.
Definition MinFromTime (t : Z) : Z := (t / 60000) mod 60.
Definition SecFromTime (t : Z) : Z := (t / 1000) mod 60.
Definition msFromTime (t : Z) : Z := t mod 1000.

Definition MakeTime (h m s ms : Z) : Z :=
  h * 3600000 + m * 60000 + s * 1000 + ms.

(** MakeDay: the day number of the first of month [month mod 12] in year
    [year + floor (month / 12)], plus [date - 1]; the day of the month is
    not clamped to the length of the month. *)
Definition MakeDay (year month date : Z) : Z :=
  let ym := year + month / 12 in
  let mn := month mod 12 in
  DayFromYear ym + monthStart mn (if isLeapYear ym then 1 else 0) + date - 1.

Definition MakeDate (day time : Z) : Z := day * msPerDay + time.

Definition maxTime : Z := 8640000000000000.

Definition validTime (t : Z) : Prop := - maxTime <= t <= maxTime.

Definition TimeClip (t : Z) : option Z :=
  if (- maxTime <=? t) && (t <=? maxTime) then Some t else None.

Section LocalZone.
(** The host's offset of local time from UTC, in milliseconds, at a
    time value; the flag tells whether the time value is UTC. *)
Variable LocalTZA : Z -> bool -> Z.

Definition LocalTime (t : Z) : Z := t + LocalTZA t true.
Definition UTC (t : Z) : Z := t - LocalTZA t false.

(** [Date.prototype.getMonth] of a valid date. *)
Definition getMonth (t : Z) : Z := MonthFromTime (LocalTime t).

(** [Date.prototype.setMonth (month)] on a valid date: the new time
    value, [None] when it is not a time value any more. *)
Definition setMonth (t : Z) (month : Z) : option Z :=
  let lt := LocalTime t in
  let newDate :=
    MakeDate (MakeDay (YearFromTime lt) month (DateFromTime lt))
             (TimeWithinDay lt) in
  TimeClip (UTC newDate).
End LocalZone.

(** *** [Date.prototype.toISOString] and the format it writes *)

Definition digitChar (d : Z) : ascii := ascii_of_N (48 + Z.to_N d).

(** [pad n k]: the [n] decimal digits of [k], most significant first. *)
Fixpoint pad (n : nat) (k : Z) : string :=
  match n with
  | O => ""
  | S n' =>
      String (digitChar (k / 10 ^ Z.of_nat n'))
             (pad n' (k mod 10 ^ Z.of_nat n'))
  end.

(** Years 0 to 9999 take four digits, the others a sign and six. *)
Definition isoYear (y : Z) : string :=
  if (0 <=? y) && (y <=? 9999) then pad 4 y
  else (if 0 <=? y then "+" else "-") +:+ pad 6 (Z.abs y).

(** [toISOString] of a valid date (on an invalid one it throws a
    RangeError, which the callers model). *)
Definition toISOString (t : Z) : string :=
  isoYear (YearFromTime t) +:+ "-" +:+ pad 2 (MonthFromTime t + 1) +:+ "-"
    +:+ pad 2 (DateFromTime t) +:+ "T" +:+ pad 2 (HourFromTime t) +:+ ":"
    +:+ pad 2 (MinFromTime t) +:+ ":" +:+ pad 2 (SecFromTime t) +:+ "."
    +:+ pad 3 (msFromTime t) +:+ "Z".

Definition digitVal (c : ascii) : option Z :=
  let n := N_of_ascii c in
  if ((48 <=? n) && (n <=? 57))%N then Some (Z.of_N n - 48) else None.

Fixpoint readDigits (n : nat) (acc : Z) (s : string) : option (Z * string) :=
  match n with
  | O => Some (acc, s)
  | S n' =>
      match s with
      | String c r =>
          match digitVal c with
          | Some v => readDigits n' (10 * acc + v) r
          | None => None
          end
      | EmptyString => None
      end
  end.

Definition expect (c : ascii) (s : string) : option string :=
  match s with
  | String c' r => if Ascii.eqb c c' then Some r else None
  | EmptyString => None
  end.

Definition readYear (s : string) : option (Z * string) :=
  match s with
  | String "+"%char r => readDigits 6 0 r
  | String "-"%char r =>
      match readDigits 6 0 r with
      | Some (y, r') => if y =? 0 then None else Some (- y, r')
      | None => None
      end
  | _ => readDigits 4 0 s
  end.

Definition DaysInMonth (y m : Z) : Z :=
  let leap := if isLeapYear y then 1 else 0 in
  monthStart m leap - monthStart (m - 1) leap.

(** A reader of the complete UTC form of the Date Time String Format,
    [YYYY-MM-DDTHH:mm:ss.sssZ] with the expanded-year variant: the strings
    [toISOString] writes. ECMA-262 leaves every other string to the
    implementation, so the activation code below takes [Date.parse] as a
    parameter; this reader is the instance the examples run with. *)
Definition parseISO (s : string) : option Z :=
  '(y, s) ← readYear s;
  s ← expect "-" s;
  '(mo, s) ← readDigits 2 0 s;
  s ← expect "-" s;
  '(d, s) ← readDigits 2 0 s;
  s ← expect "T" s;
  '(h, s) ← readDigits 2 0 s;
  s ← expect ":" s;
  '(mi, s) ← readDigits 2 0 s;
  s ← expect ":" s;
  '(sec, s) ← readDigits 2 0 s;
  s ← expect "." s;
  '(ms, s) ← readDigits 3 0 s;
  s ← expect "Z" s;
  match s with
  | EmptyString =>
      if (1 <=? mo) && (mo <=? 12) && (1 <=? d) && (d <=? DaysInMonth y mo)
         && (h <=? 23) && (mi <=? 59) && (sec <=? 59)
      then TimeClip (MakeDate (MakeDay y (mo - 1) d) (MakeTime h mi sec ms))
      else None
  | _ => None
  end.

End JSDate.

(** ** Strings: white space, [trim], [split], hexadecimal buffers *)

Module JSString.

Local Open Scope N_scope.

Definition byteAt (s : string) (i : nat) : N :=
  match String.get i s with
  | Some c => N_of_ascii c
  | None => 256
  end.

(** Length in bytes of the white-space code point (WhiteSpace or
    LineTerminator of ECMA-262) that [s] starts with, 0 when it starts
    with none: U+0009 to U+000D, U+0020, U+00A0, U+1680, U+2000 to U+200A,
    U+2028, U+2029, U+202F, U+205F, U+3000, U+FEFF. *)
Definition wsLength (s : string) : nat :=
  let a := byteAt s 0 in
  let b := byteAt s 1 in
  let c := byteAt s 2 in
  if (9 <=? a) && (a <=? 13) || (a =? 32) then 1%nat
  else if (a =? 194) && (b =? 160) then 2%nat
  else if (a =? 225) && (b =? 154) && (c =? 128) then 3%nat
  else if (a =? 226) && (b =? 128)
          && ((128 <=? c) && (c <=? 138) || (c =? 168) || (c =? 169)
              || (c =? 175)) then 3%nat
  else if (a =? 226) && (b =? 129) && (c =? 159) then 3%nat
  else if (a =? 227) && (b =? 128) && (c =? 128) then 3%nat
  else if (a =? 239) && (b =? 187) && (c =? 191) then 3%nat
  else 0%nat.

Fixpoint dropString (n : nat) (s : string) : string :=
  match n, s with
  | O, _ => s
  | S n', String _ r => dropString n' r
  | S _, EmptyString => EmptyString
  end.

Fixpoint dropWs (fuel : nat) (s : string) : string :=
  match fuel with
  | O => s
  | S fuel' =>
      match wsLength s with
      | O => s
      | k => dropWs fuel' (dropString k s)
      end
  end.

Definition trimStart (s : string) : string := dropWs (String.length s) s.

Fixpoint allWs (fuel : nat) (s : string) : bool :=
  match s with
  | EmptyString => true
  | _ =>
      match fuel with
      | O => false
      | S fuel' =>
          match wsLength s with
          | O => false
          | k => allWs fuel' (dropString k s)
          end
      end
  end.

Fixpoint trimEnd (s : string) : string :=
  match s with
  | EmptyString => EmptyString
  | String c r =>
      if allWs (String.length s) s then EmptyString else String c (trimEnd r)
  end.

(** [String.prototype.trim] *)
Definition trim (s : string) : string := trimEnd (trimStart s).

(** [String.prototype.split] on a one-character separator. *)
Fixpoint split (sep : ascii) (s : string) : list string :=
  match s with
  | EmptyString => [EmptyString]
  | String c r =>
      if Ascii.eqb c sep then EmptyString :: split sep r
      else match split sep r with
           | h :: t => String c h :: t
           | [] => [String c EmptyString]
           end
  end.

(** A byte buffer. *)
Abbreviation buffer := (list ascii).

Definition unhex (c : ascii) : option N :=
  let n := N_of_ascii c in
  if (48 <=? n) && (n <=? 57) then Some (n - 48)
  else if (97 <=? n) && (n <=? 102) then Some (n - 87)
  else if (65 <=? n) && (n <=? 70) then Some (n - 55)
  else None.

(** The payload of a UTF-8 continuation byte. *)
Definition continuation (c : ascii) : option N :=
  let n := N_of_ascii c in
  if (128 <=? n) && (n <? 192) then Some (n - 128) else None.

(** The UTF-16 code units of a string held in UTF-8: one unit for a
    sequence of one, two or three bytes (a lone surrogate is its three
    bytes), the two surrogates for a sequence of four. A byte that starts
    no sequence is a unit by itself; no JavaScript string has one. *)
Fixpoint utf16Units (s : string) : list N :=
  match s with
  | EmptyString => []
  | String a r =>
      let x := N_of_ascii a in
      let alone := x :: utf16Units r in
      match r with
      | String b r1 =>
          match continuation b with
          | Some y =>
              if (192 <=? x) && (x <? 224)
              then ((x - 192) * 64 + y) :: utf16Units r1
              else
                match r1 with
                | String c r2 =>
                    match continuation c with
                    | Some z =>
                        if (224 <=? x) && (x <? 240)
                        then (((x - 224) * 64 + y) * 64 + z) :: utf16Units r2
                        else
                          match r2 with
                          | String d r3 =>
                              match continuation d with
                              | Some v =>
                                  if (240 <=? x) && (x <? 248)
                                  then
                                    let cp :=
                                      (((x - 240) * 64 + y) * 64 + z) * 64 + v in
                                    (55296 + (cp - 65536) / 1024)
                                      :: (56320 + (cp - 65536) mod 1024)
                                      :: utf16Units r3
                                  else alone
                              | None => alone
                              end
                          | EmptyString => alone
                          end
                    | None => alone
                    end
                | EmptyString => alone
                end
          | None => alone
          end
      | EmptyString => alone
      end
  end.

(** Pairs of hex digits, up to the first pair that is not one; a last
    odd unit is dropped. *)
Fixpoint hexPairs (l : list N) : buffer :=
  match l with
  | a :: b :: r =>
      match unhex (ascii_of_N a), unhex (ascii_of_N b) with
      | Some x, Some y => ascii_of_N (16 * x + y) :: hexPairs r
      | _, _ => []
      end
  | _ => []
  end.

(** [Buffer.from (s, 'hex')]: Node reads the string by UTF-16 code unit,
    keeps the low eight bits of each unit, and takes two hex digits,
    of either case, for a byte; the decoding stops at the first pair that
    is not two hex digits, and a last odd unit is dropped. *)
Definition hexDecode (s : string) : buffer :=
  hexPairs (map (fun u => u mod 256) (utf16Units s)).

Definition hexDigit (n : N) : ascii :=
  if n <? 10 then ascii_of_N (48 + n) else ascii_of_N (87 + n).

(** [buf.toString ('hex')] and [digest ('hex')]: lower-case digits. *)
Fixpoint hexEncode (l : buffer) : string :=
  match l with
  | [] => EmptyString
  | b :: r =>
      String (hexDigit (N_of_ascii b / 16))
             (String (hexDigit (N_of_ascii b mod 16)) (hexEncode r))
  end.

(** The UTF-8 bytes of a string. *)
Definition bytesOf (s : string) : buffer := list_ascii_of_string s.

End JSString.

(** ** SHA-256 (FIPS 180-4) and HMAC (RFC 2104), as Node's [crypto] *)

Module SHA256.

Import JSString.

Definition mask32 : Z := 0xffffffff.
Definition add32 (x y : Z) : Z := (x + y) mod 2 ^ 32.
Definition rotr (n x : Z) : Z :=
  Z.lor (Z.shiftr x n) (Z.land (Z.shiftl x (32 - n)) mask32).
Definition not32 (x : Z) : Z := Z.lxor x mask32.

Definition Ch (x y z : Z) : Z := Z.lxor (Z.land x y) (Z.land (not32 x) z).
Definition Maj (x y z : Z) : Z :=
  Z.lxor (Z.lxor (Z.land x y) (Z.land x z)) (Z.land y z).
Definition Sigma0 (x : Z) : Z :=
  Z.lxor (Z.lxor (rotr 2 x) (rotr 13 x)) (rotr 22 x).
Definition Sigma1 (x : Z) : Z :=
  Z.lxor (Z.lxor (rotr 6 x) (rotr 11 x)) (rotr 25 x).
Definition sigma0 (x : Z) : Z :=
  Z.lxor (Z.lxor (rotr 7 x) (rotr 18 x)) (Z.shiftr x 3).
Definition sigma1 (x : Z) : Z :=
  Z.lxor (Z.lxor (rotr 17 x) (rotr 19 x)) (Z.shiftr x 10).

(** The constants of FIPS 180-4: the first 32 bits of the fractional
    parts of the cube roots of the first 64 primes, and (for the initial
    hash value) of the square roots of the first 8. *)
Definition isPrime (n : Z) : bool :=
  forallb (fun d => negb (n mod Z.of_nat d =? 0)) (seq 2 (Z.to_nat n - 2)).

Definition firstPrimes (count : nat) : list Z :=
  firstn count (filter isPrime (map Z.of_nat (seq 2 310))).

(** The integer cube root, bit by bit from the top. *)
Fixpoint cubeRoot (bits : nat) (n r : Z) : Z :=
  match bits with
  | O => r
  | S b =>
      let c := r + 2 ^ Z.of_nat b in
      cubeRoot b n (if c * c * c <=? n then c else r)
  end.

Definition fractionOfCubeRoot (p : Z) : Z :=
  cubeRoot 36 (p * 2 ^ 96) 0 mod 2 ^ 32.

Definition fractionOfSquareRoot (p : Z) : Z :=
  Z.sqrt (p * 2 ^ 64) mod 2 ^ 32.

Definition K : list Z :=
  Eval vm_compute in map fractionOfCubeRoot (firstPrimes 64).

Record regs : Type := Regs { ra : Z; rb : Z; rc : Z; rd : Z;
                             re : Z; rf : Z; rg : Z; rh : Z }.

Definition H0 : regs :=
  Eval vm_compute in
    match map fractionOfSquareRoot (firstPrimes 8) with
    | [a; b; c; d; e; f; g; h] => Regs a b c d e f g h
    | _ => Regs 0 0 0 0 0 0 0 0
    end.

Definition round (st : regs) (kw : Z * Z) : regs :=
  let t1 := add32 (add32 (add32 (add32 (rh st) (Sigma1 (re st)))
                                (Ch (re st) (rf st) (rg st))) (fst kw)) (snd kw) in
  let t2 := add32 (Sigma0 (ra st)) (Maj (ra st) (rb st) (rc st)) in
  Regs (add32 t1 t2) (ra st) (rb st) (rc st)
       (add32 (rd st) t1) (re st) (rf st) (rg st).

(** The message schedule, from a window of the last sixteen words. *)
Fixpoint schedule (n : nat) (win : list Z) : list Z :=
  match n with
  | O => []
  | S n' =>
      match win with
      | w0 :: rest =>
          let w16 := add32 (add32 (add32 (sigma1 (nth 13 rest 0))
                                         (nth 8 rest 0))
                                  (sigma0 (nth 0 rest 0))) w0 in
          w0 :: schedule n' (rest ++ [w16])
      | [] => []
      end
  end.

Fixpoint wordsOf (l : list Z) : list Z :=
  match l with
  | b0 :: b1 :: b2 :: b3 :: r =>
      (((b0 * 256 + b1) * 256 + b2) * 256 + b3) :: wordsOf r
  | _ => []
  end.

Definition compress (st : regs) (block : list Z) : regs :=
  let st' := fold_left round (combine K (schedule 64 (wordsOf block))) st in
  Regs (add32 (ra st) (ra st')) (add32 (rb st) (rb st'))
       (add32 (rc st) (rc st')) (add32 (rd st) (rd st'))
       (add32 (re st) (re st')) (add32 (rf st) (rf st'))
       (add32 (rg st) (rg st')) (add32 (rh st) (rh st')).

Fixpoint blocks (n : nat) (st : regs) (l : list Z) : regs :=
  match n with
  | O => st
  | S n' => blocks n' (compress st (firstn 64 l)) (skipn 64 l)
  end.

Definition bigEndian (width : nat) (x : Z) : list Z :=
  map (fun i => Z.shiftr x (8 * Z.of_nat i) mod 256) (rev (seq 0 width)).

Definition padded (msg : list Z) : list Z :=
  let len := Z.of_nat (length msg) in
  let zeros := Z.to_nat ((55 - len) mod 64) in
  msg ++ [128] ++ repeat 0 zeros ++ bigEndian 8 (8 * len).

Definition wordBytes (x : Z) : buffer :=
  map (fun b => ascii_of_N (Z.to_N b)) (bigEndian 4 x).

Definition sha256 (msg : buffer) : buffer :=
  let p := padded (map (fun c => Z.of_N (N_of_ascii c)) msg) in
  let st := blocks (length p / 64) H0 p in
  wordBytes (ra st) ++ wordBytes (rb st) ++ wordBytes (rc st)
    ++ wordBytes (rd st) ++ wordBytes (re st) ++ wordBytes (rf st)
    ++ wordBytes (rg st) ++ wordBytes (rh st).

Definition xorByte (k : N) (c : ascii) : ascii :=
  ascii_of_N (N.lxor k (N_of_ascii c)).

Definition hmac_sha256 (key msg : buffer) : buffer :=
  let k0 := if (64 <? length key)%nat then sha256 key else key in
  let k := k0 ++ repeat zero (64 - length k0) in
  sha256 (map (xorByte 0x5c) k ++ sha256 (map (xorByte 0x36) k ++ msg)).

(** [crypto.createHmac ('sha256', secret).update (text).digest ('hex')] *)
Definition hmacHex (secret text : string) : string :=
  hexEncode (hmac_sha256 (bytesOf secret) (bytesOf text)).

End SHA256.

(** ** Property lookup on object literals *)

Module JSObject.

(** The values the tables of the source hold, and what a lookup in them
    can return. *)
Inductive jsval : Type :=
  | VUndef
  | VNum (n : Z)
  | VStr (s : string)
  | VFun (name : string)      (* a built-in function *)
  | VObjectPrototype.         (* the object [Object.prototype] *)

Definition truthy (v : jsval) : bool :=
  match v with
  | VUndef => false
  | VNum n => negb (n =? 0)
  | VStr s => negb (String.eqb s "")
  | VFun _ | VObjectPrototype => true
  end.

(** [a || b] *)
Definition orElse (a b : jsval) : jsval := if truthy a then a else b.

(** The function-valued properties of [Object.prototype]. *)
Definition prototypeFunctions : list string :=
  [ "hasOwnProperty"; "isPrototypeOf"; "propertyIsEnumerable";
    "toLocaleString"; "toString"; "valueOf"; "__defineGetter__";
    "__defineSetter__"; "__lookupGetter__"; "__lookupSetter__" ]%string.

(** What an object literal inherits under [key]: its prototype is
    [Object.prototype], whose [constructor] is the function [Object] and
    whose accessor [__proto__] returns the prototype itself. *)
Definition inherited (key : string) : jsval :=
  if String.eqb key "constructor" then VFun "Object"
  else if String.eqb key "__proto__" then VObjectPrototype
  else if existsb (String.eqb key) prototypeFunctions then VFun key
  else VUndef.

(** [obj[key]] for an object literal with the own properties [own]. *)
Definition get (own : gmap string jsval) (key : string) : jsval :=
  match own !! key with
  | Some v => v
  | None => inherited key
  end.

(** [s || d] and [!s] on a value that is a string or undefined. *)
Definition strOr (s : option string) (d : string) : string :=
  match s with
  | Some x => if String.eqb x "" then d else x
  | None => d
  end.

Definition present (s : option string) : bool :=
  match s with
  | Some x => negb (String.eqb x "")
  | None => false
  end.

End JSObject.

(** ** [api/webhook.js] *)

Module Webhook.

Import JSDate JSString JSObject SHA256.

(** *** The identity provider, the database and the payment processor *)

Record authUser : Type :=
  { uid : string; displayName : string; emailVerified : bool }.

(** A leaf the database stores for [LicenseType] and [MaxDevices]. *)
Inductive dbval : Type :=
  | DNum (n : Z)
  | DStr (s : string).

(** The object written for a payment: [plan], [duration] (absent when
    null), [amount], [currency], [date] and [type]. *)
Record paymentEntry : Type :=
  { pe_plan : string;
    pe_duration : option string;
    pe_amount : Q;
    pe_currency : string;
    pe_date : string;
    pe_type : string }.

(** A node below [users/{uid}/payments]: a string, a number, or an
    object with its children; an absent child is no key of the map. The
    database addresses a node by a path, so what lies under [payments]
    is a tree and not a table of entries. *)
Local Unset Elimination Schemes.
Inductive dbnode : Type :=
  | NStr (s : string)
  | NNum (q : Q)
  | NObj (kids : gmap string dbnode).
Local Set Elimination Schemes.

Definition kidsOf (n : dbnode) : gmap string dbnode :=
  match n with
  | NObj m => m
  | _ => ∅
  end.

(** The node [set ()] stores for an entry. *)
Definition entryNode (e : paymentEntry) : dbnode :=
  NObj (list_to_map
          ([("plan"%string, NStr (pe_plan e))]
           ++ match pe_duration e with
              | Some d => [("duration"%string, NStr d)]
              | None => []
              end
           ++ [("amount"%string, NNum (pe_amount e));
               ("currency"%string, NStr (pe_currency e));
               ("date"%string, NStr (pe_date e));
               ("type"%string, NStr (pe_type e))])).

(** [set (new)] at the path [path] below the node [n]: the node at the
    path becomes [new], the nodes on the way become objects that keep
    their other children, and nothing off the path changes. *)
Fixpoint setNode (path : list string) (new n : dbnode) : dbnode :=
  match path with
  | [] => new
  | k :: rest =>
      NObj (<[k := setNode rest new (default (NObj ∅) (kidsOf n !! k))]>
              (kidsOf n))
  end.

(** The node at a path, if there is one. *)
Fixpoint nodeAt (path : list string) (n : dbnode) : option dbnode :=
  match path with
  | [] => Some n
  | k :: rest =>
      match kidsOf n !! k with
      | Some c => nodeAt rest c
      | None => None
      end
  end.

(** [users/{uid}/subscription] *)
Record subscriptionState : Type :=
  { ss_preapprovalId : string;
    ss_plan : string;
    ss_status : string;
    ss_lastRenewal : string;
    ss_nextBilling : string }.

(** [users/{uid}]; a child that is absent is [None] (the empty map for
    [activations] and [payments]), and a user without a node reads as
    [emptyRecord]. *)
Record userRecord : Type :=
  { Email : option string;
    IsActive : option bool;
    LicenseType : option dbval;
    ExpirationDate : option string;
    MaxDevices : option dbval;
    UpdatedAt : option string;
    CreatedAt : option string;
    ValidationCount : option Z;
    activations : gmap string string;
    payments : gmap string dbnode;
    subscription : option subscriptionState }.

Definition emptyRecord : userRecord :=
  {| Email := None; IsActive := None; LicenseType := None;
     ExpirationDate := None; MaxDevices := None; UpdatedAt := None;
     CreatedAt := None; ValidationCount := None; activations := ∅;
     payments := ∅; subscription := None |}.

(** What the processor returns for a payment, a preapproval and an
    authorized payment. *)
Record payment : Type :=
  { pay_status : string;
    external_reference : option string;
    transaction_amount : option Q;
    currency_id : option string }.

Record autoRecurring : Type :=
  { ar_transaction_amount : option Q; ar_currency_id : option string }.

Record preapproval : Type :=
  { pre_status : string;
    payer_email : option string;
    auto_recurring : option autoRecurring }.

Inductive fetchResult : Type :=
  | FetchThrows
  | FetchNotOk
  | FetchJson (status : option string) (preapproval_id : option string).

(** What [JSON.parse] makes of an [external_reference]: a syntax error,
    [null], an object whose fields [e], [p] and [d] are strings or absent
    (the references the two creators write), or another value (a number,
    a string, an array), on which the three fields are undefined. An
    object that holds another value than a string in one of the three
    fields is outside this type. *)
Inductive refParse : Type :=
  | RefSyntaxError
  | RefNull
  | RefOther
  | RefObject (e p d : option string).

(** The host: the local time zone, [Date.parse], [JSON.parse] on a
    reference, the integral part of the number a string converts to
    (ToIntegerOrInfinity of ToNumber; [None] when that is NaN or
    infinite), and the uid the identity provider gives a new user. *)
Record runtime : Type :=
  { rt_LocalTZA : Z -> bool -> Z;
    rt_Date_parse : string -> option Z;
    rt_JSON_parse : string -> refParse;
    rt_StringToInteger : string -> option Z;
    rt_newUid : gmap string authUser -> string }.

(** The environment of a run: [process.env] and the answers of the
    processor and of the identity toolkit. A lookup that rejects is
    [None]. *)
Record env : Type :=
  { MP_WEBHOOK_SECRET : option string;
    FIREBASE_API_KEY : option string;
    paymentGet : string -> option payment;
    preapprovalGet : string -> option preapproval;
    authorizedPaymentFetch : string -> fetchResult;
    sendOobCode : string -> option bool }.

(** The two instants [new Date ()] is evaluated at in [activateLicense]:
    [now] and the initial [baseDate]. *)
Record clock : Type := { t_now : Z; t_base : Z }.

(** The world a run changes: the identity provider's users by email, the
    database's [users] by uid, the activation mails requested, and the
    outcome of the coming calls to the identity provider and the database
    ([true]: the call rejects). *)
Record world : Type :=
  { authUsers : gmap string authUser;
    users : gmap string userRecord;
    outbox : list string;
    faults : list bool }.

Definition userAt (w : world) (u : string) : userRecord :=
  default emptyRecord (users w !! u).

(** *** Runs that change the world and may throw *)

Inductive exn : Type :=
  | SyntaxError
  | TypeError
  | RangeError
  | AuthError
  | DatabaseError
  | NetworkError
  | ProcessorError.

Inductive result (A : Type) : Type :=
  | Ok (a : A)
  | Throw (e : exn).
Arguments Ok {A} a.
Arguments Throw {A} e.

Definition M (A : Type) : Type := world -> result A * world.

Definition ret {A} (a : A) : M A := fun w => (Ok a, w).
Definition throw {A} (e : exn) : M A := fun w => (Throw e, w).
Definition bind {A B} (c : M A) (k : A -> M B) : M B :=
  fun w =>
    match c w with
    | (Ok a, w') => k a w'
    | (Throw e, w') => (Throw e, w')
    end.
Definition lift {A} (r : result A) : M A := fun w => (r, w).
Definition tryCatch {A} (c : M A) (h : exn -> M A) : M A :=
  fun w =>
    match c w with
    | (Ok a, w') => (Ok a, w')
    | (Throw e, w') => h e w'
    end.

Notation "'let*' x ':=' c 'in' k" := (bind c (fun x => k))
  (at level 10, x binder, c at level 100, k at level 200).

(** A call to the identity provider or the database: it consumes the
    next outcome of [faults]. A call rejects when the network or the
    service fails, and when the service refuses the request, as the
    database does for a path it does not accept. *)
Definition externalCall : M unit :=
  fun w =>
    match faults w with
    | [] => (Ok tt, w)
    | b :: fs =>
        let w' := {| authUsers := authUsers w; users := users w;
                     outbox := outbox w; faults := fs |} in
        (if b then Throw NetworkError else Ok tt, w')
    end.

Definition getUserByEmail (email : string) : M string :=
  let* _ := externalCall in
  fun w =>
    match authUsers w !! email with
    | Some u => (Ok (uid u), w)
    | None => (Throw AuthError, w)
    end.

Section WithHost.

Variable rt : runtime.
Variable ev : env.

Definition createUser (email name : string) : M string :=
  let* _ := externalCall in
  fun w =>
    match authUsers w !! email with
    | Some _ => (Throw AuthError, w)
    | None =>
        let u := rt_newUid rt (authUsers w) in
        (Ok u,
         {| authUsers :=
              <[email := {| uid := u; displayName := name;
                            emailVerified := false |}]> (authUsers w);
            users := users w; outbox := outbox w; faults := faults w |})
    end.

(** [db.ref (`users/${uid}/ExpirationDate`).once ('value')] *)
Definition readExpiration (u : string) : M (option string) :=
  let* _ := externalCall in
  fun w => (Ok (ExpirationDate (userAt w u)), w).

(** A write below [users/{uid}]: [update] or [set] on a child changes the
    user's node by [f] and leaves the other users alone. *)
Definition putUser (u : string) (f : userRecord -> userRecord) : M unit :=
  let* _ := externalCall in
  fun w =>
    (Ok tt, {| authUsers := authUsers w;
               users := <[u := f (userAt w u)]> (users w);
               outbox := outbox w; faults := faults w |}).

(** The database refuses a function or [undefined] as a value, and
    stores an object without enumerable properties as an absent child. *)
Definition toDb (v : jsval) : result (option dbval) :=
  match v with
  | VNum n => Ok (Some (DNum n))
  | VStr s => Ok (Some (DStr s))
  | VObjectPrototype => Ok None
  | VFun _ | VUndef => Throw DatabaseError
  end.

(** *** [sendActivationEmail] *)
Definition sendActivationEmail (email : string) : M unit :=
  if present (FIREBASE_API_KEY ev) then
    match sendOobCode ev email with
    | Some true =>
        fun w =>
          (Ok tt, {| authUsers := authUsers w; users := users w;
                     outbox := outbox w ++ [email]; faults := faults w |})
    | Some false | None => ret tt
    end
  else ret tt.

(** *** [activateLicense] *)

(** The descriptor [info] of a grant. *)
Record grant : Type :=
  { licenseType : jsval;
    months : jsval;
    maxDevices : jsval;
    paymentId : option string;
    preapprovalId : option string;
    plan : string;
    duration : option string;
    amount : option Q;
    currency : option string;
    paymentType : string }.

(** [email.split ('@')[0]] *)
Definition localPart (email : string) : string :=
  match split "@" email with
  | h :: _ => h
  | [] => EmptyString
  end.

(** The date the extension starts from: the stored expiration when there
    is one and it is after [now], the second clock reading otherwise. *)
Definition baseDateOf (clk : clock) (currentExp : option string) : Z :=
  if present currentExp then
    match rt_Date_parse rt (default EmptyString currentExp) with
    | Some existingExp =>
        if t_now clk <? existingExp then existingExp else t_base clk
    | None => t_base clk
    end
  else t_base clk.

(** [String (month)] for a month number, 0 to 11. *)
Definition monthText (m : Z) : string :=
  if m <? 10 then pad 1 m else pad 2 m.

(** [baseDate.setMonth (baseDate.getMonth () + info.months)] followed by
    [baseDate.toISOString ()], which throws a RangeError on an invalid
    date. A number is added to the month. A string is appended to the
    month's digits, and [setMonth] converts the text to a number. A
    function, an object and [undefined] give a text that is no number,
    or NaN, and so an invalid date. *)
Definition extendedDate (baseDate : Z) (m : jsval) : M Z :=
  let month := getMonth (rt_LocalTZA rt) baseDate in
  let set (k : Z) : M Z :=
    match setMonth (rt_LocalTZA rt) baseDate k with
    | Some t => ret t
    | None => throw RangeError
    end in
  match m with
  | VNum n => set (month + n)
  | VStr s =>
      match rt_StringToInteger rt (monthText month +:+ s) with
      | Some k => set k
      | None => throw RangeError
      end
  | VObjectPrototype | VFun _ | VUndef => throw RangeError
  end.

Definition qOr0 (a : option Q) : Q :=
  match a with
  | Some x => x
  | None => 0%Q
  end.

(** Step 1: the user's uid, and whether the user was created. *)
Definition findOrCreateUser (email : string) : M (string * bool) :=
  tryCatch
    (let* u := getUserByEmail email in ret (u, false))
    (fun _ => let* u := createUser email (localPart email) in ret (u, true)).

(** Step 3: the object [updates] applied to the record [r]. *)
Definition applyUpdates (email : string) (lt md : option dbval)
    (newExpDate nowIso : string) (isNewUser : bool) (r : userRecord)
  : userRecord :=
  {| Email := Some email;
     IsActive := Some true;
     LicenseType := lt;
     ExpirationDate := Some newExpDate;
     MaxDevices := md;
     UpdatedAt := Some nowIso;
     CreatedAt := if isNewUser then Some nowIso else CreatedAt r;
     ValidationCount := if isNewUser then Some 0 else ValidationCount r;
     activations := if isNewUser then ∅ else activations r;
     payments := payments r;
     subscription := subscription r |}.

(** Step 4: the entry written under [payments/{paymentId}]. *)
Definition entryFor (info : grant) (nowIso : string) : paymentEntry :=
  {| pe_plan := plan info;
     pe_duration := if present (duration info) then duration info else None;
     pe_amount := qOr0 (amount info);
     pe_currency := strOr (currency info) "USD";
     pe_date := nowIso;
     pe_type := paymentType info |}.

(** The keys of the path [s]: its parts between slashes, the empty
    ones dropped. *)
Definition segments (s : string) : list string :=
  List.filter (fun k => negb (String.eqb k "")) (split "/" s).

(** [db.ref (`users/${uid}/payments/${pid}`).set (entry)]: the id is
    spliced into the path, so an id with slashes names a node deeper in
    the tree, and one made of slashes the node [payments] itself. (A path
    the database refuses, as one with [.], [#], [$], [[] or []], is a
    call that rejects: see [externalCall].) *)
Definition setPayment (pid : string) (e : paymentEntry) (r : userRecord)
  : userRecord :=
  {| Email := Email r; IsActive := IsActive r; LicenseType := LicenseType r;
     ExpirationDate := ExpirationDate r; MaxDevices := MaxDevices r;
     UpdatedAt := UpdatedAt r; CreatedAt := CreatedAt r;
     ValidationCount := ValidationCount r; activations := activations r;
     payments :=
       kidsOf (setNode (segments pid) (entryNode e) (NObj (payments r)));
     subscription := subscription r |}.

(** Step 5: the record written under [subscription]. *)
Definition subscriptionFor (info : grant) (nowIso newExpDate : string)
  : subscriptionState :=
  {| ss_preapprovalId := default EmptyString (preapprovalId info);
     ss_plan := plan info;
     ss_status := "authorized";
     ss_lastRenewal := nowIso;
     ss_nextBilling := newExpDate |}.

Definition setSubscription (sub : subscriptionState) (r : userRecord)
  : userRecord :=
  {| Email := Email r; IsActive := IsActive r; LicenseType := LicenseType r;
     ExpirationDate := ExpirationDate r; MaxDevices := MaxDevices r;
     UpdatedAt := UpdatedAt r; CreatedAt := CreatedAt r;
     ValidationCount := ValidationCount r; activations := activations r;
     payments := payments r;
     subscription := Some sub |}.

Definition activateLicense (clk : clock) (email : string) (info : grant)
  : M unit :=
  (* 1. find or create the user *)
  let* found := findOrCreateUser email in
  let u := fst found in
  let isNewUser := snd found in
  (* 2. the new expiration *)
  let* currentExp := readExpiration u in
  let nowIso := toISOString (t_now clk) in
  let baseDate := baseDateOf clk currentExp in
  let* newExp := extendedDate baseDate (months info) in
  let newExpDate := toISOString newExp in
  (* 3. update the record; the values are checked before the write *)
  let* lt := lift (toDb (licenseType info)) in
  let* md := lift (toDb (maxDevices info)) in
  let* _ := putUser u (applyUpdates email lt md newExpDate nowIso isNewUser) in
  (* 4. the payment history *)
  let* _ :=
    (if present (paymentId info)
     then putUser u (setPayment (default EmptyString (paymentId info))
                                (entryFor info nowIso))
     else ret tt) in
  (* 5. the subscription *)
  let* _ :=
    (if present (preapprovalId info)
     then putUser u (setSubscription (subscriptionFor info nowIso newExpDate))
     else ret tt) in
  (* 6. the activation mail *)
  if isNewUser then sendActivationEmail email else ret tt.

(** *** The conversion tables *)

Definition DURATION_MONTHS : gmap string jsval :=
  list_to_map [("1m", VNum 1); ("3m", VNum 3); ("6m", VNum 6);
               ("12m", VNum 12)]%string.

Definition DURATION_LICENSE : gmap string jsval :=
  list_to_map [("1m", VStr "Monthly"); ("3m", VStr "Monthly");
               ("6m", VStr "Monthly"); ("12m", VStr "Annual")]%string.

Definition PLAN_MAX_DEVICES : gmap string jsval :=
  list_to_map [("individual", VNum 1); ("profesional", VNum 3)]%string.

(** *** [handlePayment] *)

(** The decoded [external_reference]: [null], or the fields [e], [p] and
    [d] read from it. *)
Inductive reference : Type :=
  | NullReference
  | Fields (e p d : option string).

(** [try { ref = JSON.parse (payment.external_reference || '{}') }
     catch { ref = {} }] *)
Definition parseReference (s : option string) : reference :=
  if present s then
    match rt_JSON_parse rt (default EmptyString s) with
    | RefSyntaxError | RefOther => Fields None None None
    | RefNull => NullReference
    | RefObject e p d => Fields e p d
    end
  else Fields None None None.

(** The grant of a one-time payment with the given plan and duration. *)
Definition onetimeGrant (paymentId plan duration : string) (pay : payment)
  : grant :=
  {| licenseType := orElse (get DURATION_LICENSE duration) (VStr "Monthly");
     months := orElse (get DURATION_MONTHS duration) (VNum 1);
     maxDevices := orElse (get PLAN_MAX_DEVICES plan) (VNum 1);
     paymentId := Some paymentId;
     preapprovalId := None;
     plan := plan;
     duration := Some duration;
     amount := transaction_amount pay;
     currency := currency_id pay;
     paymentType := "onetime" |}.

Definition handlePayment (clk : clock) (paymentId : string) : M unit :=
  match paymentGet ev paymentId with
  | None => throw ProcessorError
  | Some pay =>
      if negb (String.eqb (pay_status pay) "approved") then ret tt
      else
        match parseReference (external_reference pay) with
        | NullReference => throw TypeError
        | Fields e p d =>
            let plan := strOr p "individual" in
            let duration := strOr d "1m" in
            if negb (present e) then ret tt
            else activateLicense clk (default EmptyString e)
                   (onetimeGrant paymentId plan duration pay)
        end
  end.

(** *** [handleSubscription] *)

(** [presub.auto_recurring?.transaction_amount || 0] *)
Definition recurringAmount (presub : preapproval) : Q :=
  match auto_recurring presub with
  | Some ar => qOr0 (ar_transaction_amount ar)
  | None => 0%Q
  end.

(** [amount >= 25 ? 'profesional' : 'individual'] *)
Definition inferPlan (amount : Q) : string :=
  if Qle_bool (25 # 1) amount then "profesional" else "individual".

Definition subscriptionGrant (preapprovalId : string) (presub : preapproval)
  : grant :=
  let amount := recurringAmount presub in
  let plan := inferPlan amount in
  {| licenseType := VStr "Monthly";
     months := VNum 1;
     maxDevices := get PLAN_MAX_DEVICES plan;
     paymentId := None;
     preapprovalId := Some preapprovalId;
     plan := plan;
     duration := None;
     amount := Some amount;
     currency :=
       Some (strOr (match auto_recurring presub with
                    | Some ar => ar_currency_id ar
                    | None => None
                    end) "USD");
     paymentType := "subscription" |}.

Definition handleSubscription (clk : clock) (preapprovalId : string)
  : M unit :=
  match preapprovalGet ev preapprovalId with
  | None => throw ProcessorError
  | Some presub =>
      if negb (String.eqb (pre_status presub) "authorized") then ret tt
      else if negb (present (payer_email presub)) then ret tt
      else activateLicense clk (default EmptyString (payer_email presub))
             (subscriptionGrant preapprovalId presub)
  end.

(** *** [handleSubscriptionRenewal] *)
Definition handleSubscriptionRenewal (clk : clock)
    (authorizedPaymentId : string) : M unit :=
  match authorizedPaymentFetch ev authorizedPaymentId with
  | FetchThrows => throw NetworkError
  | FetchNotOk => ret tt
  | FetchJson status preapproval_id =>
      if negb (String.eqb (default EmptyString status) "processed")
      then ret tt
      else if present preapproval_id
           then handleSubscription clk (default EmptyString preapproval_id)
           else ret tt
  end.

(** *** [verifySignature] *)

(** The request as the handler reads it: the method, the two headers,
    [body.type], [body.data.id], [query.topic] and [query.id]. *)
Record request : Type :=
  { method : string;
    x_signature : option string;
    x_request_id : option string;
    body_type : option string;
    body_data_id : option string;
    query_topic : option string;
    query_id : option string }.

(** An entry of [Object.fromEntries]: the first two elements of the
    array. *)
Definition entryOf (l : list string) : string * option string :=
  match l with
  | k :: v :: _ => (k, Some v)
  | [k] => (k, None)
  | [] => ("undefined"%string, None)
  end.

(** [parts[key]] on the object [Object.fromEntries] builds: the last
    entry with that key. *)
Definition partsGet (entries : list (string * option string)) (key : string)
  : option string :=
  fold_left (fun acc kv => if String.eqb (fst kv) key then snd kv else acc)
            entries None.

(** [crypto.timingSafeEqual]: a RangeError on buffers of different
    lengths. *)
Definition timingSafeEqual (a b : buffer) : result bool :=
  if Nat.eqb (length a) (length b)
  then Ok (bool_decide (a = b))
  else Throw RangeError.

(** [a || b || ''] *)
Definition firstPresent (a b : option string) : string :=
  if present a then default EmptyString a else strOr b "".

Definition manifestOf (id xRequestId ts : string) : string :=
  "id:" +:+ id +:+ ";request-id:" +:+ xRequestId +:+ ";ts:" +:+ ts +:+ ";".

(** [Object.fromEntries (xSignature.split (',').map (p =>
    p.trim ().split ('=')))] *)
Definition signatureParts (xSignature : string)
  : list (string * option string) :=
  map (fun p => entryOf (split "=" (trim p))) (split "," xSignature).

Definition verifySignature (req : request) (secret : string) : bool :=
  let xSignature := strOr (x_signature req) "" in
  let xRequestId := strOr (x_request_id req) "" in
  if String.eqb xSignature "" then true
  else
    let parts := signatureParts xSignature in
    let ts := strOr (partsGet parts "ts") "" in
    let hash := strOr (partsGet parts "v1") "" in
    let id := firstPresent (body_data_id req) (query_id req) in
    let manifest := manifestOf id xRequestId ts in
    let expected := hmacHex secret manifest in
    match timingSafeEqual (hexDecode hash) (hexDecode expected) with
    | Ok b => b
    | Throw _ => false
    end.

(** The gate of the handler: the signature is checked only when
    [MP_WEBHOOK_SECRET] is set. *)
Definition signatureAccepted (req : request) : bool :=
  if present (MP_WEBHOOK_SECRET ev)
  then verifySignature req (default EmptyString (MP_WEBHOOK_SECRET ev))
  else true.

(** *** The handler *)

Record response : Type := { statusCode : Z; body : string }.

Definition dispatch (clk : clock) (topic id : string) : M unit :=
  if String.eqb topic "payment" then handlePayment clk id
  else if String.eqb topic "preapproval"
          || String.eqb topic "subscription_preapproval"
       then handleSubscription clk id
  else if String.eqb topic "subscription_authorized_payment"
       then handleSubscriptionRenewal clk id
  else ret tt.

(** [res.status (200).end ()] comes first; what follows runs inside
    [try { ... } catch (err) { console.error (...) }]. The result is the
    response sent. *)
Definition handler (clk : clock) (req : request) : M response :=
  let res := {| statusCode := 200; body := "" |} in
  if negb (String.eqb (method req) "POST") then ret res
  else
    tryCatch
      (if negb (signatureAccepted req) then ret res
       else
         let topic := firstPresent (body_type req) (query_topic req) in
         let id := firstPresent (body_data_id req) (query_id req) in
         if String.eqb topic "" || String.eqb id "" then ret res
         else let* _ := dispatch clk topic id in ret res)
      (fun _ => ret res).

End WithHost.

End Webhook.

(** ** Checkout creation: what the two initiators share *)

Module Checkout.

Import JSString JSObject.

Definition containsChar (c : ascii) (s : string) : bool :=
  existsb (Ascii.eqb c) (list_ascii_of_string s).

(** Does a white-space code point start anywhere in [s]? *)
Fixpoint containsWs (s : string) : bool :=
  match s with
  | EmptyString => false
  | String _ r => negb (Nat.eqb (wsLength s) 0) || containsWs r
  end.

(** The part of [s] before its first [c] and the part after it. *)
Fixpoint cut (c : ascii) (s : string) : option (string * string) :=
  match s with
  | EmptyString => None
  | String a r =>
      if Ascii.eqb a c then Some (EmptyString, r)
      else match cut c r with
           | Some (x, y) => Some (String a x, y)
           | None => None
           end
  end.

(** Does [s] have a dot that is neither its first nor its last
    character? *)
Fixpoint innerDot (s : string) : bool :=
  match s with
  | String _ ((String b r') as r) =>
      (Ascii.eqb b "." && negb (String.eqb r' "")) || innerDot r
  | _ => false
  end.

(** [/^[^\s@]+@[^\s@]+\.[^\s@]+$/.test (email)]. The class excludes the
    at sign, so the first group is what precedes the first at sign; it
    admits the dot, so the rest matches when it has no white space, no at
    sign, and a dot with a character on either side. *)
Definition emailRx (email : string) : bool :=
  match cut "@" email with
  | Some (loc, rest) =>
      negb (String.eqb loc "") && negb (containsWs loc)
      && negb (containsWs rest) && negb (containsChar "@" rest)
      && innerDot rest
  | None => false
  end.

Definition dq : string := String (ascii_of_N 34) EmptyString.
Definition bs : string := String (ascii_of_N 92) EmptyString.

Definition hex4 (n : N) : string :=
  String (hexDigit (n / 4096 mod 16))
    (String (hexDigit (n / 256 mod 16))
       (String (hexDigit (n / 16 mod 16))
          (String (hexDigit (n mod 16)) EmptyString))).

(** The body of a JSON string: quote and backslash escaped, control
    characters written as [JSON.stringify] writes them. *)
Fixpoint jsonEscape (s : string) : string :=
  match s with
  | EmptyString => EmptyString
  | String c r =>
      let n := N_of_ascii c in
      (if (n =? 34)%N then bs +:+ dq
       else if (n =? 92)%N then bs +:+ bs
       else if (n =? 8)%N then bs +:+ "b"
       else if (n =? 9)%N then bs +:+ "t"
       else if (n =? 10)%N then bs +:+ "n"
       else if (n =? 12)%N then bs +:+ "f"
       else if (n =? 13)%N then bs +:+ "r"
       else if (n <? 32)%N then bs +:+ "u" +:+ hex4 n
       else String c EmptyString) +:+ jsonEscape r
  end.

Definition jsonString (s : string) : string := dq +:+ jsonEscape s +:+ dq.

(** [(process.env.SITE_URL || '').replace (/\/$/, '')] *)
Fixpoint dropFinalSlash (s : string) : string :=
  match s with
  | EmptyString => EmptyString
  | String c r =>
      if Ascii.eqb c "/" && String.eqb r "" then EmptyString
      else String c (dropFinalSlash r)
  end.

Record env : Type :=
  { SITE_URL : option string;
    VERCEL_URL : option string;
    MP_CURRENCY : option string }.

Definition siteUrl (ev : env) : string := dropFinalSlash (strOr (SITE_URL ev) "").

Inductive responseBody : Type :=
  | NoBody
  | ErrorBody (error : string)
  | CheckoutBody (init_point sandbox_url : option string)
  | AuthorizationBody (init_point : option string).

Record response : Type := { status : Z; body : responseBody }.

End Checkout.

(** ** [api/create-preference.js] *)

Module CreatePreference.

Import JSString JSObject Checkout.

Record request : Type :=
  { method : string;
    email : option string;
    plan : option string;
    duration : option string }.

(** What [CATALOG[plan]?.[duration]] evaluates to: undefined (or null),
    an entry of the catalog, or a truthy value of the built-in objects,
    on which [title] and [price] are undefined. *)
Inductive itemLookup : Type :=
  | ItemMissing
  | Item (title : string) (price months : Z)
  | ItemBuiltin.

Definition individualItems (d : string) : itemLookup :=
  if String.eqb d "1m" then Item "BIMS Individual – 1 mes" 15 1
  else if String.eqb d "3m" then Item "BIMS Individual – 3 meses" 40 3
  else if String.eqb d "6m" then Item "BIMS Individual – 6 meses" 75 6
  else if String.eqb d "12m" then Item "BIMS Individual – 1 año" 149 12
  else ItemMissing.

Definition profesionalItems (d : string) : itemLookup :=
  if String.eqb d "1m" then Item "BIMS Profesional – 1 mes" 25 1
  else if String.eqb d "3m" then Item "BIMS Profesional – 3 meses" 67 3
  else if String.eqb d "6m" then Item "BIMS Profesional – 6 meses" 125 6
  else if String.eqb d "12m" then Item "BIMS Profesional – 1 año" 249 12
  else ItemMissing.

Definition builtinItem (v : jsval) : itemLookup :=
  if truthy v then ItemBuiltin else ItemMissing.

Section WithHost.

(** [builtinTruthy f key]: is the property [key] of the built-in
    function [f] (own or inherited) truthy? *)
Variable builtinTruthy : string -> string -> bool.

(** The processor: [new Preference (client).create ({ body })] returns
    the two URLs, or rejects ([None]). *)
Record preferenceBody : Type :=
  { item_id : string;
    item_title : option string;
    item_unit_price : option Z;
    item_quantity : Z;
    item_currency_id : string;
    payer_email : string;
    pref_external_reference : string;
    back_url_success : string;
    back_url_failure : string;
    back_url_pending : string;
    auto_return : string;
    notification_url : string;
    statement_descriptor : string }.

Variable create : preferenceBody -> option (option string * option string).
Variable ev : env.

(** [CATALOG[plan]?.[duration]]: [plan] is an own key of the catalog, or
    reaches [Object.prototype] (through [__proto__]), or one of its
    functions, or nothing. *)
Definition catalogLookup (plan duration : string) : itemLookup :=
  if String.eqb plan "individual" then
    match individualItems duration with
    | ItemMissing => builtinItem (inherited duration)
    | it => it
    end
  else if String.eqb plan "profesional" then
    match profesionalItems duration with
    | ItemMissing => builtinItem (inherited duration)
    | it => it
    end
  else
    match inherited plan with
    | VObjectPrototype =>
        (* the own properties of Object.prototype; its prototype is null *)
        if String.eqb duration "__proto__" then ItemMissing
        else builtinItem (inherited duration)
    | VFun f => if builtinTruthy f duration then ItemBuiltin else ItemMissing
    | _ => ItemMissing
    end.

Definition webhookUrl : string :=
  if present (VERCEL_URL ev)
  then "https://" +:+ default EmptyString (VERCEL_URL ev) +:+ "/api/webhook"
  else siteUrl ev +:+ "/api/webhook".

Definition preferenceOf (email plan duration : string) (it : itemLookup)
  : preferenceBody :=
  {| item_id := "bims-" +:+ plan +:+ "-" +:+ duration;
     item_title := match it with Item t _ _ => Some t | _ => None end;
     item_unit_price := match it with Item _ p _ => Some p | _ => None end;
     item_quantity := 1;
     item_currency_id := strOr (MP_CURRENCY ev) "USD";
     payer_email := email;
     pref_external_reference :=
       "{" +:+ jsonString "e" +:+ ":" +:+ jsonString email +:+ ","
           +:+ jsonString "p" +:+ ":" +:+ jsonString plan +:+ ","
           +:+ jsonString "d" +:+ ":" +:+ jsonString duration +:+ "}";
     back_url_success := siteUrl ev +:+ "/success.html";
     back_url_failure := siteUrl ev +:+ "/?pago=error";
     back_url_pending := siteUrl ev +:+ "/?pago=pendiente";
     auto_return := "approved";
     notification_url := webhookUrl;
     statement_descriptor := "BIMS Revit Plugin" |}.

(** The handler: the response, and the bodies sent to the processor. *)
Definition handler (req : request) : response * list preferenceBody :=
  if String.eqb (method req) "OPTIONS"
  then ({| status := 200; body := NoBody |}, [])
  else if negb (String.eqb (method req) "POST")
  then ({| status := 405; body := ErrorBody "Método no permitido" |}, [])
  else if negb (present (email req)) || negb (present (plan req))
          || negb (present (duration req))
  then ({| status := 400;
           body := ErrorBody "Se requieren: email, plan y duration" |}, [])
  else
    let email := default EmptyString (email req) in
    let plan := default EmptyString (plan req) in
    let duration := default EmptyString (duration req) in
    if negb (emailRx email)
    then ({| status := 400; body := ErrorBody "Email inválido" |}, [])
    else
      match catalogLookup plan duration with
      | ItemMissing =>
          ({| status := 400;
              body := ErrorBody ("Combinación inválida: plan=" +:+ dq +:+ plan
                                 +:+ dq +:+ ", duration=" +:+ dq +:+ duration
                                 +:+ dq) |}, [])
      | it =>
          let b := preferenceOf email plan duration it in
          match create b with
          | Some (init_point, sandbox_init_point) =>
              ({| status := 200;
                  body := CheckoutBody init_point sandbox_init_point |}, [b])
          | None =>
              ({| status := 500;
                  body := ErrorBody "No se pudo crear la preferencia de pago" |},
               [b])
          end
      end.

End WithHost.

End CreatePreference.

(** ** [api/create-subscription.js] *)

Module CreateSubscription.

Import JSString JSObject Checkout.

Record request : Type :=
  { method : string;
    email : option string;
    plan : option string }.

Definition SUBSCRIPTION_PRICES : gmap string jsval :=
  list_to_map [("individual", VNum 15); ("profesional", VNum 25)]%string.

Definition SUBSCRIPTION_TITLES : gmap string jsval :=
  list_to_map
    [("individual", VStr "BIMS Individual — Suscripción mensual");
     ("profesional", VStr "BIMS Profesional — Suscripción mensual")]%string.

(** The body of [new PreApproval (client).create ({ body })]; [reason]
    and [transaction_amount] are what the two tables gave. *)
Record preapprovalBody : Type :=
  { reason : jsval;
    payer_email : string;
    back_url : string;
    sub_external_reference : string;
    frequency : Z;
    frequency_type : string;
    transaction_amount : jsval;
    sub_currency_id : string;
    free_trial_frequency : Z;
    free_trial_frequency_type : string;
    notification_url : string }.

Section WithHost.

Variable create : preapprovalBody -> option (option string).
Variable ev : env.

Definition webhookUrl : string :=
  if present (VERCEL_URL ev)
  then "https://" +:+ default EmptyString (VERCEL_URL ev) +:+ "/api/webhook"
  else siteUrl ev +:+ "/api/webhook".

Definition preapprovalOf (email plan : string) (price : jsval)
  : preapprovalBody :=
  {| reason := get SUBSCRIPTION_TITLES plan;
     payer_email := email;
     back_url := siteUrl ev +:+ "/success.html";
     sub_external_reference :=
       "{" +:+ jsonString "e" +:+ ":" +:+ jsonString email +:+ ","
           +:+ jsonString "p" +:+ ":" +:+ jsonString plan +:+ ","
           +:+ jsonString "t" +:+ ":" +:+ jsonString "subscription" +:+ "}";
     frequency := 1;
     frequency_type := "months";
     transaction_amount := price;
     sub_currency_id := strOr (MP_CURRENCY ev) "USD";
     free_trial_frequency := 1;
     free_trial_frequency_type := "months";
     notification_url := webhookUrl |}.

Definition handler (req : request) : response * list preapprovalBody :=
  if String.eqb (method req) "OPTIONS"
  then ({| status := 200; body := NoBody |}, [])
  else if negb (String.eqb (method req) "POST")
  then ({| status := 405; body := ErrorBody "Método no permitido" |}, [])
  else if negb (present (email req)) || negb (present (plan req))
  then ({| status := 400; body := ErrorBody "Se requieren: email y plan" |},
        [])
  else
    let email := default EmptyString (email req) in
    let plan := default EmptyString (plan req) in
    if negb (emailRx email)
    then ({| status := 400; body := ErrorBody "Email inválido" |}, [])
    else
      let price := get SUBSCRIPTION_PRICES plan in
      if negb (truthy price)
      then ({| status := 400;
               body := ErrorBody ("Plan inválido: " +:+ dq +:+ plan +:+ dq) |},
            [])
      else
        let b := preapprovalOf email plan price in
        match create b with
        | Some init_point =>
            ({| status := 200; body := AuthorizationBody init_point |}, [b])
        | None =>
            ({| status := 500;
                body := ErrorBody "No se pudo crear la suscripción" |}, [b])
        end.

End WithHost.

End CreateSubscription.

(** ** The Netlify-style webhook ([exports.handler = async function (event)]) *)

Module NetlifyWebhook.

Import JSString JSObject SHA256 Webhook.

(** What [JSON.parse (event.body || '{}')] gives: a syntax error, [null],
    or a value with the fields [type] and [data.id] read from it. *)
Inductive bodyParse : Type :=
  | BodySyntaxError
  | BodyNull
  | BodyFields (type data_id : option string).

Record event : Type :=
  { httpMethod : string;
    x_signature : option string;
    x_request_id : option string;
    body : bodyParse;
    query_topic : option string;
    query_id : option string }.

Definition verifySignature (e : event) (secret : string) : bool :=
  let xSignature := strOr (x_signature e) "" in
  let xRequestId := strOr (x_request_id e) "" in
  if String.eqb xSignature "" then true
  else
    let parts := signatureParts xSignature in
    let ts := strOr (partsGet parts "ts") "" in
    let hash := strOr (partsGet parts "v1") "" in
    match body e with
    | BodySyntaxError | BodyNull => false
    | BodyFields _ data_id =>
        let id := firstPresent data_id (query_id e) in
        let manifest := manifestOf id xRequestId ts in
        let expected := hmacHex secret manifest in
        match timingSafeEqual (hexDecode hash) (hexDecode expected) with
        | Ok b => b
        | Throw _ => false
        end
    end.

Section WithHost.

Variable rt : runtime.
Variable ev : env.

(** [const { e: email, p: plan = 'individual', d: duration = '1m' } = ref]:
    a default replaces an undefined field only. *)
Definition handlePayment (clk : clock) (paymentId : string) : M unit :=
  match paymentGet ev paymentId with
  | None => throw ProcessorError
  | Some pay =>
      if negb (String.eqb (pay_status pay) "approved") then ret tt
      else
        match parseReference rt (external_reference pay) with
        | NullReference => throw TypeError
        | Fields e p d =>
            let plan := default "individual"%string p in
            let duration := default "1m"%string d in
            if negb (present e) then ret tt
            else activateLicense rt ev clk (default EmptyString e)
                   (onetimeGrant paymentId plan duration pay)
        end
  end.

Definition dispatch (clk : clock) (topic id : string) : M unit :=
  if String.eqb topic "payment" then handlePayment clk id
  else if String.eqb topic "preapproval"
          || String.eqb topic "subscription_preapproval"
       then handleSubscription rt ev clk id
  else if String.eqb topic "subscription_authorized_payment"
       then handleSubscriptionRenewal rt ev clk id
  else ret tt.

Definition handler (clk : clock) (e : event) : M response :=
  let res := {| statusCode := 200; Webhook.body := "" |} in
  if negb (String.eqb (httpMethod e) "POST") then ret res
  else
    tryCatch
      (match body e with
       | BodySyntaxError => throw SyntaxError
       | b =>
           if present (MP_WEBHOOK_SECRET ev)
              && negb (verifySignature e
                         (default EmptyString (MP_WEBHOOK_SECRET ev)))
           then ret res
           else
             match b with
             | BodyFields type data_id =>
                 let topic := firstPresent type (query_topic e) in
                 let id := firstPresent data_id (query_id e) in
                 if String.eqb topic "" || String.eqb id "" then ret res
                 else let* _ := dispatch clk topic id in ret res
             | _ => throw TypeError
             end
       end)
      (fun _ => ret res).

End WithHost.

End NetlifyWebhook.

(** ** The notions of the specification *)

Module Spec.

Import JSDate JSObject Webhook.

(** The calendar fields of a local time value. *)
Record civil : Type :=
  { c_year : Z; c_month : Z; c_day : Z; c_time : Z }.

Definition civilOf (lt : Z) : civil :=
  {| c_year := YearFromTime lt; c_month := MonthFromTime lt;
     c_day := DateFromTime lt; c_time := TimeWithinDay lt |}.

(** The day number of the first day of month [mo] (0 to 11) of [y]. *)
Definition firstOfMonth (y mo : Z) : Z :=
  DayFromYear y + monthStart mo (if isLeapYear y then 1 else 0).

(** A date plus [m] calendar months by raw month increment: the month
    number grows by [m], carrying into the year, and the day of the month
    is counted from the first of the month reached, past its end if the
    month is shorter. *)
Definition rawPlusMonths (c : civil) (m : Z) : Z :=
  let k := c_month c + m in
  MakeDate (firstOfMonth (c_year c + k / 12) (k mod 12) + c_day c - 1)
           (c_time c).

(** The same on time values, in the host's zone; [None] when the result
    is not a time value. *)
Definition plusMonths (tza : Z -> bool -> Z) (t m : Z) : option Z :=
  TimeClip (UTC tza (rawPlusMonths (civilOf (LocalTime tza t)) m)).

(** The expiration timestamp a record stores, if it stores one. *)
Definition storedExpiration (rt : runtime) (r : userRecord) : option Z :=
  match ExpirationDate r with
  | Some s => if String.eqb s "" then None else rt_Date_parse rt s
  | None => None
  end.

(** The uid an activation for [email] works on: the user's, or the one a
    new user gets. *)
Definition resolvedUid (rt : runtime) (w : world) (email : string) : string :=
  match authUsers w !! email with
  | Some usr => uid usr
  | None => rt_newUid rt (authUsers w)
  end.

(** The record of a user after a complete activation: the three writes
    of [activateLicense] in their order. *)
Definition activatedRecord (email : string) (info : grant)
    (lt md : option dbval) (nowIso newExpDate : string) (isNewUser : bool)
    (r : userRecord) : userRecord :=
  let r1 := applyUpdates email lt md newExpDate nowIso isNewUser r in
  let r2 :=
    if present (paymentId info)
    then setPayment (default EmptyString (paymentId info))
                    (entryFor info nowIso) r1
    else r1 in
  if present (preapprovalId info)
  then setSubscription (subscriptionFor info nowIso newExpDate) r2
  else r2.





(** Two deliveries of the payment [id], the second in the world the
    first leaves. *)
Definition afterFirst (rt : runtime) (ev : env) (clk1 : clock)
    (id : string) (w : world) : world :=
  snd (handlePayment rt ev clk1 id w).

Definition afterSecond (rt : runtime) (ev : env) (clk1 clk2 : clock)
    (id : string) (w : world) : world :=
  snd (handlePayment rt ev clk2 id (afterFirst rt ev clk1 id w)).

(** The second delivery does not move any expiration. *)
Definition secondDeliveryKeepsExpiration (rt : runtime) (ev : env)
    (clk1 clk2 : clock) (id : string) (w : world) : Prop :=
  forall u,
    ExpirationDate (userAt (afterSecond rt ev clk1 clk2 id w) u)
    = ExpirationDate (userAt (afterFirst rt ev clk1 id w) u).


(** The second delivery does not change an entry written under [id]. *)
Definition secondDeliveryKeepsEntry (rt : runtime) (ev : env)
    (clk1 clk2 : clock) (id : string) (w : world) : Prop :=
  forall u e,
    payments (userAt (afterFirst rt ev clk1 id w) u) !! id = Some e ->
    payments (userAt (afterSecond rt ev clk1 clk2 id w) u) !! id = Some e.

(** Every character of [s] satisfies [P]. *)
Fixpoint allChars (P : ascii -> bool) (s : string) : bool :=
  match s with
  | EmptyString => true
  | String c r => P c && allChars P r
  end.


(** A printable ASCII character other than the space. *)
Definition plainChar (c : ascii) : bool :=
  ((33 <=? N_of_ascii c) && (N_of_ascii c <=? 126))%N.

(** A character the database allows in a key: none of [/ . # $ [ ]]
    and no control character. *)
Definition keyChar (c : ascii) : bool :=
  let n := N_of_ascii c in
  ((32 <=? n) && negb (n =? 127) && negb (n =? 47) && negb (n =? 46)
   && negb (n =? 35) && negb (n =? 36) && negb (n =? 91)
   && negb (n =? 93))%N.

(** A payment id that is one key of the database: not empty, of
    allowed characters, and of at most 768 bytes. *)
Definition plainKey (id : string) : bool :=
  negb (String.eqb id "") && allChars keyChar id
  && (String.length id <=? 768)%nat.


Definition notChar (x : ascii) (c : ascii) : bool := negb (Ascii.eqb c x).


(** The notification the processor signs: the header
    [ts=<ts>,v1=<sig>], the request id, and the event id in the body. *)
Definition signedRequest (id rid ts sig : string) : request :=
  {| method := "POST";
     x_signature := Some ("ts=" +:+ ts +:+ ",v1=" +:+ sig);
     x_request_id := Some rid;
     body_type := Some "payment"%string;
     body_data_id := Some id;
     query_topic := None;
     query_id := None |}.


(** Is the activation mail of a new user requested and accepted? *)
Definition mailRequested (ev : env) (email : string) : bool :=
  present (FIREBASE_API_KEY ev)
  && match sendOobCode ev email with
     | Some true => true
     | _ => false
     end.

(** What [[^\s@]+] matches: a string that is not empty and has neither
    white space nor an at sign. *)
Definition classRun (s : string) : Prop :=
  s <> EmptyString /\ Checkout.containsWs s = false
  /\ Checkout.containsChar "@" s = false.

(** What [/^[^\s@]+@[^\s@]+\.[^\s@]+$/] matches: three such runs, an at
    sign after the first and a dot after the second. *)
Definition matchesEmailRx (s : string) : Prop :=
  exists a b c,
    s = a +:+ String "@" (b +:+ String "." c)
    /\ classRun a /\ classRun b /\ classRun c.

(** A run that throws from every world. *)
Definition throws {A} (c : M A) : Prop :=
  forall w, exists e, fst (c w) = Throw e.

(** A run keeps the relation [R] between the world it starts in and the
    world it ends in, whether it returns or throws. *)
Definition keeps (R : world -> world -> Prop) {A} (c : M A) : Prop :=
  forall w, R w (snd (c w)).

End Spec.

(** ** A reader of references and a host for the examples *)

Module Reference.

Import JSString JSObject Webhook Checkout.

Definition hexVal (c : ascii) : option N := unhex c.

(** The characters of a JSON string up to its closing quote, unescaped,
    and what follows the quote. An escape [\uXXXX] is read when it names
    an ASCII character. *)
Fixpoint readJsonString (s : string) : option (string * string) :=
  match s with
  | EmptyString => None
  | String c r =>
      if (N_of_ascii c =? 34)%N then Some (EmptyString, r)
      else if (N_of_ascii c =? 92)%N then
        match r with
        | String e r' =>
            let plain (x : N) :=
              match readJsonString r' with
              | Some (t, rest) => Some (String (ascii_of_N x) t, rest)
              | None => None
              end in
            if (N_of_ascii e =? 34)%N then plain 34%N
            else if (N_of_ascii e =? 92)%N then plain 92%N
            else if (N_of_ascii e =? 47)%N then plain 47%N
            else if (N_of_ascii e =? 98)%N then plain 8%N
            else if (N_of_ascii e =? 102)%N then plain 12%N
            else if (N_of_ascii e =? 110)%N then plain 10%N
            else if (N_of_ascii e =? 114)%N then plain 13%N
            else if (N_of_ascii e =? 116)%N then plain 9%N
            else if (N_of_ascii e =? 117)%N then
              match r' with
              | String h1 (String h2 (String h3 (String h4 r''))) =>
                  match hexVal h1, hexVal h2, hexVal h3, hexVal h4 with
                  | Some a, Some b, Some c', Some d =>
                      let x := (((a * 16 + b) * 16 + c') * 16 + d)%N in
                      if (x <? 128)%N then
                        match readJsonString r'' with
                        | Some (t, rest) => Some (String (ascii_of_N x) t, rest)
                        | None => None
                        end
                      else None
                  | _, _, _, _ => None
                  end
              | _ => None
              end
            else None
        | EmptyString => None
        end
      else if (N_of_ascii c <? 32)%N then None
      else
        match readJsonString r with
        | Some (t, rest) => Some (String c t, rest)
        | None => None
        end
  end.

Definition setField (k v : string) (acc : option string * option string
                                           * option string)
  : option string * option string * option string :=
  let '(e, p, d) := acc in
  if String.eqb k "e" then (Some v, p, d)
  else if String.eqb k "p" then (e, Some v, d)
  else if String.eqb k "d" then (e, p, Some v)
  else acc.

(** The members ["key":"value"] of an object, up to its closing brace. *)
Fixpoint readMembers (fuel : nat) (s : string)
    (acc : option string * option string * option string) : refParse :=
  match fuel with
  | O => RefSyntaxError
  | S fuel' =>
      match s with
      | String q r =>
          if (N_of_ascii q =? 34)%N then
            match readJsonString r with
            | Some (k, String ":"%char (String q' r1)) =>
                if (N_of_ascii q' =? 34)%N then
                  match readJsonString r1 with
                  | Some (v, String ","%char r2) =>
                      readMembers fuel' r2 (setField k v acc)
                  | Some (v, String "}"%char EmptyString) =>
                      let '(e, p, d) := setField k v acc in RefObject e p d
                  | _ => RefSyntaxError
                  end
                else RefSyntaxError
            | _ => RefSyntaxError
            end
          else RefSyntaxError
      | EmptyString => RefSyntaxError
      end
  end.

(** A reader of the references the two initiators write: an object whose
    members are strings, without white space; and of [null]. On these
    it agrees with [JSON.parse]; any other text it rejects. *)
Definition readReference (s : string) : refParse :=
  if String.eqb s "null" then RefNull
  else if String.eqb s "{}" then RefObject None None None
  else
    match s with
    | String "{"%char r => readMembers (String.length s) r (None, None, None)
    | _ => RefSyntaxError
    end.

(** A reader of the texts made of decimal digits (the empty text is 0).
    On these it agrees with ToNumber; it takes every other text for no
    number, which ToNumber does not do for signs, white space, fractions,
    exponents and the other radices. *)
Definition readInteger (s : string) : option Z :=
  match JSDate.readDigits (String.length s) 0 s with
  | Some (v, _) => Some v
  | None => None
  end.

End Reference.

Module Examples.

Import JSDate JSString JSObject Webhook Reference.

(** A host in UTC, reading dates, references and numbers with the
    readers above, and naming new users by their number. *)
Definition utcHost : runtime :=
  {| rt_LocalTZA := fun _ _ => 0;
     rt_Date_parse := parseISO;
     rt_JSON_parse := readReference;
     rt_StringToInteger := readInteger;
     rt_newUid := fun m => "uid" +:+ pad 3 (Z.of_nat (size m)) |}.

Definition dq : string := Checkout.dq.

(** The reference [{"e":"a@b.com","p":"individual","d":"3m"}]. *)
Definition reference3m : string :=
  "{" +:+ dq +:+ "e" +:+ dq +:+ ":" +:+ dq +:+ "a@b.com" +:+ dq +:+ ","
      +:+ dq +:+ "p" +:+ dq +:+ ":" +:+ dq +:+ "individual" +:+ dq +:+ ","
      +:+ dq +:+ "d" +:+ dq +:+ ":" +:+ dq +:+ "3m" +:+ dq +:+ "}".

Definition payment123 : payment :=
  {| pay_status := "approved";
     external_reference := Some reference3m;
     transaction_amount := Some (40 # 1)%Q;
     currency_id := Some "USD"%string |}.

Definition pendingPayment : payment :=
  {| pay_status := "pending";
     external_reference := Some reference3m;
     transaction_amount := Some (40 # 1)%Q;
     currency_id := Some "USD"%string |}.

Definition preapprovalPro : preapproval :=
  {| pre_status := "authorized";
     payer_email := Some "a@b.com"%string;
     auto_recurring :=
       Some {| ar_transaction_amount := Some (25 # 1)%Q;
               ar_currency_id := Some "USD"%string |} |}.

Definition shop : env :=
  {| MP_WEBHOOK_SECRET := Some "S"%string;
     FIREBASE_API_KEY := Some "key"%string;
     paymentGet := fun id =>
       if String.eqb id "123" then Some payment123
       else if String.eqb id "124" then Some pendingPayment
       else None;
     preapprovalGet := fun id =>
       if String.eqb id "pre1" then Some preapprovalPro else None;
     authorizedPaymentFetch := fun _ => FetchNotOk;
     sendOobCode := fun _ => Some true |}.

Definition emptyWorld : world :=
  {| authUsers := ∅; users := ∅; outbox := []; faults := [] |}.

(** 29 February 2024, 12:00:00.123 UTC, and a second later. *)
Definition noon : clock :=
  {| t_now := 1709208000123; t_base := 1709208000124 |}.
Definition later : clock :=
  {| t_now := 1709208001123; t_base := 1709208001124 |}.

(** A world with one user whose licence runs until 15 January 2030. *)
Definition ann : authUser :=
  {| uid := "u1"; displayName := "ann"; emailVerified := true |}.

Definition annRecord : userRecord :=
  {| Email := Some "ann@b.com"%string; IsActive := Some true;
     LicenseType := Some (DStr "Monthly");
     ExpirationDate := Some "2030-01-15T00:00:00.000Z"%string;
     MaxDevices := Some (DNum 1);
     UpdatedAt := Some "2024-01-01T00:00:00.000Z"%string;
     CreatedAt := Some "2023-01-01T00:00:00.000Z"%string;
     ValidationCount := Some 7;
     activations := {[ "dev1"%string := "pc"%string ]};
     payments := ∅; subscription := None |}.

Definition annWorld : world :=
  {| authUsers := {[ "ann@b.com"%string := ann ]};
     users := {[ "u1"%string := annRecord ]};
     outbox := []; faults := [] |}.




(** A world whose coming calls have the outcomes [fs]. *)
Definition withFaults (fs : list bool) (w : world) : world :=
  {| authUsers := authUsers w; users := users w; outbox := outbox w;
     faults := fs |}.

Definition grant3 : grant :=
  {| licenseType := VStr "Monthly"; months := VNum 3; maxDevices := VNum 1;
     paymentId := Some "900"%string; preapprovalId := None;
     plan := "individual"; duration := Some "3m"%string;
     amount := Some (40 # 1)%Q; currency := Some "USD"%string;
     paymentType := "onetime" |}.


End Examples.

(** * Properties *)

Import JSDate JSString JSObject SHA256 Webhook Spec.

(** ** Runs *)

Lemma externalCall_nofault w : faults w = [] -> externalCall w = (Ok tt, w).
Proof. unfold externalCall. intros ->. reflexivity. Qed.

Lemma bind_ok {A B} (c : M A) (k : A -> M B) w a w' :
  c w = (Ok a, w') -> bind c k w = k a w'.
Proof. unfold bind. intros ->. reflexivity. Qed.

Lemma bind_throw {A B} (c : M A) (k : A -> M B) w e w' :
  c w = (Throw e, w') -> bind c k w = (Throw e, w').
Proof. unfold bind. intros ->. reflexivity. Qed.

(** A call to a service changes nothing but the pending outcomes. *)
Lemma externalCall_frame w :
  authUsers (snd (externalCall w)) = authUsers w
  /\ users (snd (externalCall w)) = users w
  /\ outbox (snd (externalCall w)) = outbox w.
Proof.
  unfold externalCall. destruct (faults w) as [|[] fs]; cbn; auto.
Qed.

Lemma externalCall_cases w :
  exists w', authUsers w' = authUsers w /\ users w' = users w
             /\ outbox w' = outbox w
             /\ (faults w = [] -> w' = w)
             /\ (externalCall w = (Ok tt, w')
                 \/ externalCall w = (Throw NetworkError, w')).
Proof.
  unfold externalCall. destruct (faults w) as [|[] fs] eqn:E.
  - exists w. repeat split; auto.
  - exists {| authUsers := authUsers w; users := users w;
              outbox := outbox w; faults := fs |}.
    repeat split; [discriminate | right; reflexivity].
  - exists {| authUsers := authUsers w; users := users w;
              outbox := outbox w; faults := fs |}.
    repeat split; [discriminate | left; reflexivity].
Qed.

Lemma userAt_insert_eq w u r us :
  users w = <[u := r]> us -> userAt w u = r.
Proof. unfold userAt. intros ->. rewrite lookup_insert_eq. reflexivity. Qed.

Lemma userAt_insert_ne w w0 u u' r :
  users w = <[u := r]> (users w0) -> u' <> u -> userAt w u' = userAt w0 u'.
Proof.
  unfold userAt. intros -> Hne. rewrite lookup_insert_ne by congruence.
  reflexivity.
Qed.

(** *** Relations kept along a run *)

Section Kept.
Variable R : world -> world -> Prop.
Hypothesis R_refl : forall w, R w w.
Hypothesis R_trans : forall a b c, R a b -> R b c -> R a c.

Lemma keeps_ret {A} (a : A) : keeps R (ret a).
Proof. intros w. apply R_refl. Qed.

Lemma keeps_throw {A} e : keeps R (@throw A e).
Proof. intros w. apply R_refl. Qed.

Lemma keeps_lift {A} (r : result A) : keeps R (lift r).
Proof. intros w. apply R_refl. Qed.

Lemma keeps_bind_at {A B} (c : M A) (k : A -> M B) w :
  R w (snd (c w)) ->
  (forall a w1, c w = (Ok a, w1) -> R w1 (snd (k a w1))) ->
  R w (snd (bind c k w)).
Proof.
  intros Hc Hk. unfold bind. destruct (c w) as [[a|e] w1] eqn:E; cbn in *.
  - eapply R_trans; [exact Hc | apply Hk; reflexivity].
  - exact Hc.
Qed.

Lemma keeps_bind {A B} (c : M A) (k : A -> M B) :
  keeps R c -> (forall a, keeps R (k a)) -> keeps R (bind c k).
Proof. intros Hc Hk w. apply keeps_bind_at; [apply Hc | intros; apply Hk]. Qed.

Lemma keeps_tryCatch_at {A} (c : M A) (h : exn -> M A) w :
  R w (snd (c w)) ->
  (forall e w1, c w = (Throw e, w1) -> R w1 (snd (h e w1))) ->
  R w (snd (tryCatch c h w)).
Proof.
  intros Hc Hh. unfold tryCatch. destruct (c w) as [[a|e] w1] eqn:E; cbn in *.
  - exact Hc.
  - eapply R_trans; [exact Hc | apply Hh; reflexivity].
Qed.

Lemma keeps_tryCatch {A} (c : M A) (h : exn -> M A) :
  keeps R c -> (forall e, keeps R (h e)) -> keeps R (tryCatch c h).
Proof.
  intros Hc Hh w. apply keeps_tryCatch_at; [apply Hc | intros; apply Hh].
Qed.
End Kept.

(** Computing the new date changes nothing. *)
Lemma keeps_extendedDate (R : world -> world -> Prop) rt base m :
  (forall w, R w w) -> keeps R (extendedDate rt base m).
Proof.
  intros Rr w. unfold extendedDate.
  destruct m; try apply Rr.
  - destruct (setMonth _ _ _); apply Rr.
  - destruct (rt_StringToInteger rt _); [|apply Rr].
    destruct (setMonth _ _ _); apply Rr.
Qed.


(** *** The fault-free run of [activateLicense] *)

Lemma getUserByEmail_found email w usr :
  faults w = [] -> authUsers w !! email = Some usr ->
  getUserByEmail email w = (Ok (uid usr), w).
Proof.
  intros Hf Hu. unfold getUserByEmail.
  rewrite (bind_ok _ _ _ _ _ (externalCall_nofault _ Hf)), Hu. reflexivity.
Qed.

Lemma getUserByEmail_missing email w :
  faults w = [] -> authUsers w !! email = None ->
  getUserByEmail email w = (Throw AuthError, w).
Proof.
  intros Hf Hu. unfold getUserByEmail.
  rewrite (bind_ok _ _ _ _ _ (externalCall_nofault _ Hf)), Hu. reflexivity.
Qed.

Lemma findOrCreateUser_found rt email w usr :
  faults w = [] -> authUsers w !! email = Some usr ->
  findOrCreateUser rt email w = (Ok (uid usr, false), w).
Proof.
  intros Hf Hu. unfold findOrCreateUser, tryCatch.
  rewrite (bind_ok _ _ _ _ _ (getUserByEmail_found _ _ _ Hf Hu)). reflexivity.
Qed.

Lemma findOrCreateUser_new rt email w :
  faults w = [] -> authUsers w !! email = None ->
  findOrCreateUser rt email w =
    (Ok (rt_newUid rt (authUsers w), true),
     {| authUsers :=
          <[email := {| uid := rt_newUid rt (authUsers w);
                        displayName := localPart email;
                        emailVerified := false |}]> (authUsers w);
        users := users w; outbox := outbox w; faults := faults w |}).
Proof.
  intros Hf Hu. unfold findOrCreateUser, tryCatch.
  rewrite (bind_throw _ _ _ _ _ (getUserByEmail_missing _ _ Hf Hu)).
  unfold createUser, bind.
  rewrite (externalCall_nofault _ Hf), Hu. reflexivity.
Qed.

Lemma putUser_nofault u f w :
  faults w = [] ->
  putUser u f w =
    (Ok tt, {| authUsers := authUsers w;
               users := <[u := f (userAt w u)]> (users w);
               outbox := outbox w; faults := faults w |}).
Proof.
  intros Hf. unfold putUser.
  rewrite (bind_ok _ _ _ _ _ (externalCall_nofault _ Hf)). reflexivity.
Qed.

Lemma readExpiration_nofault u w :
  faults w = [] ->
  readExpiration u w = (Ok (ExpirationDate (userAt w u)), w).
Proof.
  intros Hf. unfold readExpiration.
  rewrite (bind_ok _ _ _ _ _ (externalCall_nofault _ Hf)). reflexivity.
Qed.

Lemma sendActivationEmail_ok ev email w :
  exists w', sendActivationEmail ev email w = (Ok tt, w')
             /\ authUsers w' = authUsers w /\ users w' = users w
             /\ faults w' = faults w.
Proof.
  unfold sendActivationEmail.
  destruct (present (FIREBASE_API_KEY ev)); [|eexists; split; [reflexivity|auto]].
  destruct (sendOobCode ev email) as [[]|]; eexists; (split; [reflexivity|auto]).
Qed.

Lemma setMonth_plusMonths tza t m :
  setMonth tza t (getMonth tza t + m) = plusMonths tza t m.
Proof.
  unfold setMonth, plusMonths, rawPlusMonths, civilOf, MakeDay, firstOfMonth,
    getMonth.
  cbn [c_year c_month c_day c_time]. reflexivity.
Qed.

(** With every call answered, a well-formed grant and a representable
    new date, the activation completes, and the user's record is the
    old one with the three writes applied. *)
Lemma activateLicense_run rt ev clk email info w m t' lt md :
  faults w = [] ->
  months info = VNum m ->
  toDb (licenseType info) = Ok lt ->
  toDb (maxDevices info) = Ok md ->
  plusMonths (rt_LocalTZA rt)
    (baseDateOf rt clk (ExpirationDate (userAt w (resolvedUid rt w email)))) m
    = Some t' ->
  exists w' usr',
    activateLicense rt ev clk email info w = (Ok tt, w')
    /\ faults w' = []
    /\ authUsers w' !! email = Some usr'
    /\ uid usr' = resolvedUid rt w email
    /\ userAt w' (resolvedUid rt w email) =
         activatedRecord email info lt md (toISOString (t_now clk))
           (toISOString t')
           (bool_decide (authUsers w !! email = None))
           (userAt w (resolvedUid rt w email))
    /\ forall u', u' <> resolvedUid rt w email -> userAt w' u' = userAt w u'.
Proof.
  intros Hf Hm Hlt Hmd Hp. unfold activateLicense.
  assert (exists w1 usr1 isNew,
    findOrCreateUser rt email w = (Ok (resolvedUid rt w email, isNew), w1)
    /\ isNew = bool_decide (authUsers w !! email = None)
    /\ faults w1 = [] /\ users w1 = users w
    /\ authUsers w1 !! email = Some usr1
    /\ uid usr1 = resolvedUid rt w email) as (w1 & usr1 & isNew & Hfind & HisNew & Hf1 & Hus1 & Hau1 & Huid1).
  { unfold resolvedUid. destruct (authUsers w !! email) as [usr|] eqn:Hu.
    - exists w, usr, false. rewrite (findOrCreateUser_found rt _ _ _ Hf Hu).
      repeat split; auto.
    - eexists _, _, true. rewrite (findOrCreateUser_new rt _ _ Hf Hu).
      split; [reflexivity|]. cbn.
      split; [reflexivity|]. split; [assumption|]. split; [reflexivity|].
      rewrite lookup_insert_eq. split; reflexivity. }
  set (u := resolvedUid rt w email) in *.
  rewrite (bind_ok _ _ _ _ _ Hfind). cbn [fst snd].
  assert (Hua : userAt w1 u = userAt w u) by (unfold userAt; rewrite Hus1; reflexivity).
  rewrite (bind_ok _ _ _ _ _ (readExpiration_nofault _ _ Hf1)).
  rewrite Hua.
  unfold extendedDate at 1. rewrite Hm, setMonth_plusMonths, Hp.
  rewrite (bind_ok _ _ _ t' w1 eq_refl).
  rewrite Hlt, Hmd.
  rewrite (bind_ok _ _ _ lt w1 eq_refl), (bind_ok _ _ _ md w1 eq_refl).
  rewrite (bind_ok _ _ _ _ _ (putUser_nofault _ _ _ Hf1)).
  set (w2 := {| authUsers := authUsers w1; users := _; outbox := _; faults := _ |}).
  assert (Hf2 : faults w2 = []) by exact Hf1.
  assert (exists w3, (if present (paymentId info)
            then putUser u (setPayment (default EmptyString (paymentId info))
                   (entryFor info (toISOString (t_now clk))))
            else ret tt) w2 = (Ok tt, w3)
          /\ faults w3 = [] /\ authUsers w3 = authUsers w1
          /\ userAt w3 u =
              (if present (paymentId info)
               then setPayment (default EmptyString (paymentId info))
                      (entryFor info (toISOString (t_now clk)))
                      (userAt w2 u)
               else userAt w2 u)
          /\ forall u', u' <> u -> userAt w3 u' = userAt w2 u')
    as (w3 & Hstep3 & Hf3 & Hau3 & Hrec3 & Hoth3).
  { destruct (present (paymentId info)).
    - rewrite (putUser_nofault _ _ _ Hf2). eexists. split; [reflexivity|].
      cbn. repeat split; auto.
      + eapply userAt_insert_eq. reflexivity.
      + intros u' Hne. eapply userAt_insert_ne; [reflexivity | exact Hne].
    - exists w2. repeat split; auto. }
  rewrite (bind_ok _ _ _ _ _ Hstep3).
  assert (exists w4, (if present (preapprovalId info)
            then putUser u (setSubscription
                   (subscriptionFor info (toISOString (t_now clk))
                      (toISOString t')))
            else ret tt) w3 = (Ok tt, w4)
          /\ faults w4 = [] /\ authUsers w4 = authUsers w1
          /\ userAt w4 u =
              (if present (preapprovalId info)
               then setSubscription
                      (subscriptionFor info (toISOString (t_now clk))
                         (toISOString t')) (userAt w3 u)
               else userAt w3 u)
          /\ forall u', u' <> u -> userAt w4 u' = userAt w3 u')
    as (w4 & Hstep4 & Hf4 & Hau4 & Hrec4 & Hoth4).
  { destruct (present (preapprovalId info)).
    - rewrite (putUser_nofault _ _ _ Hf3). eexists. split; [reflexivity|].
      cbn. repeat split; auto.
      + eapply userAt_insert_eq. reflexivity.
      + intros u' Hne. eapply userAt_insert_ne; [reflexivity | exact Hne].
    - exists w3. repeat split; auto. }
  rewrite (bind_ok _ _ _ _ _ Hstep4).
  assert (Hrec2 : userAt w2 u =
            applyUpdates email lt md (toISOString t')
              (toISOString (t_now clk)) isNew (userAt w u)).
  { rewrite <- Hua. eapply userAt_insert_eq. reflexivity. }
  assert (Hoth2 : forall u', u' <> u -> userAt w2 u' = userAt w u').
  { intros u' Hne. unfold userAt at 2. rewrite <- Hus1.
    eapply userAt_insert_ne; [reflexivity | exact Hne]. }
  assert (Hfinal : userAt w4 u =
            activatedRecord email info lt md (toISOString (t_now clk))
              (toISOString t') isNew (userAt w u)).
  { unfold activatedRecord. rewrite Hrec4, Hrec3, Hrec2. reflexivity. }
  assert (Hothers : forall u', u' <> u -> userAt w4 u' = userAt w u').
  { intros u' Hne. rewrite Hoth4, Hoth3, Hoth2 by exact Hne. reflexivity. }
  destruct isNew.
  - destruct (sendActivationEmail_ok ev email w4) as (w5 & Hs & Ha5 & Hu5 & Hf5).
    exists w5, usr1. rewrite Hs. split; [reflexivity|].
    rewrite Hf5, Ha5, Hau4. rewrite <- HisNew.
    repeat split; auto.
    + unfold userAt. rewrite Hu5. exact Hfinal.
    + intros u' Hne. unfold userAt at 1. rewrite Hu5. apply Hothers, Hne.
  - exists w4, usr1. split; [reflexivity|]. rewrite Hau4, <- HisNew.
    repeat split; auto.
Qed.

(** *** Runs under arbitrary faults *)

Lemma findOrCreateUser_existing rt email w usr :
  authUsers w !! email = Some usr ->
  authUsers (snd (findOrCreateUser rt email w)) = authUsers w
  /\ users (snd (findOrCreateUser rt email w)) = users w
  /\ outbox (snd (findOrCreateUser rt email w)) = outbox w
  /\ forall a, fst (findOrCreateUser rt email w) = Ok a -> a = (uid usr, false).
Proof.
  intros Hu. unfold findOrCreateUser, tryCatch, getUserByEmail, createUser, bind.
  destruct (externalCall_cases w) as (w1 & Ha1 & Hu1 & Ho1 & _ & [E1|E1]);
    rewrite E1.
  - rewrite Ha1, Hu. cbn. repeat split; auto. intros a [= <-]. reflexivity.
  - destruct (externalCall_cases w1) as (w2 & Ha2 & Hu2 & Ho2 & _ & [E2|E2]);
      rewrite E2.
    + rewrite Ha2, Ha1, Hu. cbn. repeat split; try congruence.
    + cbn. repeat split; try congruence.
Qed.

Lemma putUser_cases u f w :
  authUsers (snd (putUser u f w)) = authUsers w
  /\ outbox (snd (putUser u f w)) = outbox w
  /\ (forall u', u' <> u -> userAt (snd (putUser u f w)) u' = userAt w u')
  /\ (userAt (snd (putUser u f w)) u = userAt w u
      \/ userAt (snd (putUser u f w)) u = f (userAt w u)).
Proof.
  unfold putUser, bind.
  destruct (externalCall_cases w) as (w1 & Ha1 & Hu1 & Ho1 & _ & [E1|E1]);
    rewrite E1; cbn.
  - assert (Hat : forall x, userAt w1 x = userAt w x)
      by (intros x; unfold userAt; rewrite Hu1; reflexivity).
    repeat split; auto.
    + intros u' Hne. rewrite <- Hat.
      eapply userAt_insert_ne; [reflexivity | exact Hne].
    + right. rewrite <- Hat. eapply userAt_insert_eq. reflexivity.
  - assert (Hat : forall x, userAt w1 x = userAt w x)
      by (intros x; unfold userAt; rewrite Hu1; reflexivity).
    repeat split; auto.
Qed.










Ltac dlia := Z.div_mod_to_equations; lia.

(** ** Dates *)

(** [YearFromDay d] is the year ECMA-262 defines: the largest one whose
    first day is not after [d]. *)
Lemma YearFromDay_spec d :
  DayFromYear (YearFromDay d) <= d < DayFromYear (YearFromDay d + 1).
Proof. unfold YearFromDay, DayFromYear. dlia. Qed.

Lemma DayFromYear_next y : DayFromYear (y + 1) = DayFromYear y + DaysInYear y.
Proof.
  unfold DayFromYear, DaysInYear, isLeapYear.
  destruct (y mod 4 =? 0) eqn:E4; destruct (y mod 100 =? 0) eqn:E100;
    destruct (y mod 400 =? 0) eqn:E400; cbn -[Z.div Z.modulo];
    rewrite ?Z.eqb_eq, ?Z.eqb_neq in *; dlia.
Qed.

Lemma DayFromYear_mono y1 y2 : y1 <= y2 -> DayFromYear y1 <= DayFromYear y2.
Proof. unfold DayFromYear. dlia. Qed.

Lemma YearFromDay_unique d y :
  DayFromYear y <= d < DayFromYear (y + 1) -> YearFromDay d = y.
Proof.
  intros H. pose proof (YearFromDay_spec d) as S.
  destruct (Z.lt_trichotomy (YearFromDay d) y) as [L|[E|L]]; [|exact E|].
  - pose proof (DayFromYear_mono (YearFromDay d + 1) y ltac:(lia)). lia.
  - pose proof (DayFromYear_mono (y + 1) (YearFromDay d) ltac:(lia)). lia.
Qed.

Lemma DayWithinYear_range t :
  0 <= DayWithinYear t < DaysInYear (YearFromTime t).
Proof.
  unfold DayWithinYear, YearFromTime.
  pose proof (YearFromDay_spec (Day t)) as S.
  rewrite DayFromYear_next in S. lia.
Qed.

Lemma InLeapYear_cases t :
  (InLeapYear t = 0 /\ DaysInYear (YearFromTime t) = 365)
  \/ (InLeapYear t = 1 /\ DaysInYear (YearFromTime t) = 366).
Proof.
  unfold InLeapYear, DaysInYear. destruct (isLeapYear _); auto.
Qed.

Lemma MonthFromTime_range t : 0 <= MonthFromTime t <= 11.
Proof.
  unfold MonthFromTime, monthOfYearDay.
  repeat match goal with
         | |- context [if ?c then _ else _] => destruct c
         end; lia.
Qed.

(** The day of the month lies in the month. *)
Lemma DateFromTime_range t :
  1 <= DateFromTime t
       <= DaysInMonth (YearFromTime t) (MonthFromTime t + 1).
Proof.
  pose proof (DayWithinYear_range t) as R.
  unfold DateFromTime, DaysInMonth, MonthFromTime.
  replace (if isLeapYear (YearFromTime t) then 1 else 0) with (InLeapYear t)
    by reflexivity.
  destruct (InLeapYear_cases t) as [[-> Hy]|[-> Hy]]; rewrite Hy in R;
    unfold monthOfYearDay;
    repeat match goal with
           | |- context [if ?a <? ?b then _ else _] =>
               destruct (Z.ltb_spec a b)
           end;
    repeat match goal with
           | |- context [monthStart ?a ?b] =>
               let v := eval vm_compute in (monthStart a b) in
               change (monthStart a b) with v
           end; lia.
Qed.

(** The calendar fields give the day back. *)
Lemma MakeDay_fields t :
  MakeDay (YearFromTime t) (MonthFromTime t) (DateFromTime t) = Day t.
Proof.
  pose proof (MonthFromTime_range t) as Rm.
  unfold MakeDay.
  rewrite (Z.div_small (MonthFromTime t) 12) by lia.
  rewrite (Z.mod_small (MonthFromTime t) 12) by lia.
  rewrite Z.add_0_r.
  replace (if isLeapYear (YearFromTime t) then 1 else 0) with (InLeapYear t)
    by reflexivity.
  unfold DateFromTime, DayWithinYear. lia.
Qed.

Lemma MakeTime_fields t :
  MakeTime (HourFromTime t) (MinFromTime t) (SecFromTime t) (msFromTime t)
  = TimeWithinDay t.
Proof.
  unfold MakeTime, HourFromTime, MinFromTime, SecFromTime, msFromTime,
    TimeWithinDay, msPerDay. dlia.
Qed.

Lemma MakeDate_fields t :
  MakeDate (MakeDay (YearFromTime t) (MonthFromTime t) (DateFromTime t))
    (MakeTime (HourFromTime t) (MinFromTime t) (SecFromTime t) (msFromTime t))
  = t.
Proof.
  rewrite MakeDay_fields, MakeTime_fields.
  unfold MakeDate, Day, TimeWithinDay, msPerDay. dlia.
Qed.

Lemma YearFromTime_valid t :
  validTime t -> -271821 <= YearFromTime t <= 275760.
Proof.
  unfold validTime, maxTime, YearFromTime, Day, msPerDay, YearFromDay. dlia.
Qed.

(** *** Reading back what [toISOString] writes *)

Lemma append_cons c (s r : string) : String c s +:+ r = String c (s +:+ r).
Proof. reflexivity. Qed.

Lemma append_nil (r : string) : "" +:+ r = r.
Proof. reflexivity. Qed.

Lemma append_assoc (a b c : string) : (a +:+ b) +:+ c = a +:+ (b +:+ c).
Proof.
  induction a as [|x a IH]; [reflexivity|].
  rewrite !append_cons, IH. reflexivity.
Qed.

Lemma option_bind_Some {A B} (x : A) (f : A -> option B) : Some x ≫= f = f x.
Proof. reflexivity. Qed.

Lemma digitVal_digitChar d : 0 <= d <= 9 -> digitVal (digitChar d) = Some d.
Proof.
  intros H. unfold digitVal, digitChar.
  rewrite N_ascii_embedding by lia.
  destruct (N.leb_spec 48 (48 + Z.to_N d)); [|lia].
  destruct (N.leb_spec (48 + Z.to_N d) 57); [|lia].
  cbn [andb]. f_equal. lia.
Qed.

Lemma readDigits_pad n : forall k acc rest,
  0 <= k < 10 ^ Z.of_nat n ->
  readDigits n acc (pad n k +:+ rest) = Some (acc * 10 ^ Z.of_nat n + k, rest).
Proof.
  induction n as [|n IH]; intros k acc rest Hk.
  - cbn. f_equal. f_equal. change (10 ^ Z.of_nat 0) with 1 in *. lia.
  - cbn [pad readDigits]. rewrite append_cons.
    assert (Hp : 10 ^ Z.of_nat (S n) = 10 * 10 ^ Z.of_nat n).
    { rewrite Nat2Z.inj_succ, Z.pow_succ_r by lia. reflexivity. }
    assert (Hpos : 0 < 10 ^ Z.of_nat n) by (apply Z.pow_pos_nonneg; lia).
    rewrite Hp in Hk.
    assert (Hq : 0 <= k / 10 ^ Z.of_nat n <= 9).
    { split; [apply Z.div_pos; lia|].
      assert (k / 10 ^ Z.of_nat n < 10); [|lia].
      apply Z.div_lt_upper_bound; lia. }
    rewrite (digitVal_digitChar _ Hq).
    rewrite IH by (apply Z.mod_pos_bound; lia).
    f_equal. f_equal. rewrite Hp.
    pose proof (Z.div_mod k (10 ^ Z.of_nat n) ltac:(lia)). nia.
Qed.

Lemma readYear_digit c r v :
  digitVal c = Some v -> readYear (String c r) = readDigits 4 0 (String c r).
Proof.
  destruct c as [[] [] [] [] [] [] [] []]; try reflexivity;
    vm_compute; discriminate.
Qed.

Lemma readYear_isoYear y rest :
  -999999 <= y <= 999999 ->
  readYear (isoYear y +:+ rest) = Some (y, rest).
Proof.
  intros Hy. unfold isoYear.
  destruct (Z.leb_spec 0 y); cbn [andb].
  - destruct (Z.leb_spec y 9999).
    + pose proof (readDigits_pad 4 y 0 rest) as Hr.
      change (10 ^ Z.of_nat 4) with 10000 in Hr.
      specialize (Hr ltac:(lia)).
      cbn [pad] in *. rewrite append_cons in *.
      erewrite readYear_digit; [rewrite Hr; f_equal; f_equal; lia|].
      apply digitVal_digitChar.
      change (10 ^ Z.of_nat 3) with 1000. dlia.
    + pose proof (readDigits_pad 6 (Z.abs y) 0 rest) as Hr.
      change (10 ^ Z.of_nat 6) with 1000000 in Hr.
      specialize (Hr ltac:(lia)).
      rewrite append_assoc, append_cons, append_nil.
      change (readYear (String "+" (pad 6 (Z.abs y) +:+ rest)))
        with (readDigits 6 0 (pad 6 (Z.abs y) +:+ rest)).
      rewrite Hr. f_equal. f_equal. lia.
  - pose proof (readDigits_pad 6 (Z.abs y) 0 rest) as Hr.
    change (10 ^ Z.of_nat 6) with 1000000 in Hr.
    specialize (Hr ltac:(lia)).
    rewrite append_assoc, append_cons, append_nil.
    change (readYear (String "-" (pad 6 (Z.abs y) +:+ rest)))
      with (match readDigits 6 0 (pad 6 (Z.abs y) +:+ rest) with
            | Some (y0, r') => if y0 =? 0 then None else Some (- y0, r')
            | None => None
            end).
    rewrite Hr. destruct (Z.eqb_spec (0 * 1000000 + Z.abs y) 0); [lia|].
    f_equal. f_equal. lia.
Qed.

Lemma TimeClip_valid t : validTime t -> TimeClip t = Some t.
Proof.
  unfold validTime, TimeClip. intros H.
  destruct (Z.leb_spec (- maxTime) t); [|lia].
  destruct (Z.leb_spec t maxTime); [|lia]. reflexivity.
Qed.

Lemma TimeClip_Some t t' : TimeClip t = Some t' -> t' = t /\ validTime t'.
Proof.
  unfold validTime, TimeClip.
  destruct (Z.leb_spec (- maxTime) t); [|discriminate].
  destruct (Z.leb_spec t maxTime); [|discriminate].
  cbn. intros [= <-]. lia.
Qed.

(** [Date.parse (x.toISOString ())] is the time value of [x], for every
    valid date [x]: the reader [parseISO] reads every string that
    [toISOString] writes back to the time value written. *)
Lemma parseISO_toISOString t : validTime t -> parseISO (toISOString t) = Some t.
Proof.
  intros Hv. unfold toISOString, parseISO.
  pose proof (YearFromTime_valid t Hv) as Hy.
  pose proof (MonthFromTime_range t) as Hm.
  pose proof (DateFromTime_range t) as Hd.
  assert (Hdm : DaysInMonth (YearFromTime t) (MonthFromTime t + 1) <= 31).
  { unfold DaysInMonth. destruct (isLeapYear _);
      assert (MonthFromTime t = 0 \/ MonthFromTime t = 1 \/ MonthFromTime t = 2
              \/ MonthFromTime t = 3 \/ MonthFromTime t = 4
              \/ MonthFromTime t = 5 \/ MonthFromTime t = 6
              \/ MonthFromTime t = 7 \/ MonthFromTime t = 8
              \/ MonthFromTime t = 9 \/ MonthFromTime t = 10
              \/ MonthFromTime t = 11) as Hc by lia;
      repeat (destruct Hc as [->|Hc]); try rewrite Hc; vm_compute; discriminate. }
  rewrite ?append_assoc.
  rewrite readYear_isoYear by lia.
  rewrite !append_cons, !append_nil.
  rewrite ?option_bind_Some; cbv beta iota; cbn [expect Ascii.eqb Bool.eqb]; rewrite ?option_bind_Some.
  rewrite (readDigits_pad 2 (MonthFromTime t + 1) 0)
    by (change (10 ^ Z.of_nat 2) with 100; lia).
  rewrite ?option_bind_Some; cbv beta iota; cbn [expect Ascii.eqb Bool.eqb]; rewrite ?option_bind_Some.
  rewrite (readDigits_pad 2 (DateFromTime t) 0)
    by (change (10 ^ Z.of_nat 2) with 100; lia).
  rewrite ?option_bind_Some; cbv beta iota; cbn [expect Ascii.eqb Bool.eqb]; rewrite ?option_bind_Some.
  rewrite (readDigits_pad 2 (HourFromTime t) 0)
    by (change (10 ^ Z.of_nat 2) with 100; unfold HourFromTime; dlia).
  rewrite ?option_bind_Some; cbv beta iota; cbn [expect Ascii.eqb Bool.eqb]; rewrite ?option_bind_Some.
  rewrite (readDigits_pad 2 (MinFromTime t) 0)
    by (change (10 ^ Z.of_nat 2) with 100; unfold MinFromTime; dlia).
  rewrite ?option_bind_Some; cbv beta iota; cbn [expect Ascii.eqb Bool.eqb]; rewrite ?option_bind_Some.
  rewrite (readDigits_pad 2 (SecFromTime t) 0)
    by (change (10 ^ Z.of_nat 2) with 100; unfold SecFromTime; dlia).
  rewrite ?option_bind_Some; cbv beta iota; cbn [expect Ascii.eqb Bool.eqb]; rewrite ?option_bind_Some.
  change ("Z" : string) with ("Z" +:+ "") at 1.
  rewrite (readDigits_pad 3 (msFromTime t) 0)
    by (change (10 ^ Z.of_nat 3) with 1000; unfold msFromTime; dlia).
  rewrite ?option_bind_Some; cbv beta iota; cbn [expect Ascii.eqb Bool.eqb]; rewrite ?option_bind_Some.
  rewrite append_cons, append_nil.
  cbn [expect Ascii.eqb Bool.eqb]. rewrite option_bind_Some. cbv beta iota.
  rewrite !Z.mul_0_l, !Z.add_0_l.
  replace (MonthFromTime t + 1 - 1) with (MonthFromTime t) by lia.
  rewrite MakeDate_fields.
  assert (HourFromTime t <= 23) by (unfold HourFromTime; dlia).
  assert (MinFromTime t <= 59) by (unfold MinFromTime; dlia).
  assert (SecFromTime t <= 59) by (unfold SecFromTime; dlia).
  repeat match goal with
         | |- context [?a <=? ?b] => destruct (Z.leb_spec a b); [|lia]
         end.
  cbn [andb]. apply TimeClip_valid, Hv.
Qed.

(** ** Strings and buffers *)

Lemma allChars_impl (P Q : ascii -> bool) s :
  (forall c, P c = true -> Q c = true) ->
  allChars P s = true -> allChars Q s = true.
Proof.
  intros H. induction s as [|c r IH]; [reflexivity|]. cbn.
  rewrite !andb_true_iff. intros [Hc Hr]. split; [apply H, Hc | apply IH, Hr].
Qed.






(** *** [trim] *)

Lemma wsLength_plain c r : plainChar c = true -> wsLength (String c r) = 0%nat.
Proof.
  unfold plainChar, wsLength, byteAt. cbn [String.get].
  intros H. apply andb_true_iff in H. destruct H as [H1 H2].
  apply N.leb_le in H1. apply N.leb_le in H2.
  repeat match goal with
         | |- context [N.leb ?x ?y] => destruct (N.leb_spec x y); try lia
         | |- context [N.eqb ?x ?y] => destruct (N.eqb_spec x y); try lia
         end; reflexivity.
Qed.




(** *** [split] *)

Lemma split_no_sep sep s : allChars (notChar sep) s = true -> split sep s = [s].
Proof.
  induction s as [|c r IH]; [reflexivity|]. cbn [allChars split].
  intros H. apply andb_true_iff in H. destruct H as [Hc Hr].
  unfold notChar in Hc. apply negb_true_iff in Hc. rewrite Hc, (IH Hr).
  reflexivity.
Qed.

Lemma split_app_sep sep a b :
  allChars (notChar sep) a = true ->
  split sep (a +:+ String sep b) = a :: split sep b.
Proof.
  induction a as [|c r IH].
  - intros _. rewrite append_nil. cbn [split]. rewrite Ascii.eqb_refl. reflexivity.
  - cbn [allChars]. intros H. apply andb_true_iff in H. destruct H as [Hc Hr].
    rewrite append_cons. cbn [split].
    unfold notChar in Hc. apply negb_true_iff in Hc. rewrite Hc, (IH Hr).
    reflexivity.
Qed.

(** *** Paths *)

Lemma keyChar_notSlash c : keyChar c = true -> notChar "/" c = true.
Proof. destruct c as [[] [] [] [] [] [] [] []]; vm_compute; congruence. Qed.

(** An id without a slash is its own path. *)
Lemma segments_plain id :
  allChars (notChar "/") id = true -> id <> EmptyString ->
  segments id = [id].
Proof.
  intros H Hne. unfold segments. rewrite (split_no_sep "/" id H).
  cbn [List.filter]. apply String.eqb_neq in Hne. rewrite Hne. reflexivity.
Qed.

Lemma plainKey_present id : plainKey id = true -> present (Some id) = true.
Proof.
  unfold plainKey. intros H. rewrite !andb_true_iff in H. apply H.
Qed.

Lemma plainKey_segments id : plainKey id = true -> segments id = [id].
Proof.
  unfold plainKey. intros H. rewrite !andb_true_iff in H.
  destruct H as [[Hne Hk] _]. apply segments_plain.
  - apply (allChars_impl keyChar); [apply keyChar_notSlash | exact Hk].
  - apply negb_true_iff, String.eqb_neq in Hne. exact Hne.
Qed.

(** *** Hexadecimal *)









(** *** The digest *)

Lemma sha256_length msg : length (sha256 msg) = 32%nat.
Proof. unfold sha256. rewrite !length_app. reflexivity. Qed.

Lemma hmac_sha256_length key msg : length (hmac_sha256 key msg) = 32%nat.
Proof. unfold hmac_sha256. apply sha256_length. Qed.

(** ** The signature verifier *)





(** The model of the digest against published values: SHA-256 of [abc]
    (FIPS 180-4), HMAC-SHA256 of RFC 4231, test case 2, and a key longer
    than a block. *)
Lemma sha256_abc :
  hexEncode (sha256 (bytesOf "abc"))
  = "ba7816bf8f01cfea414140de5dae2223b00361a396177a9cb410ff61f20015ad"%string.
Proof. vm_compute. reflexivity. Qed.

Lemma hmac_rfc4231_case2 :
  hmacHex "Jefe" "what do ya want for nothing?"
  = "5bdcc146bf60754e6a042426089575c75a003f089d2739839dec58b964ec3843"%string.
Proof. vm_compute. reflexivity. Qed.

Lemma hmac_long_key :
  hexEncode (hmac_sha256 (repeat "k"%char 100) (bytesOf "hello"))
  = "3fd578d761a4f6703009e92d2e8a0aea22ab9ab50d4ad250dc95d8c369dec3f5"%string.
Proof. vm_compute. reflexivity. Qed.

(** ** The licence activator *)

Lemma baseDateOf_stored rt clk r :
  baseDateOf rt clk (ExpirationDate r) =
    match storedExpiration rt r with
    | Some E => if t_now clk <? E then E else t_base clk
    | None => t_base clk
    end.
Proof.
  unfold baseDateOf, storedExpiration, present.
  destruct (ExpirationDate r) as [s|]; [|reflexivity]. cbn.
  destruct (String.eqb s ""); reflexivity.
Qed.

Lemma activatedRecord_expiration email info lt md nowIso e isNew r :
  ExpirationDate (activatedRecord email info lt md nowIso e isNew r) = Some e.
Proof.
  unfold activatedRecord.
  destruct (present (preapprovalId info)), (present (paymentId info));
    reflexivity.
Qed.

(** C1. A grant of [m] months extends from the stored expiration when
    there is one and it is strictly after the current time, and from the
    current time otherwise (nothing stored, a stored text that is no
    date, or an expiration at or before now); the months are added by raw
    month increment. The current time is the clock as the code reads it:
    [t_now] in the comparison, [t_base] as the base. The new date has to
    be a time value, and every call has to be answered. *)
Theorem activateLicense_expiration rt ev clk email info w m lt md :
  faults w = [] ->
  months info = VNum m ->
  toDb (licenseType info) = Ok lt ->
  toDb (maxDevices info) = Ok md ->
  (forall E t',
      storedExpiration rt (userAt w (resolvedUid rt w email)) = Some E ->
      t_now clk < E ->
      plusMonths (rt_LocalTZA rt) E m = Some t' ->
      exists w',
        activateLicense rt ev clk email info w = (Ok tt, w')
        /\ ExpirationDate (userAt w' (resolvedUid rt w email))
           = Some (toISOString t'))
  /\ (forall t',
      (storedExpiration rt (userAt w (resolvedUid rt w email)) = None
       \/ exists E,
            storedExpiration rt (userAt w (resolvedUid rt w email)) = Some E
            /\ E <= t_now clk) ->
      plusMonths (rt_LocalTZA rt) (t_base clk) m = Some t' ->
      exists w',
        activateLicense rt ev clk email info w = (Ok tt, w')
        /\ ExpirationDate (userAt w' (resolvedUid rt w email))
           = Some (toISOString t')).
Proof.
  intros Hf Hm Hlt Hmd. split.
  - intros E t' Hs Hlt' Hp.
    destruct (activateLicense_run rt ev clk email info w m t' lt md Hf Hm Hlt Hmd)
      as (w' & usr' & Hrun & _ & _ & _ & Hrec & _).
    { rewrite baseDateOf_stored, Hs.
      destruct (Z.ltb_spec (t_now clk) E); [exact Hp | lia]. }
    exists w'. split; [exact Hrun|].
    rewrite Hrec. apply activatedRecord_expiration.
  - intros t' Hs Hp.
    destruct (activateLicense_run rt ev clk email info w m t' lt md Hf Hm Hlt Hmd)
      as (w' & usr' & Hrun & _ & _ & _ & Hrec & _).
    { rewrite baseDateOf_stored. destruct Hs as [-> | (E & -> & Hle)].
      - exact Hp.
      - destruct (Z.ltb_spec (t_now clk) E); [lia | exact Hp]. }
    exists w'. split; [exact Hrun|].
    rewrite Hrec. apply activatedRecord_expiration.
Qed.

Lemma activateLicense_expiration_witness :
  exists w',
    activateLicense Examples.utcHost Examples.shop Examples.noon "ann@b.com"
      Examples.grant3 Examples.annWorld = (Ok tt, w')
    /\ ExpirationDate (userAt w' "u1") = Some "2030-04-15T00:00:00.000Z"%string.
Proof.
  refine (proj1 (activateLicense_expiration Examples.utcHost Examples.shop
                   Examples.noon "ann@b.com" Examples.grant3 Examples.annWorld
                   3 (Some (DStr "Monthly")) (Some (DNum 1))
                   eq_refl eq_refl eq_refl eq_refl)
                1894665600000 1902441600000 _ _ _);
    vm_compute; reflexivity.
Defined.




(** ** The resolver *)

Lemma eqb_false_of_neq (a b : string) : a <> b -> String.eqb a b = false.
Proof. intros H. apply String.eqb_neq. exact H. Qed.

(** C4. When the object fetched from the processor has not the status
    the path requires ([approved] for a payment, [authorized] for a
    preapproval, [processed] for an authorized payment), the processing
    returns normally and leaves the world as it was: no user is created
    and nothing is written. *)
Theorem wrong_status_is_noop rt ev clk id w :
  (forall pay,
      paymentGet ev id = Some pay -> pay_status pay <> "approved"%string ->
      handlePayment rt ev clk id w = (Ok tt, w)
      /\ NetlifyWebhook.handlePayment rt ev clk id w = (Ok tt, w))
  /\ (forall presub,
      preapprovalGet ev id = Some presub ->
      pre_status presub <> "authorized"%string ->
      handleSubscription rt ev clk id w = (Ok tt, w))
  /\ (forall status pre,
      authorizedPaymentFetch ev id = FetchJson status pre ->
      status <> Some "processed"%string ->
      handleSubscriptionRenewal rt ev clk id w = (Ok tt, w)).
Proof.
  split; [|split].
  - intros pay Hg Hs.
    unfold handlePayment, NetlifyWebhook.handlePayment. rewrite Hg.
    rewrite (eqb_false_of_neq _ _ Hs). split; reflexivity.
  - intros presub Hg Hs. unfold handleSubscription. rewrite Hg.
    rewrite (eqb_false_of_neq _ _ Hs). reflexivity.
  - intros status pre Hg Hs. unfold handleSubscriptionRenewal. rewrite Hg.
    assert (String.eqb (default EmptyString status) "processed" = false) as ->.
    { apply String.eqb_neq. destruct status as [s|]; cbn.
      - intros ->. apply Hs. reflexivity.
      - discriminate. }
    reflexivity.
Qed.

Lemma wrong_status_is_noop_witness :
  handlePayment Examples.utcHost Examples.shop Examples.noon "124"
    Examples.emptyWorld = (Ok tt, Examples.emptyWorld).
Proof.
  refine (proj1 (proj1 (wrong_status_is_noop Examples.utcHost Examples.shop
                          Examples.noon "124" Examples.emptyWorld)
                   Examples.pendingPayment eq_refl _)).
  discriminate.
Defined.

(** A renewal whose parent preapproval is not authorized is a no-op as
    well: it goes through [handleSubscription]. *)
Lemma renewal_unauthorized_parent rt ev clk id w pre presub :
  authorizedPaymentFetch ev id = FetchJson (Some "processed"%string) (Some pre) ->
  preapprovalGet ev pre = Some presub ->
  pre_status presub <> "authorized"%string ->
  handleSubscriptionRenewal rt ev clk id w = (Ok tt, w).
Proof.
  intros Hf Hg Hs. unfold handleSubscriptionRenewal. rewrite Hf. cbn.
  destruct (negb (String.eqb pre "")); [|reflexivity].
  unfold handleSubscription. rewrite Hg, (eqb_false_of_neq _ _ Hs). reflexivity.
Qed.



(** ** The handler *)

Lemma bind_ret_result {A} (c : M A) (res : response) w :
  exists w', (fst (bind c (fun _ => ret res) w) = Ok res
              \/ exists e, fst (bind c (fun _ => ret res) w) = Throw e)
             /\ snd (bind c (fun _ => ret res) w) = w'.
Proof.
  unfold bind. destruct (c w) as [[a|e] w1]; cbn; eexists; split; eauto.
Qed.

Lemma tryCatch_always {A} (c : M A) (a : A) w :
  (fst (c w) = Ok a \/ exists e, fst (c w) = Throw e) ->
  exists w', tryCatch c (fun _ => ret a) w = (Ok a, w').
Proof.
  unfold tryCatch. destruct (c w) as [[a'|e] w1]; cbn.
  - intros [[= ->] | [e' [=]]]. eexists. reflexivity.
  - intros _. eexists. reflexivity.
Qed.

(** C9. The webhook answers every request with an empty 200, whatever
    happens inside: a bad signature, a missing topic or id, an unknown
    topic, a failed fetch or any exception of the processing; no
    exception leaves the handler. This holds for both handlers. *)
Theorem handler_always_200 rt ev clk :
  (forall req w,
      exists w', Webhook.handler rt ev clk req w
                 = (Ok {| statusCode := 200; body := "" |}, w'))
  /\ (forall e w,
      exists w', NetlifyWebhook.handler rt ev clk e w
                 = (Ok {| statusCode := 200; body := "" |}, w')).
Proof.
  split.
  - intros req w. unfold handler.
    destruct (negb (String.eqb (method req) "POST"));
      [eexists; reflexivity|].
    apply tryCatch_always.
    destruct (negb (signatureAccepted ev req)); [left; reflexivity|].
    destruct (_ || _); [left; reflexivity|].
    destruct (bind_ret_result
                (dispatch rt ev clk
                   (firstPresent (body_type req) (query_topic req))
                   (firstPresent (body_data_id req) (query_id req)))
                {| statusCode := 200; body := "" |} w) as (w' & H & _).
    exact H.
  - intros e w. unfold NetlifyWebhook.handler.
    destruct (negb (String.eqb (NetlifyWebhook.httpMethod e) "POST"));
      [eexists; reflexivity|].
    apply tryCatch_always.
    destruct (NetlifyWebhook.body e) as [| |ty did].
    + right. eexists. reflexivity.
    + destruct (_ && _); [left; reflexivity | right; eexists; reflexivity].
    + destruct (_ && _); [left; reflexivity|].
      destruct (_ || _); [left; reflexivity|].
      destruct (bind_ret_result
                  (NetlifyWebhook.dispatch rt ev clk
                     (firstPresent ty (NetlifyWebhook.query_topic e))
                     (firstPresent did (NetlifyWebhook.query_id e)))
                  {| statusCode := 200; body := "" |} w) as (w' & H & _).
      exact H.
Qed.

(** ** The grant of a one-time payment *)

(** C5, where the code departs from it. A plan or a duration that names
    a property every object inherits is not unknown to the lookup: the
    table returns the inherited function, which is truthy, so the
    default is not taken. *)
Theorem onetimeGrant_inherited_names id pay :
  maxDevices (onetimeGrant id "constructor" "1m" pay) = VFun "Object"
  /\ licenseType (onetimeGrant id "individual" "constructor" pay)
     = VFun "Object"
  /\ months (onetimeGrant id "individual" "constructor" pay) = VFun "Object"
  /\ maxDevices (onetimeGrant id "toString" "1m" pay) = VFun "toString"
  /\ licenseType (onetimeGrant id "individual" "__proto__" pay)
     = VObjectPrototype.
Proof. repeat split; vm_compute; reflexivity. Qed.

(** ** Redelivery *)

Lemma toISOString_nonempty t : String.eqb (toISOString t) "" = false.
Proof.
  unfold toISOString, isoYear.
  destruct (_ && _); [reflexivity|]. destruct (0 <=? _); reflexivity.
Qed.

Lemma plusMonths_valid tza t m t' : plusMonths tza t m = Some t' -> validTime t'.
Proof. unfold plusMonths. intros H. apply TimeClip_Some in H. tauto. Qed.

Lemma storedExpiration_written rt r t :
  (forall x, validTime x -> rt_Date_parse rt (toISOString x) = Some x) ->
  validTime t ->
  ExpirationDate r = Some (toISOString t) ->
  storedExpiration rt r = Some t.
Proof.
  intros Hrt Hv He. unfold storedExpiration.
  rewrite He, toISOString_nonempty. apply Hrt, Hv.
Qed.

Lemma present_Some_nonempty (s : string) : s <> EmptyString -> present (Some s) = true.
Proof. intros H. cbn. apply String.eqb_neq in H. rewrite H. reflexivity. Qed.

(** An approved payment whose reference names an email is an activation
    with the grant of its plan and duration. *)
Lemma handlePayment_activates rt ev clk id pay email p d w :
  paymentGet ev id = Some pay ->
  pay_status pay = "approved"%string ->
  parseReference rt (external_reference pay) = Fields (Some email) p d ->
  email <> EmptyString ->
  handlePayment rt ev clk id w
  = activateLicense rt ev clk email
      (onetimeGrant id (strOr p "individual") (strOr d "1m") pay) w.
Proof.
  intros Hg Hs Hr He. unfold handlePayment. rewrite Hg, Hs, Hr.
  rewrite (present_Some_nonempty _ He). reflexivity.
Qed.

Lemma resolvedUid_found rt w email usr :
  authUsers w !! email = Some usr -> resolvedUid rt w email = uid usr.
Proof. unfold resolvedUid. intros ->. reflexivity. Qed.

Lemma activatedRecord_payment email info lt md nowIso e isNew r pid :
  paymentId info = Some pid -> plainKey pid = true ->
  payments (activatedRecord email info lt md nowIso e isNew r) !! pid
  = Some (entryNode (entryFor info nowIso)).
Proof.
  intros Hp Hk. unfold activatedRecord.
  assert (Hne : present (Some pid) = true) by exact (plainKey_present pid Hk).
  rewrite Hp, Hne. cbn [default from_option Datatypes.id].
  destruct (present (preapprovalId info));
    cbn [setSubscription setPayment payments];
    rewrite (plainKey_segments pid Hk); cbn [setNode kidsOf];
    apply lookup_insert_eq.
Qed.

Lemma activatedRecord_other_payments email info lt md nowIso e isNew r id pid :
  paymentId info = Some id -> plainKey id = true -> pid <> id ->
  payments (activatedRecord email info lt md nowIso e isNew r) !! pid
  = payments r !! pid.
Proof.
  intros Hp Hk Hne. unfold activatedRecord.
  assert (Hpr : present (Some id) = true) by exact (plainKey_present id Hk).
  rewrite Hp, Hpr. cbn [default from_option Datatypes.id].
  destruct (present (preapprovalId info));
    cbn [setSubscription setPayment payments applyUpdates];
    rewrite (plainKey_segments id Hk); cbn [setNode kidsOf];
    apply lookup_insert_ne; congruence.
Qed.

(** C2, as the code has it. The same approved payment delivered twice
    extends the expiration twice: the first delivery writes the base date
    plus the payment's months, the second adds the months again,
    starting from the date the first one wrote when that is after the
    clock of the second, from that clock otherwise. ([Date.parse] has to
    read back what [toISOString] writes, the dates have to be time
    values, and every call has to be answered.) *)
Theorem redelivery_extends_again rt ev clk1 clk2 id pay email p d m lt md w
    E1 E2 :
  (forall x, validTime x -> rt_Date_parse rt (toISOString x) = Some x) ->
  paymentGet ev id = Some pay ->
  pay_status pay = "approved"%string ->
  parseReference rt (external_reference pay) = Fields (Some email) p d ->
  email <> EmptyString ->
  months (onetimeGrant id (strOr p "individual") (strOr d "1m") pay) = VNum m ->
  toDb (licenseType (onetimeGrant id (strOr p "individual") (strOr d "1m") pay))
    = Ok lt ->
  toDb (maxDevices (onetimeGrant id (strOr p "individual") (strOr d "1m") pay))
    = Ok md ->
  faults w = [] ->
  plusMonths (rt_LocalTZA rt)
    (baseDateOf rt clk1 (ExpirationDate (userAt w (resolvedUid rt w email)))) m
    = Some E1 ->
  plusMonths (rt_LocalTZA rt)
    (if t_now clk2 <? E1 then E1 else t_base clk2) m = Some E2 ->
  exists w1 w2,
    handlePayment rt ev clk1 id w = (Ok tt, w1)
    /\ ExpirationDate (userAt w1 (resolvedUid rt w email))
       = Some (toISOString E1)
    /\ handlePayment rt ev clk2 id w1 = (Ok tt, w2)
    /\ ExpirationDate (userAt w2 (resolvedUid rt w email))
       = Some (toISOString E2).
Proof.
  intros Hrt Hg Hs Hr He Hm Hlt Hmd Hf H1 H2.
  set (g := onetimeGrant id (strOr p "individual") (strOr d "1m") pay) in *.
  destruct (activateLicense_run rt ev clk1 email g w m E1 lt md Hf Hm Hlt Hmd H1)
    as (w1 & usr1 & Hrun1 & Hf1 & Hau1 & Huid1 & Hrec1 & _).
  assert (Hexp1 : ExpirationDate (userAt w1 (resolvedUid rt w email))
                  = Some (toISOString E1)).
  { rewrite Hrec1. apply activatedRecord_expiration. }
  assert (Hres : resolvedUid rt w1 email = resolvedUid rt w email).
  { rewrite (resolvedUid_found rt w1 email usr1 Hau1). exact Huid1. }
  destruct (activateLicense_run rt ev clk2 email g w1 m E2 lt md Hf1 Hm Hlt Hmd)
    as (w2 & usr2 & Hrun2 & _ & _ & _ & Hrec2 & _).
  { rewrite Hres, baseDateOf_stored.
    rewrite (storedExpiration_written rt _ E1 Hrt
               (plusMonths_valid _ _ _ _ H1) Hexp1).
    exact H2. }
  exists w1, w2.
  rewrite (handlePayment_activates rt ev clk1 id pay email p d w Hg Hs Hr He).
  rewrite (handlePayment_activates rt ev clk2 id pay email p d w1 Hg Hs Hr He).
  fold g. repeat split; auto.
  rewrite <- Hres, Hrec2. apply activatedRecord_expiration.
Qed.

(** The payment 123 delivered at noon and again a second later: the
    expiration goes from 29 May to 29 August 2024. *)
Lemma redelivery_extends_again_witness :
  exists w1 w2,
    handlePayment Examples.utcHost Examples.shop Examples.noon "123"
      Examples.emptyWorld = (Ok tt, w1)
    /\ ExpirationDate (userAt w1 "uid000")
       = Some "2024-05-29T12:00:00.124Z"%string
    /\ handlePayment Examples.utcHost Examples.shop Examples.later "123" w1
       = (Ok tt, w2)
    /\ ExpirationDate (userAt w2 "uid000")
       = Some "2024-08-29T12:00:00.124Z"%string.
Proof.
  refine (redelivery_extends_again Examples.utcHost Examples.shop
            Examples.noon Examples.later "123" Examples.payment123
            "a@b.com" (Some "individual"%string) (Some "3m"%string) 3
            (Some (DStr "Monthly")) (Some (DNum 1)) Examples.emptyWorld
            1716984000124 1724932800124
            parseISO_toISOString eq_refl eq_refl _ _ eq_refl eq_refl eq_refl
            eq_refl _ _);
    try (vm_compute; reflexivity); discriminate.
Defined.

(** C2 fails on the code: after the second delivery of payment 123 the
    expiration is not the one the first delivery left. *)
Lemma second_delivery_moves_expiration :
  ~ secondDeliveryKeepsExpiration Examples.utcHost Examples.shop
      Examples.noon Examples.later "123" Examples.emptyWorld.
Proof.
  intros H. specialize (H "uid000"%string). vm_compute in H. discriminate H.
Qed.

(** C7, as the code has it. Every processing of an approved payment
    whose id is one key of the database (not empty, without a slash,
    without a character the database refuses, of at most 768 bytes)
    writes the entry under that id anew, from the payment object and with the date of this
    processing, whatever was there; the entries under other ids stay.
    (Every call has to be answered.) *)
Theorem payment_entry_rewritten rt ev clk id pay email p d m lt md w t' :
  paymentGet ev id = Some pay ->
  pay_status pay = "approved"%string ->
  parseReference rt (external_reference pay) = Fields (Some email) p d ->
  email <> EmptyString ->
  plainKey id = true ->
  months (onetimeGrant id (strOr p "individual") (strOr d "1m") pay) = VNum m ->
  toDb (licenseType (onetimeGrant id (strOr p "individual") (strOr d "1m") pay))
    = Ok lt ->
  toDb (maxDevices (onetimeGrant id (strOr p "individual") (strOr d "1m") pay))
    = Ok md ->
  faults w = [] ->
  plusMonths (rt_LocalTZA rt)
    (baseDateOf rt clk (ExpirationDate (userAt w (resolvedUid rt w email)))) m
    = Some t' ->
  exists w',
    handlePayment rt ev clk id w = (Ok tt, w')
    /\ payments (userAt w' (resolvedUid rt w email)) !! id
       = Some (entryNode
                 {| pe_plan := strOr p "individual";
                    pe_duration := Some (strOr d "1m");
                    pe_amount := qOr0 (transaction_amount pay);
                    pe_currency := strOr (currency_id pay) "USD";
                    pe_date := toISOString (t_now clk);
                    pe_type := "onetime" |})
    /\ forall pid, pid <> id ->
         payments (userAt w' (resolvedUid rt w email)) !! pid
         = payments (userAt w (resolvedUid rt w email)) !! pid.
Proof.
  intros Hg Hs Hr He Hid Hm Hlt Hmd Hf Hp.
  set (g := onetimeGrant id (strOr p "individual") (strOr d "1m") pay) in *.
  destruct (activateLicense_run rt ev clk email g w m t' lt md Hf Hm Hlt Hmd Hp)
    as (w' & usr' & Hrun & _ & _ & _ & Hrec & _).
  exists w'.
  rewrite (handlePayment_activates rt ev clk id pay email p d w Hg Hs Hr He).
  fold g. split; [exact Hrun|]. rewrite Hrec. split.
  - rewrite (activatedRecord_payment _ g _ _ _ _ _ _ id eq_refl Hid).
    unfold entryFor, g, onetimeGrant.
    cbn [plan duration amount currency paymentType].
    assert (present (Some (strOr d "1m")) = true) as ->; [|reflexivity].
    unfold strOr, present. destruct d as [x|]; [|reflexivity].
    destruct (String.eqb x "") eqn:E; [reflexivity | rewrite E; reflexivity].
  - intros pid Hne.
    apply (activatedRecord_other_payments _ g _ _ _ _ _ _ id pid eq_refl Hid Hne).
Qed.

Lemma payment_entry_rewritten_witness :
  exists w',
    handlePayment Examples.utcHost Examples.shop Examples.noon "123"
      Examples.emptyWorld = (Ok tt, w')
    /\ payments (userAt w' "uid000") !! "123"%string ≫= nodeAt ["date"%string]
       = Some (NStr "2024-02-29T12:00:00.123Z").
Proof.
  assert (Hp : plusMonths (rt_LocalTZA Examples.utcHost)
                 (baseDateOf Examples.utcHost Examples.noon
                    (ExpirationDate
                       (userAt Examples.emptyWorld
                          (resolvedUid Examples.utcHost Examples.emptyWorld
                             "a@b.com")))) 3 = Some 1716984000124)
    by (vm_compute; reflexivity).
  assert (Hr : parseReference Examples.utcHost
                 (external_reference Examples.payment123)
               = Fields (Some "a@b.com"%string) (Some "individual"%string)
                   (Some "3m"%string))
    by (vm_compute; reflexivity).
  assert (He : "a@b.com"%string <> EmptyString) by discriminate.
  assert (Hid : plainKey "123" = true) by reflexivity.
  destruct (payment_entry_rewritten Examples.utcHost Examples.shop
              Examples.noon "123" Examples.payment123
              "a@b.com" (Some "individual"%string) (Some "3m"%string) 3
              (Some (DStr "Monthly")) (Some (DNum 1)) Examples.emptyWorld
              1716984000124 eq_refl eq_refl Hr He Hid eq_refl eq_refl eq_refl
              eq_refl Hp)
    as (w' & Hrun & Hentry & _).
  exists w'. split; [exact Hrun|].
  change (resolvedUid Examples.utcHost Examples.emptyWorld "a@b.com")
    with "uid000"%string in Hentry.
  rewrite Hentry. vm_compute. reflexivity.
Defined.

(** C7 fails on the code: the second delivery of payment 123 changes the
    date of the entry the first delivery wrote. *)
Lemma second_delivery_rewrites_entry :
  ~ secondDeliveryKeepsEntry Examples.utcHost Examples.shop
      Examples.noon Examples.later "123" Examples.emptyWorld.
Proof.
  intros H.
  specialize (H "uid000"%string
                (entryNode
                   {| pe_plan := "individual";
                      pe_duration := Some "3m"%string;
                      pe_amount := (40 # 1)%Q; pe_currency := "USD";
                      pe_date := "2024-02-29T12:00:00.123Z";
                      pe_type := "onetime" |})).
  assert (H1 : payments
                 (userAt (afterFirst Examples.utcHost Examples.shop
                            Examples.noon "123" Examples.emptyWorld)
                    "uid000") !! "123"%string
               = Some (entryNode
                         {| pe_plan := "individual";
                            pe_duration := Some "3m"%string;
                            pe_amount := (40 # 1)%Q; pe_currency := "USD";
                            pe_date := "2024-02-29T12:00:00.123Z";
                            pe_type := "onetime" |}))
    by (vm_compute; reflexivity).
  specialize (H H1).
  apply (f_equal (fun o => o ≫= nodeAt ["date"%string])) in H.
  vm_compute in H. discriminate H.
Qed.




(** The Netlify verifier does the same on an event whose body is a JSON
    object. *)
Lemma netlify_verifySignature_same e ty did secret :
  NetlifyWebhook.body e = NetlifyWebhook.BodyFields ty did ->
  NetlifyWebhook.verifySignature e secret
  = verifySignature
      {| method := NetlifyWebhook.httpMethod e;
         x_signature := NetlifyWebhook.x_signature e;
         x_request_id := NetlifyWebhook.x_request_id e;
         body_type := ty; body_data_id := did;
         query_topic := NetlifyWebhook.query_topic e;
         query_id := NetlifyWebhook.query_id e |} secret.
Proof.
  intros Hb. unfold NetlifyWebhook.verifySignature, verifySignature.
  rewrite Hb. reflexivity.
Qed.




(** The decoding keeps the low eight bits of a code unit: the letter
    U+0163 stands for the digit [c] (0x63), and the HMAC with it in the
    place of its first [c] is accepted as well. *)
Lemma wide_letter_signature_accepted :
  verifySignature
    (signedRequest "123" "abc" "999"
       "5ţ2604b8fc66d9ced1eef8f7334312460e838418c921eab4b2371f99f43bacf1")
    "S" = true.
Proof. vm_compute. reflexivity. Qed.

(** ** Checkout creation *)

(** C8, where the code departs from it. A plan that names a property
    every object inherits passes the catalog check: the subscription
    initiator calls the processor for the plan [constructor], and the
    one-time initiator for the plan [__proto__] with the duration
    [constructor]; neither answers 400. *)
Theorem checkout_inherited_plan_reaches_processor :
  (forall create ev,
      let out := CreateSubscription.handler create ev
                   {| CreateSubscription.method := "POST";
                      CreateSubscription.email := Some "a@b.com"%string;
                      CreateSubscription.plan := Some "constructor"%string |} in
      length (snd out) = 1%nat /\ Checkout.status (fst out) <> 400)
  /\ (forall builtinTruthy create ev,
      let out := CreatePreference.handler builtinTruthy create ev
                   {| CreatePreference.method := "POST";
                      CreatePreference.email := Some "a@b.com"%string;
                      CreatePreference.plan := Some "__proto__"%string;
                      CreatePreference.duration := Some "constructor"%string |} in
      length (snd out) = 1%nat /\ Checkout.status (fst out) <> 400).
Proof.
  split.
  - intros create ev out. subst out. unfold CreateSubscription.handler.
    cbn [CreateSubscription.method CreateSubscription.email
         CreateSubscription.plan].
    change (String.eqb "POST" "OPTIONS") with false.
    change (negb (String.eqb "POST" "POST")) with false.
    change (present (Some "a@b.com"%string)) with true.
    change (present (Some "constructor"%string)) with true.
    cbn [negb orb default from_option id].
    change (Checkout.emailRx "a@b.com") with true.
    assert (get CreateSubscription.SUBSCRIPTION_PRICES "constructor"
            = VFun "Object") as -> by (vm_compute; reflexivity).
    cbn [negb truthy].
    destruct (create _) as [ip|]; cbn; split; (reflexivity || discriminate).
  - intros bt create ev out. subst out. unfold CreatePreference.handler.
    cbn [CreatePreference.method CreatePreference.email
         CreatePreference.plan CreatePreference.duration].
    change (String.eqb "POST" "OPTIONS") with false.
    change (negb (String.eqb "POST" "POST")) with false.
    change (present (Some "a@b.com"%string)) with true.
    change (present (Some "__proto__"%string)) with true.
    change (present (Some "constructor"%string)) with true.
    cbn [negb orb default from_option id].
    change (Checkout.emailRx "a@b.com") with true.
    assert (CreatePreference.catalogLookup bt "__proto__" "constructor"
            = CreatePreference.ItemBuiltin) as -> by reflexivity.
    cbn [negb].
    destruct (create _) as [[ip sb]|]; cbn; split; (reflexivity || discriminate).
Qed.

(** ** Further properties of the webhook *)

(** X1. The handler drops a request without touching the world when it is
    not a POST, when its signature is refused, when the topic or the id
    is missing, and when the topic is none of the four it knows. *)
Theorem handler_discards rt ev clk req w :
  method req <> "POST"%string
  \/ signatureAccepted ev req = false
  \/ firstPresent (body_type req) (query_topic req) = EmptyString
  \/ firstPresent (body_data_id req) (query_id req) = EmptyString
  \/ (firstPresent (body_type req) (query_topic req) <> "payment"%string
      /\ firstPresent (body_type req) (query_topic req)
         <> "preapproval"%string
      /\ firstPresent (body_type req) (query_topic req)
         <> "subscription_preapproval"%string
      /\ firstPresent (body_type req) (query_topic req)
         <> "subscription_authorized_payment"%string) ->
  handler rt ev clk req w = (Ok {| statusCode := 200; body := "" |}, w).
Proof.
  intros H. unfold handler.
  destruct (String.eqb_spec (method req) "POST") as [Em|Em]; [|reflexivity].
  cbn [negb]. unfold tryCatch.
  destruct H as [H|[H|[H|[H|(H1 & H2 & H3 & H4)]]]].
  - contradiction.
  - rewrite H. reflexivity.
  - destruct (signatureAccepted ev req); [|reflexivity]. cbn [negb].
    rewrite H. reflexivity.
  - destruct (signatureAccepted ev req); [|reflexivity]. cbn [negb].
    rewrite H, orb_true_r. reflexivity.
  - destruct (signatureAccepted ev req); [|reflexivity]. cbn [negb].
    destruct (_ || _); [reflexivity|].
    unfold bind, dispatch.
    rewrite (eqb_false_of_neq _ _ H1), (eqb_false_of_neq _ _ H2),
      (eqb_false_of_neq _ _ H3), (eqb_false_of_neq _ _ H4).
    reflexivity.
Qed.

Lemma handler_discards_witness :
  handler Examples.utcHost Examples.shop Examples.noon
    (signedRequest "123" "abc" "999" "00") Examples.emptyWorld
  = (Ok {| statusCode := 200; body := "" |}, Examples.emptyWorld).
Proof.
  apply handler_discards. right. left. vm_compute. reflexivity.
Defined.

(** X2. A payment that cannot be attributed is dropped before any user is
    looked up: a rejected fetch and a reference that is [null] throw, a
    reference without an email (empty, unparseable, not an object, or
    without [e]) returns; the world is the same in each case. *)
Theorem handlePayment_drops rt ev clk id w :
  (paymentGet ev id = None ->
   handlePayment rt ev clk id w = (Throw ProcessorError, w))
  /\ (forall pay,
        paymentGet ev id = Some pay ->
        pay_status pay = "approved"%string ->
        parseReference rt (external_reference pay) = NullReference ->
        handlePayment rt ev clk id w = (Throw TypeError, w))
  /\ (forall pay,
        paymentGet ev id = Some pay ->
        pay_status pay = "approved"%string ->
        (present (external_reference pay) = false
         \/ rt_JSON_parse rt (default EmptyString (external_reference pay))
            = RefSyntaxError
         \/ rt_JSON_parse rt (default EmptyString (external_reference pay))
            = RefOther
         \/ exists e p d,
              rt_JSON_parse rt (default EmptyString (external_reference pay))
              = RefObject e p d /\ present e = false) ->
        handlePayment rt ev clk id w = (Ok tt, w)).
Proof.
  split; [|split].
  - intros Hg. unfold handlePayment. rewrite Hg. reflexivity.
  - intros pay Hg Hs Hr. unfold handlePayment. rewrite Hg, Hs, Hr. reflexivity.
  - intros pay Hg Hs H. unfold handlePayment, parseReference. rewrite Hg, Hs.
    cbn [String.eqb negb].
    change (String.eqb "approved" "approved") with true. cbn [negb].
    destruct (present (external_reference pay)) eqn:Hp.
    + destruct H as [H|[H|[H|(e & p & d & H & He)]]];
        [discriminate | rewrite H; reflexivity | rewrite H; reflexivity |].
      rewrite H, He. reflexivity.
    + reflexivity.
Qed.

Lemma handlePayment_drops_witness :
  handlePayment Examples.utcHost Examples.shop Examples.noon "999"
    Examples.emptyWorld = (Throw ProcessorError, Examples.emptyWorld).
Proof.
  apply (proj1 (handlePayment_drops Examples.utcHost Examples.shop
                  Examples.noon "999" Examples.emptyWorld)).
  reflexivity.
Defined.

(** X3. A processed renewal is the activation of its parent preapproval: it
    runs [handleSubscription] on the parent id. A fetch that is not ok,
    and an authorized payment without a parent id, are dropped. *)
Theorem renewal_reuses_subscription rt ev clk id w :
  (forall pre,
      authorizedPaymentFetch ev id
        = FetchJson (Some "processed"%string) (Some pre) ->
      pre <> EmptyString ->
      handleSubscriptionRenewal rt ev clk id w
      = handleSubscription rt ev clk pre w)
  /\ (authorizedPaymentFetch ev id = FetchNotOk ->
      handleSubscriptionRenewal rt ev clk id w = (Ok tt, w))
  /\ (forall status pre,
      authorizedPaymentFetch ev id = FetchJson status pre ->
      present pre = false ->
      handleSubscriptionRenewal rt ev clk id w = (Ok tt, w))
  /\ (authorizedPaymentFetch ev id = FetchThrows ->
      handleSubscriptionRenewal rt ev clk id w = (Throw NetworkError, w)).
Proof.
  unfold handleSubscriptionRenewal. repeat split.
  - intros pre Hf Hne. rewrite Hf. cbn [default from_option Datatypes.id].
    change (String.eqb "processed" "processed") with true. cbn [negb].
    rewrite (present_Some_nonempty _ Hne). reflexivity.
  - intros Hf. rewrite Hf. reflexivity.
  - intros status pre Hf Hp. rewrite Hf, Hp.
    destruct (negb _); reflexivity.
  - intros Hf. rewrite Hf. reflexivity.
Qed.

Lemma renewal_reuses_subscription_witness :
  handleSubscriptionRenewal Examples.utcHost Examples.shop Examples.noon "7"
    Examples.emptyWorld = (Ok tt, Examples.emptyWorld).
Proof.
  apply (proj1 (proj2 (renewal_reuses_subscription Examples.utcHost
                         Examples.shop Examples.noon "7" Examples.emptyWorld))).
  reflexivity.
Defined.

(** X4. For a plan and a duration that are strings or absent, the tier,
    the months and the device cap of a one-time grant do not depend on
    which of the two handlers decodes the reference: an empty plan or
    duration, which only the Vercel handler replaces by the default,
    falls back to the same values in the tables. *)
Theorem grant_same_in_both_handlers id pay (p d : option string) :
  let g1 := onetimeGrant id (strOr p "individual") (strOr d "1m") pay in
  let g2 := onetimeGrant id (default "individual"%string p)
              (default "1m"%string d) pay in
  licenseType g1 = licenseType g2
  /\ months g1 = months g2
  /\ maxDevices g1 = maxDevices g2.
Proof.
  intros g1 g2. subst g1 g2.
  assert (Hp : strOr p "individual" = default "individual"%string p
               \/ (p = Some EmptyString)).
  { destruct p as [x|]; [|left; reflexivity]. unfold strOr.
    destruct (String.eqb_spec x ""); [right; congruence | left; reflexivity]. }
  assert (Hd : strOr d "1m" = default "1m"%string d \/ (d = Some EmptyString)).
  { destruct d as [x|]; [|left; reflexivity]. unfold strOr.
    destruct (String.eqb_spec x ""); [right; congruence | left; reflexivity]. }
  split; [|split].
  - destruct Hd as [->| ->]; [reflexivity | vm_compute; reflexivity].
  - destruct Hd as [->| ->]; [reflexivity | vm_compute; reflexivity].
  - destruct Hp as [->| ->]; [reflexivity | vm_compute; reflexivity].
Qed.

(** ** The world after an activation *)

Lemma sendActivationEmail_run ev email w :
  sendActivationEmail ev email w
  = (Ok tt, {| authUsers := authUsers w; users := users w;
               outbox := if mailRequested ev email
                         then outbox w ++ [email] else outbox w;
               faults := faults w |}).
Proof.
  unfold sendActivationEmail, mailRequested.
  destruct (present (FIREBASE_API_KEY ev)); cbn [andb];
    [|destruct w; reflexivity].
  destruct (sendOobCode ev email) as [[]|]; destruct w; reflexivity.
Qed.

Lemma userAt_written a us o f u r :
  userAt {| authUsers := a; users := <[u := r]> us; outbox := o;
            faults := f |} u = r.
Proof. unfold userAt. cbn [users]. rewrite lookup_insert_eq. reflexivity. Qed.

Ltac put_step Hf :=
  match goal with
  | |- context [bind (putUser ?u ?f) ?k ?w] =>
      rewrite (bind_ok _ _ _ _ _ (putUser_nofault u f w Hf));
      cbn [authUsers users outbox faults];
      rewrite ?userAt_written
  end.

(** The complete outcome of a fault-free activation: the user created
    if the email was unknown, the one record written, the mail. *)
Lemma activateLicense_world rt ev clk email info w m t' lt md :
  faults w = [] ->
  months info = VNum m ->
  toDb (licenseType info) = Ok lt ->
  toDb (maxDevices info) = Ok md ->
  plusMonths (rt_LocalTZA rt)
    (baseDateOf rt clk (ExpirationDate (userAt w (resolvedUid rt w email)))) m
    = Some t' ->
  exists w',
    activateLicense rt ev clk email info w = (Ok tt, w')
    /\ faults w' = []
    /\ authUsers w' =
         (if bool_decide (authUsers w !! email = None)
          then <[email := {| uid := resolvedUid rt w email;
                             displayName := localPart email;
                             emailVerified := false |}]> (authUsers w)
          else authUsers w)
    /\ users w' =
         <[resolvedUid rt w email :=
             activatedRecord email info lt md (toISOString (t_now clk))
               (toISOString t')
               (bool_decide (authUsers w !! email = None))
               (userAt w (resolvedUid rt w email))]> (users w)
    /\ outbox w' =
         (if bool_decide (authUsers w !! email = None)
             && mailRequested ev email
          then outbox w ++ [email] else outbox w).
Proof.
  intros Hf Hm Hlt Hmd Hp. unfold activateLicense.
  set (u := resolvedUid rt w email) in *.
  assert (exists w1,
    findOrCreateUser rt email w
      = (Ok (u, bool_decide (authUsers w !! email = None)), w1)
    /\ faults w1 = [] /\ users w1 = users w /\ outbox w1 = outbox w
    /\ authUsers w1 =
         (if bool_decide (authUsers w !! email = None)
          then <[email := {| uid := u; displayName := localPart email;
                             emailVerified := false |}]> (authUsers w)
          else authUsers w))
    as (w1 & Hfind & Hf1 & Hus1 & Hob1 & Hau1).
  { subst u. unfold resolvedUid.
    destruct (authUsers w !! email) as [usr|] eqn:Hu.
    - exists w. rewrite (findOrCreateUser_found rt _ _ _ Hf Hu).
      rewrite bool_decide_eq_false_2 by discriminate. repeat split; auto.
    - eexists. rewrite (findOrCreateUser_new rt _ _ Hf Hu).
      rewrite bool_decide_eq_true_2 by reflexivity.
      split; [reflexivity|]. cbn. repeat split; auto. }
  set (isNew := bool_decide (authUsers w !! email = None)) in *.
  rewrite (bind_ok _ _ _ _ _ Hfind). cbn [fst snd].
  assert (Hua : userAt w1 u = userAt w u)
    by (unfold userAt; rewrite Hus1; reflexivity).
  rewrite (bind_ok _ _ _ _ _ (readExpiration_nofault _ _ Hf1)), Hua.
  unfold extendedDate at 1. rewrite Hm, setMonth_plusMonths, Hp.
  rewrite (bind_ok _ _ _ t' w1 eq_refl), Hlt, Hmd.
  rewrite (bind_ok _ _ _ lt w1 eq_refl), (bind_ok _ _ _ md w1 eq_refl).
  put_step Hf1. rewrite Hua. unfold activatedRecord.
  destruct (present (paymentId info)).
  - put_step Hf1.
    destruct (present (preapprovalId info)).
    + put_step Hf1.
      destruct isNew.
      * rewrite sendActivationEmail_run. eexists. split; [reflexivity|].
        cbn. rewrite !insert_insert_eq, Hus1, Hob1. repeat split; auto.
      * eexists. split; [reflexivity|].
        cbn. rewrite !insert_insert_eq, Hus1, Hob1. repeat split; auto.
    + rewrite (bind_ok _ _ _ tt _ eq_refl).
      destruct isNew.
      * rewrite sendActivationEmail_run. eexists. split; [reflexivity|].
        cbn. rewrite !insert_insert_eq, Hus1, Hob1. repeat split; auto.
      * eexists. split; [reflexivity|].
        cbn. rewrite !insert_insert_eq, Hus1, Hob1. repeat split; auto.
  - rewrite (bind_ok _ _ _ tt _ eq_refl).
    destruct (present (preapprovalId info)).
    + put_step Hf1.
      destruct isNew.
      * rewrite sendActivationEmail_run. eexists. split; [reflexivity|].
        cbn. rewrite !insert_insert_eq, Hus1, Hob1. repeat split; auto.
      * eexists. split; [reflexivity|].
        cbn. rewrite !insert_insert_eq, Hus1, Hob1. repeat split; auto.
    + rewrite (bind_ok _ _ _ tt _ eq_refl).
      destruct isNew.
      * rewrite sendActivationEmail_run. eexists. split; [reflexivity|].
        cbn. rewrite Hus1, Hob1. repeat split; auto.
      * eexists. split; [reflexivity|].
        cbn. rewrite Hus1, Hob1. repeat split; auto.
Qed.

(** ** New users, existing users, refused grants *)

(** X5. The first activation for an unknown email creates the user,
    unverified and named after the email, and initialises the record:
    active, the creation date equal to the update date, a zero
    validation counter and no device; the mail is requested once when the
    API key is set and the identity toolkit accepts. *)
Theorem new_user_initialised rt ev clk email info w m t' lt md :
  faults w = [] ->
  authUsers w !! email = None ->
  months info = VNum m ->
  toDb (licenseType info) = Ok lt ->
  toDb (maxDevices info) = Ok md ->
  plusMonths (rt_LocalTZA rt)
    (baseDateOf rt clk
       (ExpirationDate (userAt w (rt_newUid rt (authUsers w))))) m = Some t' ->
  exists w',
    activateLicense rt ev clk email info w = (Ok tt, w')
    /\ authUsers w' !! email
       = Some {| uid := rt_newUid rt (authUsers w);
                 displayName := localPart email; emailVerified := false |}
    /\ (forall e', e' <> email -> authUsers w' !! e' = authUsers w !! e')
    /\ Email (userAt w' (rt_newUid rt (authUsers w))) = Some email
    /\ IsActive (userAt w' (rt_newUid rt (authUsers w))) = Some true
    /\ LicenseType (userAt w' (rt_newUid rt (authUsers w))) = lt
    /\ MaxDevices (userAt w' (rt_newUid rt (authUsers w))) = md
    /\ CreatedAt (userAt w' (rt_newUid rt (authUsers w)))
       = Some (toISOString (t_now clk))
    /\ UpdatedAt (userAt w' (rt_newUid rt (authUsers w)))
       = Some (toISOString (t_now clk))
    /\ ValidationCount (userAt w' (rt_newUid rt (authUsers w))) = Some 0
    /\ activations (userAt w' (rt_newUid rt (authUsers w))) = ∅
    /\ outbox w' = (if mailRequested ev email
                    then outbox w ++ [email] else outbox w).
Proof.
  intros Hf Hu Hm Hlt Hmd Hp.
  assert (Hres : resolvedUid rt w email = rt_newUid rt (authUsers w))
    by (unfold resolvedUid; rewrite Hu; reflexivity).
  destruct (activateLicense_world rt ev clk email info w m t' lt md
              Hf Hm Hlt Hmd) as (w' & Hrun & _ & Hau & Hus & Hob).
  { rewrite Hres. exact Hp. }
  rewrite Hres in *. rewrite bool_decide_eq_true_2 in * by exact Hu.
  exists w'. split; [exact Hrun|].
  rewrite Hau, Hob. split; [apply lookup_insert_eq|].
  split; [intros e' Hne; apply lookup_insert_ne; congruence|].
  unfold userAt at 1 2 3 4 5 6 7 8. rewrite Hus, lookup_insert_eq.
  cbn [default from_option Datatypes.id]. unfold activatedRecord.
  destruct (present (preapprovalId info)), (present (paymentId info));
    repeat split; reflexivity.
Qed.

Lemma new_user_initialised_witness :
  exists w',
    activateLicense Examples.utcHost Examples.shop Examples.noon "bob@b.com"
      Examples.grant3 Examples.annWorld = (Ok tt, w')
    /\ displayName <$> authUsers w' !! "bob@b.com"%string = Some "bob"%string
    /\ ValidationCount (userAt w' "uid001") = Some 0
    /\ outbox w' = ["bob@b.com"%string].
Proof.
  assert (Hp : plusMonths (rt_LocalTZA Examples.utcHost)
                 (baseDateOf Examples.utcHost Examples.noon
                    (ExpirationDate
                       (userAt Examples.annWorld
                          (rt_newUid Examples.utcHost
                             (authUsers Examples.annWorld))))) 3
               = Some 1716984000124) by (vm_compute; reflexivity).
  destruct (new_user_initialised Examples.utcHost Examples.shop Examples.noon
              "bob@b.com" Examples.grant3 Examples.annWorld 3 1716984000124
              (Some (DStr "Monthly")) (Some (DNum 1))
              eq_refl eq_refl eq_refl eq_refl eq_refl Hp)
    as (w' & Hrun & Hau & _ & _ & _ & _ & _ & _ & _ & Hv & _ & Hob).
  exists w'. split; [exact Hrun|]. split; [rewrite Hau; reflexivity|].
  split; [exact Hv | exact Hob].
Defined.

(** X6. [email.split ('@')[0]]: what precedes the first at sign, the whole
    string when it has none. *)
Theorem localPart_before_at (a b : string) :
  allChars (notChar "@") a = true ->
  localPart (a +:+ String "@" b) = a /\ localPart a = a.
Proof.
  intros H. unfold localPart.
  rewrite (split_app_sep "@" a b H), (split_no_sep "@" a H). split; reflexivity.
Qed.

Lemma localPart_before_at_witness :
  localPart ("ann" +:+ String "@" "b.com") = "ann"%string
  /\ localPart "ann" = "ann"%string.
Proof. apply (localPart_before_at "ann" "b.com"). reflexivity. Defined.

Lemma findOrCreateUser_keeps_database rt email w :
  users (snd (findOrCreateUser rt email w)) = users w
  /\ outbox (snd (findOrCreateUser rt email w)) = outbox w.
Proof.
  unfold findOrCreateUser, tryCatch, getUserByEmail, createUser, bind.
  destruct (externalCall_cases w) as (w1 & Ha1 & Hu1 & Ho1 & _ & [E1|E1]);
    rewrite E1.
  - destruct (authUsers w1 !! email); cbn; [auto|].
    destruct (externalCall_cases w1) as (w2 & Ha2 & Hu2 & Ho2 & _ & [E2|E2]);
      rewrite E2; [|cbn; split; congruence].
    destruct (authUsers w2 !! email); cbn; split; congruence.
  - destruct (externalCall_cases w1) as (w2 & Ha2 & Hu2 & Ho2 & _ & [E2|E2]);
      rewrite E2; [|cbn; split; congruence].
    destruct (authUsers w2 !! email); cbn; split; congruence.
Qed.

Lemma throws_bind_r {A B} (c : M A) (k : A -> M B) :
  (forall a, throws (k a)) -> throws (bind c k).
Proof.
  intros H w. unfold bind. destruct (c w) as [[a|e] w1]; [apply H|].
  exists e. reflexivity.
Qed.

(** X7. An activation whose grant cannot be stored (the months are a
    function, an object or undefined, which make the new date invalid,
    or the tier or the device cap is a value the database refuses) throws
    before the first write: the database and the mails are as before,
    whatever calls fail. *)
Theorem unstorable_grant_writes_nothing rt ev clk email info w :
  (months info = VUndef \/ months info = VObjectPrototype
   \/ exists f, months info = VFun f)
  \/ (exists e, toDb (licenseType info) = Throw e)
  \/ (exists e, toDb (maxDevices info) = Throw e) ->
  (exists e, fst (activateLicense rt ev clk email info w) = Throw e)
  /\ users (snd (activateLicense rt ev clk email info w)) = users w
  /\ outbox (snd (activateLicense rt ev clk email info w)) = outbox w.
Proof.
  intros H. split.
  - revert w. change (throws (activateLicense rt ev clk email info)).
    unfold activateLicense. apply throws_bind_r. intros found.
    apply throws_bind_r. intros currentExp.
    destruct H as [H|[(e & H)|(e & H)]].
    + intros w. unfold bind, extendedDate.
      destruct H as [-> |[-> |(f & ->)]]; eexists; reflexivity.
    + apply throws_bind_r. intros newExp. rewrite H. intros w.
      eexists. reflexivity.
    + apply throws_bind_r. intros newExp. apply throws_bind_r. intros lt.
      rewrite H. intros w. eexists. reflexivity.
  - set (R := fun a b : world => users b = users a /\ outbox b = outbox a).
    assert (Rr : forall a, R a a) by (intros a; split; reflexivity).
    assert (Rt : forall a b c, R a b -> R b c -> R a c)
      by (intros a b c [A1 A2] [B1 B2]; split; congruence).
    change (R w (snd (activateLicense rt ev clk email info w))).
    unfold activateLicense.
    apply (keeps_bind _ Rt); [intros w0; apply findOrCreateUser_keeps_database|].
    intros found. apply (keeps_bind _ Rt).
    { unfold readExpiration. apply (keeps_bind _ Rt).
      - intros w0. destruct (externalCall_frame w0) as (_ & Hu & Ho).
        split; assumption.
      - intros _ w0. apply Rr. }
    intros currentExp.
    destruct H as [H|[(e & H)|(e & H)]].
    + intros w0. unfold bind, extendedDate.
      destruct H as [-> |[-> |(f & ->)]]; apply Rr.
    + apply (keeps_bind _ Rt); [apply keeps_extendedDate, Rr|].
      intros newExp. rewrite H. intros w0. apply Rr.
    + apply (keeps_bind _ Rt); [apply keeps_extendedDate, Rr|].
      intros newExp. apply (keeps_bind _ Rt); [intros w0; apply Rr|].
      intros lt. rewrite H. intros w0. apply Rr.
Qed.

Lemma unstorable_grant_writes_nothing_witness :
  users (snd (activateLicense Examples.utcHost Examples.shop Examples.noon
                "bob@b.com"
                (onetimeGrant "125" "constructor" "1m" Examples.payment123)
                Examples.annWorld))
  = users Examples.annWorld.
Proof.
  apply (unstorable_grant_writes_nothing Examples.utcHost Examples.shop
           Examples.noon "bob@b.com"
           (onetimeGrant "125" "constructor" "1m" Examples.payment123)
           Examples.annWorld).
  right. right. exists DatabaseError. vm_compute. reflexivity.
Defined.

(** X8. An activation for an unknown email whose grant cannot be stored
    still creates the user before it throws: the identity provider then
    has an account without a licence record, for which no activation mail
    was requested. *)
Theorem unstorable_grant_leaves_account rt ev clk email info w m t' :
  faults w = [] ->
  authUsers w !! email = None ->
  months info = VNum m ->
  plusMonths (rt_LocalTZA rt)
    (baseDateOf rt clk
       (ExpirationDate (userAt w (rt_newUid rt (authUsers w))))) m = Some t' ->
  (exists e, toDb (licenseType info) = Throw e)
  \/ (exists e, toDb (maxDevices info) = Throw e) ->
  exists e w',
    activateLicense rt ev clk email info w = (Throw e, w')
    /\ authUsers w' !! email
       = Some {| uid := rt_newUid rt (authUsers w);
                 displayName := localPart email; emailVerified := false |}
    /\ users w' = users w
    /\ outbox w' = outbox w.
Proof.
  intros Hf Hu Hm Hp H. unfold activateLicense.
  rewrite (bind_ok _ _ _ _ _ (findOrCreateUser_new rt email w Hf Hu)).
  cbn [fst snd].
  set (w1 := {| authUsers := _; users := users w; outbox := _; faults := _ |}).
  assert (Hf1 : faults w1 = []) by exact Hf.
  rewrite (bind_ok _ _ _ _ _ (readExpiration_nofault _ _ Hf1)).
  change (userAt w1 (rt_newUid rt (authUsers w)))
    with (userAt w (rt_newUid rt (authUsers w))).
  unfold extendedDate at 1. rewrite Hm, setMonth_plusMonths, Hp.
  rewrite (bind_ok _ _ _ t' w1 eq_refl).
  destruct H as [(e & H)|(e & H)].
  - rewrite H. exists e, w1. split; [reflexivity|].
    split; [apply lookup_insert_eq | split; reflexivity].
  - destruct (toDb (licenseType info)) as [lt|e'].
    + rewrite (bind_ok _ _ _ lt w1 eq_refl), H. exists e, w1.
      split; [reflexivity|].
      split; [apply lookup_insert_eq | split; reflexivity].
    + exists e', w1. split; [reflexivity|].
      split; [apply lookup_insert_eq | split; reflexivity].
Qed.

Lemma unstorable_grant_leaves_account_witness :
  exists e w',
    activateLicense Examples.utcHost Examples.shop Examples.noon "bob@b.com"
      (onetimeGrant "125" "constructor" "1m" Examples.payment123)
      Examples.annWorld = (Throw e, w')
    /\ authUsers w' !! "bob@b.com"%string
       = Some {| uid := "uid001"; displayName := "bob";
                 emailVerified := false |}
    /\ users w' = users Examples.annWorld
    /\ outbox w' = outbox Examples.annWorld.
Proof.
  assert (Hp : plusMonths (rt_LocalTZA Examples.utcHost)
                 (baseDateOf Examples.utcHost Examples.noon
                    (ExpirationDate
                       (userAt Examples.annWorld
                          (rt_newUid Examples.utcHost
                             (authUsers Examples.annWorld))))) 1
               = Some 1711713600124) by (vm_compute; reflexivity).
  apply (unstorable_grant_leaves_account Examples.utcHost Examples.shop
           Examples.noon "bob@b.com"
           (onetimeGrant "125" "constructor" "1m" Examples.payment123)
           Examples.annWorld 1 1711713600124 eq_refl eq_refl eq_refl Hp).
  right. exists DatabaseError. vm_compute. reflexivity.
Defined.

(** X9. An activation for an existing user requests no mail, whatever calls
    fail. *)
Theorem existing_user_gets_no_mail rt ev clk email info usr w :
  authUsers w !! email = Some usr ->
  outbox (snd (activateLicense rt ev clk email info w)) = outbox w.
Proof.
  intros Hu.
  set (R := fun a b : world => outbox b = outbox a).
  assert (Rr : forall a, R a a) by (intros a; reflexivity).
  assert (Rt : forall a b c, R a b -> R b c -> R a c)
    by (intros a b c A B; unfold R in *; congruence).
  assert (Hput : forall u f, keeps R (putUser u f)).
  { intros u f w0. destruct (putUser_cases u f w0) as (_ & Ho & _). exact Ho. }
  change (R w (snd (activateLicense rt ev clk email info w))).
  unfold activateLicense.
  destruct (findOrCreateUser_existing rt email w usr Hu) as (_ & _ & Ho & Hres).
  apply (keeps_bind_at _ Rt); [exact Ho|].
  intros a w1 E. rewrite E in Hres. specialize (Hres a eq_refl). subst a.
  cbn [fst snd].
  apply (keeps_bind _ Rt).
  { unfold readExpiration. apply (keeps_bind _ Rt).
    - intros w0. destruct (externalCall_frame w0) as (_ & _ & Ho0). exact Ho0.
    - intros _ w0. apply Rr. }
  intros currentExp. apply (keeps_bind _ Rt).
  { apply keeps_extendedDate, Rr. }
  intros newExp. apply (keeps_bind _ Rt); [intros w0; apply Rr|].
  intros lt. apply (keeps_bind _ Rt); [intros w0; apply Rr|].
  intros md. apply (keeps_bind _ Rt); [apply Hput|].
  intros _. apply (keeps_bind _ Rt).
  { destruct (present (paymentId info)); [apply Hput | intros w0; apply Rr]. }
  intros _. apply (keeps_bind _ Rt).
  { destruct (present (preapprovalId info)); [apply Hput | intros w0; apply Rr]. }
  intros _ w0. apply Rr.
Qed.

Lemma existing_user_gets_no_mail_witness :
  outbox (snd (activateLicense Examples.utcHost Examples.shop Examples.noon
                 "ann@b.com" Examples.grant3 Examples.annWorld)) = [].
Proof.
  apply (existing_user_gets_no_mail Examples.utcHost Examples.shop
           Examples.noon "ann@b.com" Examples.grant3 Examples.ann
           Examples.annWorld).
  reflexivity.
Defined.

(** ** Subscriptions *)

(** X10. An authorized preapproval with a payer email grants one month of the
    tier [Monthly]: the record gets the new expiration, the device cap of
    the inferred plan, and the subscription state (authorized, renewed
    now, next billing at the new expiration); no payment entry is
    written. *)
Theorem subscription_state_written rt ev clk id presub email w t' :
  preapprovalGet ev id = Some presub ->
  pre_status presub = "authorized"%string ->
  payer_email presub = Some email ->
  email <> EmptyString ->
  id <> EmptyString ->
  faults w = [] ->
  plusMonths (rt_LocalTZA rt)
    (baseDateOf rt clk (ExpirationDate (userAt w (resolvedUid rt w email)))) 1
    = Some t' ->
  exists w',
    handleSubscription rt ev clk id w = (Ok tt, w')
    /\ subscription (userAt w' (resolvedUid rt w email))
       = Some {| ss_preapprovalId := id;
                 ss_plan := inferPlan (recurringAmount presub);
                 ss_status := "authorized";
                 ss_lastRenewal := toISOString (t_now clk);
                 ss_nextBilling := toISOString t' |}
    /\ ExpirationDate (userAt w' (resolvedUid rt w email))
       = Some (toISOString t')
    /\ LicenseType (userAt w' (resolvedUid rt w email))
       = Some (DStr "Monthly")
    /\ MaxDevices (userAt w' (resolvedUid rt w email))
       = Some (DNum (if Qle_bool (25 # 1) (recurringAmount presub)
                     then 3 else 1))
    /\ payments (userAt w' (resolvedUid rt w email))
       = payments (userAt w (resolvedUid rt w email)).
Proof.
  intros Hg Hs He Hne Hid Hf Hp.
  set (g := subscriptionGrant id presub).
  assert (Hmd : toDb (maxDevices g)
                = Ok (Some (DNum (if Qle_bool (25 # 1) (recurringAmount presub)
                                  then 3 else 1)))).
  { subst g. unfold subscriptionGrant, inferPlan. cbn [maxDevices].
    destruct (Qle_bool _ _); vm_compute; reflexivity. }
  destruct (activateLicense_run rt ev clk email g w 1 t'
              (Some (DStr "Monthly")) _ Hf eq_refl eq_refl Hmd Hp)
    as (w' & usr' & Hrun & _ & _ & _ & Hrec & _).
  exists w'. split.
  - unfold handleSubscription. rewrite Hg, Hs, He.
    change (String.eqb "authorized" "authorized") with true. cbn [negb].
    rewrite (present_Some_nonempty _ Hne). cbn [negb]. exact Hrun.
  - rewrite Hrec. unfold activatedRecord.
    change (present (paymentId g)) with false.
    change (preapprovalId g) with (Some id).
    rewrite (present_Some_nonempty _ Hid). cbn. repeat split; reflexivity.
Qed.

Lemma subscription_state_written_witness :
  exists w',
    handleSubscription Examples.utcHost Examples.shop Examples.noon "pre1"
      Examples.emptyWorld = (Ok tt, w')
    /\ ss_nextBilling <$> subscription (userAt w' "uid000")
       = Some "2024-03-29T12:00:00.124Z"%string
    /\ MaxDevices (userAt w' "uid000") = Some (DNum 3).
Proof.
  assert (Hp : plusMonths (rt_LocalTZA Examples.utcHost)
                 (baseDateOf Examples.utcHost Examples.noon
                    (ExpirationDate
                       (userAt Examples.emptyWorld
                          (resolvedUid Examples.utcHost Examples.emptyWorld
                             "a@b.com")))) 1 = Some 1711713600124)
    by (vm_compute; reflexivity).
  assert (He : "a@b.com"%string <> EmptyString) by discriminate.
  assert (Hid : "pre1"%string <> EmptyString) by discriminate.
  destruct (subscription_state_written Examples.utcHost Examples.shop
              Examples.noon "pre1" Examples.preapprovalPro "a@b.com"
              Examples.emptyWorld 1711713600124
              eq_refl eq_refl eq_refl He Hid eq_refl Hp)
    as (w' & Hrun & Hsub & _ & _ & Hmd & _).
  exists w'. split; [exact Hrun|].
  change (resolvedUid Examples.utcHost Examples.emptyWorld "a@b.com")
    with "uid000"%string in *.
  split; [rewrite Hsub; reflexivity | exact Hmd].
Defined.

(** ** The tables *)

Lemma table_miss (t : gmap string jsval) key :
  t !! key = None -> inherited key = VUndef -> forall d, orElse (get t key) d = d.
Proof. intros H1 H2 d. unfold get, orElse. rewrite H1, H2. reflexivity. Qed.

Lemma DURATION_MONTHS_miss d :
  d <> "1m"%string -> d <> "3m"%string -> d <> "6m"%string ->
  d <> "12m"%string -> DURATION_MONTHS !! d = None.
Proof.
  intros. unfold DURATION_MONTHS. cbn [list_to_map foldr fst snd uncurry].
  rewrite !lookup_insert_ne by congruence. apply lookup_empty.
Qed.

Lemma DURATION_LICENSE_miss d :
  d <> "1m"%string -> d <> "3m"%string -> d <> "6m"%string ->
  d <> "12m"%string -> DURATION_LICENSE !! d = None.
Proof.
  intros. unfold DURATION_LICENSE. cbn [list_to_map foldr fst snd uncurry].
  rewrite !lookup_insert_ne by congruence. apply lookup_empty.
Qed.

Lemma PLAN_MAX_DEVICES_miss p :
  p <> "individual"%string -> p <> "profesional"%string ->
  PLAN_MAX_DEVICES !! p = None.
Proof.
  intros. unfold PLAN_MAX_DEVICES. cbn [list_to_map foldr fst snd uncurry].
  rewrite !lookup_insert_ne by congruence. apply lookup_empty.
Qed.

(** X11. The grant of a one-time payment, for the keys of the tables and for
    the keys that are in no table and that no object inherits: 1, 3 and
    6 months are [Monthly], 12 months are [Annual]; [individual] allows
    one device, [profesional] three; such an unknown duration counts as
    one month of [Monthly], such an unknown plan allows one device. *)
Theorem onetimeGrant_tables id pay p d :
  let g := onetimeGrant id p d pay in
  (d = "1m"%string -> licenseType g = VStr "Monthly" /\ months g = VNum 1)
  /\ (d = "3m"%string -> licenseType g = VStr "Monthly" /\ months g = VNum 3)
  /\ (d = "6m"%string -> licenseType g = VStr "Monthly" /\ months g = VNum 6)
  /\ (d = "12m"%string -> licenseType g = VStr "Annual" /\ months g = VNum 12)
  /\ (d <> "1m"%string -> d <> "3m"%string -> d <> "6m"%string ->
      d <> "12m"%string -> inherited d = VUndef ->
      licenseType g = VStr "Monthly" /\ months g = VNum 1)
  /\ (p = "individual"%string -> maxDevices g = VNum 1)
  /\ (p = "profesional"%string -> maxDevices g = VNum 3)
  /\ (p <> "individual"%string -> p <> "profesional"%string ->
      inherited p = VUndef -> maxDevices g = VNum 1).
Proof.
  intros g. subst g. unfold onetimeGrant. cbn [licenseType months maxDevices].
  split; [intros ->; vm_compute; split; reflexivity|].
  split; [intros ->; vm_compute; split; reflexivity|].
  split; [intros ->; vm_compute; split; reflexivity|].
  split; [intros ->; vm_compute; split; reflexivity|].
  split.
  { intros H1 H3 H6 H12 Hi. split.
    - apply table_miss; [apply DURATION_LICENSE_miss|]; assumption.
    - apply table_miss; [apply DURATION_MONTHS_miss|]; assumption. }
  split; [intros ->; vm_compute; reflexivity|].
  split; [intros ->; vm_compute; reflexivity|].
  intros H1 H2 Hi. apply table_miss; [apply PLAN_MAX_DEVICES_miss|]; assumption.
Qed.

Lemma onetimeGrant_tables_witness :
  licenseType (onetimeGrant "1" "gold" "2w" Examples.payment123)
  = VStr "Monthly"
  /\ months (onetimeGrant "1" "gold" "2w" Examples.payment123) = VNum 1.
Proof.
  apply (proj1 (proj2 (proj2 (proj2 (proj2
           (onetimeGrant_tables "1" Examples.payment123 "gold" "2w"))))));
    (discriminate || reflexivity).
Defined.

(** X12. The catalog of the initiator and the tables of the webhook agree:
    whatever item the catalog sells for a plan and a duration, the
    webhook grants the item's months, the tier of that length, and the
    device cap of the plan. *)
Theorem catalog_matches_webhook_tables bt plan duration title price n id pay :
  CreatePreference.catalogLookup bt plan duration
    = CreatePreference.Item title price n ->
  months (onetimeGrant id plan duration pay) = VNum n
  /\ licenseType (onetimeGrant id plan duration pay)
     = VStr (if n <? 12 then "Monthly" else "Annual")
  /\ maxDevices (onetimeGrant id plan duration pay)
     = VNum (if String.eqb plan "individual" then 1 else 3).
Proof.
  unfold CreatePreference.catalogLookup.
  destruct (String.eqb_spec plan "individual") as [->|Hp1].
  - unfold CreatePreference.individualItems.
    destruct (String.eqb_spec duration "1m") as [->|];
      [intros [= <- <- <-]; vm_compute; repeat split|].
    destruct (String.eqb_spec duration "3m") as [->|];
      [intros [= <- <- <-]; vm_compute; repeat split|].
    destruct (String.eqb_spec duration "6m") as [->|];
      [intros [= <- <- <-]; vm_compute; repeat split|].
    destruct (String.eqb_spec duration "12m") as [->|];
      [intros [= <- <- <-]; vm_compute; repeat split|].
    unfold CreatePreference.builtinItem. destruct (truthy _); discriminate.
  - destruct (String.eqb_spec plan "profesional") as [->|Hp2].
    + unfold CreatePreference.profesionalItems.
      destruct (String.eqb_spec duration "1m") as [->|];
        [intros [= <- <- <-]; vm_compute; repeat split|].
      destruct (String.eqb_spec duration "3m") as [->|];
        [intros [= <- <- <-]; vm_compute; repeat split|].
      destruct (String.eqb_spec duration "6m") as [->|];
        [intros [= <- <- <-]; vm_compute; repeat split|].
      destruct (String.eqb_spec duration "12m") as [->|];
        [intros [= <- <- <-]; vm_compute; repeat split|].
      unfold CreatePreference.builtinItem. destruct (truthy _); discriminate.
    + destruct (inherited plan); try discriminate.
      * destruct (bt name duration); discriminate.
      * destruct (String.eqb duration "__proto__"); [discriminate|].
        unfold CreatePreference.builtinItem. destruct (truthy _); discriminate.
Qed.

Lemma catalog_matches_webhook_tables_witness :
  months (onetimeGrant "1" "profesional" "12m" Examples.payment123) = VNum 12
  /\ licenseType (onetimeGrant "1" "profesional" "12m" Examples.payment123)
     = VStr "Annual"
  /\ maxDevices (onetimeGrant "1" "profesional" "12m" Examples.payment123)
     = VNum 3.
Proof.
  apply (catalog_matches_webhook_tables (fun _ _ => false) "profesional" "12m"
           "BIMS Profesional – 1 año" 249 12 "1" Examples.payment123).
  reflexivity.
Defined.

(** ** The initiators *)

Lemma present_true_inv (s : option string) :
  present s = true -> exists x, s = Some x /\ x <> EmptyString.
Proof.
  unfold present. destruct s as [x|]; [|discriminate].
  intros H. exists x. split; [reflexivity|].
  apply negb_true_iff, String.eqb_neq in H. exact H.
Qed.

(** A plan, or a duration of one of the two plans, that is in no table
    and that no object inherits is not in the catalog. *)
Lemma catalogLookup_unknown bt plan duration :
  (plan <> "individual"%string /\ plan <> "profesional"%string
   /\ inherited plan = VUndef)
  \/ ((plan = "individual"%string \/ plan = "profesional"%string)
      /\ duration <> "1m"%string /\ duration <> "3m"%string
      /\ duration <> "6m"%string /\ duration <> "12m"%string
      /\ inherited duration = VUndef) ->
  CreatePreference.catalogLookup bt plan duration = CreatePreference.ItemMissing.
Proof.
  unfold CreatePreference.catalogLookup.
  intros [(H1 & H2 & Hi)|(Hp & D1 & D3 & D6 & D12 & Hi)].
  - rewrite (eqb_false_of_neq _ _ H1), (eqb_false_of_neq _ _ H2), Hi.
    reflexivity.
  - assert (Hmiss : CreatePreference.individualItems duration
                    = CreatePreference.ItemMissing
                    /\ CreatePreference.profesionalItems duration
                       = CreatePreference.ItemMissing).
    { unfold CreatePreference.individualItems, CreatePreference.profesionalItems.
      rewrite (eqb_false_of_neq _ _ D1), (eqb_false_of_neq _ _ D3),
        (eqb_false_of_neq _ _ D6), (eqb_false_of_neq _ _ D12).
      split; reflexivity. }
    destruct Hmiss as [Hm1 Hm2].
    destruct Hp as [-> | ->]; cbn [String.eqb Ascii.eqb Bool.eqb];
      rewrite ?Hm1, ?Hm2, Hi; reflexivity.
Qed.



(** X14. For an item of the catalog and a well-formed email the processor is
    called once, with the item's title and price, one unit, the payer's
    email and the currency of the environment (USD by default); the
    answer is 200 with the two URLs of the processor, or 500 with a fixed
    message when the processor rejects. *)
Theorem preference_created bt create ev email plan duration title price n :
  Checkout.emailRx email = true ->
  CreatePreference.catalogLookup bt plan duration
    = CreatePreference.Item title price n ->
  exists b,
    CreatePreference.item_title b = Some title
    /\ CreatePreference.item_unit_price b = Some price
    /\ CreatePreference.item_quantity b = 1
    /\ CreatePreference.payer_email b = email
    /\ CreatePreference.item_currency_id b
       = strOr (Checkout.MP_CURRENCY ev) "USD"
    /\ CreatePreference.handler bt create ev
         {| CreatePreference.method := "POST";
            CreatePreference.email := Some email;
            CreatePreference.plan := Some plan;
            CreatePreference.duration := Some duration |}
       = match create b with
         | Some (init_point, sandbox_init_point) =>
             ({| Checkout.status := 200;
                 Checkout.body :=
                   Checkout.CheckoutBody init_point sandbox_init_point |},
              [b])
         | None =>
             ({| Checkout.status := 500;
                 Checkout.body :=
                   Checkout.ErrorBody
                     "No se pudo crear la preferencia de pago" |}, [b])
         end.
Proof.
  intros Hrx Hit.
  exists (CreatePreference.preferenceOf ev email plan duration
            (CreatePreference.Item title price n)).
  repeat split.
  unfold CreatePreference.handler.
  cbn [CreatePreference.method CreatePreference.email CreatePreference.plan
       CreatePreference.duration].
  change (String.eqb "POST" "OPTIONS") with false.
  change (negb (String.eqb "POST" "POST")) with false. cbv iota.
  assert (He : email <> EmptyString) by (intros ->; discriminate Hrx).
  assert (Hp : plan <> EmptyString).
  { intros ->. revert Hit. unfold CreatePreference.catalogLookup.
    cbn. discriminate. }
  assert (Hd : duration <> EmptyString).
  { intros ->. revert Hit. unfold CreatePreference.catalogLookup.
    destruct (String.eqb plan "individual"); [cbn; discriminate|].
    destruct (String.eqb plan "profesional"); [cbn; discriminate|].
    destruct (inherited plan); try discriminate;
      try (destruct (bt _ _); discriminate); cbn; discriminate. }
  rewrite !present_Some_nonempty by assumption.
  cbn [negb orb default from_option Datatypes.id].
  rewrite Hrx, Hit. cbn [negb]. reflexivity.
Qed.

Lemma preference_created_witness :
  exists b,
    CreatePreference.item_title b = Some "BIMS Individual – 3 meses"%string
    /\ CreatePreference.item_unit_price b = Some 40
    /\ CreatePreference.item_quantity b = 1
    /\ CreatePreference.payer_email b = "a@b.com"%string
    /\ CreatePreference.item_currency_id b = "USD"%string
    /\ CreatePreference.handler (fun _ _ => false) (fun _ => None)
         {| Checkout.SITE_URL := None; Checkout.VERCEL_URL := None;
            Checkout.MP_CURRENCY := None |}
         {| CreatePreference.method := "POST";
            CreatePreference.email := Some "a@b.com"%string;
            CreatePreference.plan := Some "individual"%string;
            CreatePreference.duration := Some "3m"%string |}
       = ({| Checkout.status := 500;
             Checkout.body :=
               Checkout.ErrorBody "No se pudo crear la preferencia de pago" |},
          [b]).
Proof.
  apply (preference_created (fun _ _ => false) (fun _ => None)
           {| Checkout.SITE_URL := None; Checkout.VERCEL_URL := None;
              Checkout.MP_CURRENCY := None |}
           "a@b.com" "individual" "3m" "BIMS Individual – 3 meses" 40 3);
    reflexivity.
Defined.

Lemma SUBSCRIPTION_PRICES_miss p :
  p <> "individual"%string -> p <> "profesional"%string ->
  CreateSubscription.SUBSCRIPTION_PRICES !! p = None.
Proof.
  intros. unfold CreateSubscription.SUBSCRIPTION_PRICES.
  cbn [list_to_map foldr fst snd uncurry].
  rewrite !lookup_insert_ne by congruence. apply lookup_empty.
Qed.

(** X15. The subscription initiator: for the two plans the processor is
    called once for a monthly preapproval at the plan's price (15 or 25)
    with one free month, and the answer is 200 with the processor's URL
    or 500; a plan that is in no table and that no object inherits is
    answered 400 without a call. *)
Theorem subscription_checkout create ev email plan :
  Checkout.emailRx email = true ->
  plan <> EmptyString ->
  let out := CreateSubscription.handler create ev
               {| CreateSubscription.method := "POST";
                  CreateSubscription.email := Some email;
                  CreateSubscription.plan := Some plan |} in
  (forall price,
      (plan = "individual"%string /\ price = 15)
      \/ (plan = "profesional"%string /\ price = 25) ->
      exists b,
        CreateSubscription.transaction_amount b = VNum price
        /\ CreateSubscription.frequency b = 1
        /\ CreateSubscription.frequency_type b = "months"%string
        /\ CreateSubscription.free_trial_frequency b = 1
        /\ CreateSubscription.free_trial_frequency_type b = "months"%string
        /\ CreateSubscription.payer_email b = email
        /\ out = match create b with
                 | Some init_point =>
                     ({| Checkout.status := 200;
                         Checkout.body := Checkout.AuthorizationBody init_point |},
                      [b])
                 | None =>
                     ({| Checkout.status := 500;
                         Checkout.body :=
                           Checkout.ErrorBody "No se pudo crear la suscripción" |},
                      [b])
                 end)
  /\ (plan <> "individual"%string -> plan <> "profesional"%string ->
      inherited plan = VUndef ->
      out = ({| Checkout.status := 400;
                Checkout.body :=
                  Checkout.ErrorBody
                    ("Plan inválido: " +:+ Checkout.dq +:+ plan
                     +:+ Checkout.dq) |}, [])).
Proof.
  intros Hrx Hp out. subst out.
  assert (He : email <> EmptyString) by (intros ->; discriminate Hrx).
  unfold CreateSubscription.handler.
  cbn [CreateSubscription.method CreateSubscription.email
       CreateSubscription.plan].
  change (String.eqb "POST" "OPTIONS") with false.
  change (negb (String.eqb "POST" "POST")) with false. cbv iota.
  rewrite !present_Some_nonempty by assumption.
  cbn [negb orb default from_option Datatypes.id]. rewrite Hrx. cbn [negb].
  split.
  - intros price [[-> ->]|[-> ->]].
    + exists (CreateSubscription.preapprovalOf ev email "individual" (VNum 15)).
      repeat split.
    + exists (CreateSubscription.preapprovalOf ev email "profesional" (VNum 25)).
      repeat split.
  - intros H1 H2 Hi. unfold get.
    rewrite (SUBSCRIPTION_PRICES_miss plan H1 H2), Hi. reflexivity.
Qed.

Lemma subscription_checkout_witness :
  CreateSubscription.handler (fun _ => None)
    {| Checkout.SITE_URL := None; Checkout.VERCEL_URL := None;
       Checkout.MP_CURRENCY := None |}
    {| CreateSubscription.method := "POST";
       CreateSubscription.email := Some "a@b.com"%string;
       CreateSubscription.plan := Some "gold"%string |}
  = ({| Checkout.status := 400;
        Checkout.body :=
          Checkout.ErrorBody
            ("Plan inválido: " +:+ Checkout.dq +:+ "gold" +:+ Checkout.dq) |},
     []).
Proof.
  apply (proj2 (subscription_checkout (fun _ => None)
           {| Checkout.SITE_URL := None; Checkout.VERCEL_URL := None;
              Checkout.MP_CURRENCY := None |} "a@b.com" "gold"
           eq_refl ltac:(discriminate)));
    (discriminate || reflexivity).
Defined.

(** ** The shape of an email *)

Ltac closed_tests :=
  repeat match goal with
         | |- context [N.eqb ?a ?b] =>
             let v := eval vm_compute in (N.eqb a b) in
             match v with
             | true => change (N.eqb a b) with true
             | false => change (N.eqb a b) with false
             end
         | |- context [N.leb ?a ?b] =>
             let v := eval vm_compute in (N.leb a b) in
             match v with
             | true => change (N.leb a b) with true
             | false => change (N.leb a b) with false
             end
         end.

(** A dot after a string does not make it start with white space, nor
    hide that it does. *)
Lemma wsLength_before_dot x r y :
  wsLength (String x r +:+ String "." y) = wsLength (String x r).
Proof.
  destruct r as [|c2 [|c3 r]]; rewrite ?append_cons, ?append_nil;
    unfold wsLength, byteAt; cbn [String.get];
    change (N_of_ascii ".") with 46%N; closed_tests;
    rewrite ?andb_false_r, ?andb_false_l; cbn [andb orb];
    rewrite ?andb_false_r; reflexivity.
Qed.

Lemma containsWs_dot b c :
  Checkout.containsWs (b +:+ String "." c)
  = Checkout.containsWs b || Checkout.containsWs c.
Proof.
  induction b as [|x r IH].
  - rewrite append_nil. cbn [Checkout.containsWs orb].
    rewrite (wsLength_plain "." c eq_refl). reflexivity.
  - rewrite append_cons. cbn [Checkout.containsWs].
    change (String x (r +:+ String "." c)) with (String x r +:+ String "." c).
    rewrite wsLength_before_dot, IH, orb_assoc. reflexivity.
Qed.

Lemma containsChar_app ch a b :
  Checkout.containsChar ch (a +:+ b)
  = Checkout.containsChar ch a || Checkout.containsChar ch b.
Proof.
  unfold Checkout.containsChar.
  induction a as [|x r IH]; [reflexivity|].
  rewrite append_cons. cbn [list_ascii_of_string existsb].
  rewrite IH, orb_assoc. reflexivity.
Qed.

Lemma cut_spec ch s loc rest :
  Checkout.cut ch s = Some (loc, rest) ->
  s = loc +:+ String ch rest /\ Checkout.containsChar ch loc = false.
Proof.
  revert loc rest. induction s as [|x r IH]; [discriminate|].
  intros loc rest. cbn [Checkout.cut].
  destruct (Ascii.eqb_spec x ch) as [->|Hne].
  - intros [= <- <-]. split; reflexivity.
  - destruct (Checkout.cut ch r) as [[a b]|]; [|discriminate].
    intros [= <- <-]. destruct (IH a b eq_refl) as [-> Hc].
    split; [reflexivity|].
    unfold Checkout.containsChar in *. cbn [list_ascii_of_string existsb].
    rewrite Hc. destruct (Ascii.eqb_spec ch x); [congruence | reflexivity].
Qed.

Lemma cut_app ch a rest :
  Checkout.containsChar ch a = false ->
  Checkout.cut ch (a +:+ String ch rest) = Some (a, rest).
Proof.
  unfold Checkout.containsChar. induction a as [|x r IH].
  - intros _. rewrite append_nil. cbn [Checkout.cut].
    rewrite Ascii.eqb_refl. reflexivity.
  - cbn [list_ascii_of_string existsb]. intros H.
    apply orb_false_iff in H. destruct H as [Hx Hr].
    rewrite append_cons. cbn [Checkout.cut].
    rewrite Ascii.eqb_sym, Hx, (IH Hr). reflexivity.
Qed.

Lemma innerDot_spec s :
  Checkout.innerDot s = true <->
  exists b c, s = b +:+ String "." c /\ b <> EmptyString /\ c <> EmptyString.
Proof.
  split.
  - induction s as [|x r IH]; [discriminate|].
    destruct r as [|y r']; [discriminate|].
    cbn [Checkout.innerDot]. intros H. apply orb_true_iff in H.
    destruct H as [H|H].
    + apply andb_true_iff in H. destruct H as [Hy Hr].
      apply Ascii.eqb_eq in Hy. subst y.
      exists (String x ""), r'. split; [reflexivity|].
      split; [discriminate|].
      apply negb_true_iff, String.eqb_neq in Hr. exact Hr.
    + destruct (IH H) as (b & c & Hb & Hbn & Hcn).
      exists (String x b), c. rewrite append_cons, <- Hb.
      split; [reflexivity|]. split; [discriminate | exact Hcn].
  - intros (b & c & -> & Hb & Hc). revert Hb.
    induction b as [|x r IH]; [congruence|]. intros _.
    rewrite append_cons. destruct r as [|y r'].
    + rewrite append_nil. cbn [Checkout.innerDot].
      rewrite Ascii.eqb_refl. apply String.eqb_neq in Hc. rewrite Hc.
      reflexivity.
    + change (Checkout.innerDot (String x (String y r' +:+ String "." c)))
        with ((Ascii.eqb y "." && negb (String.eqb (r' +:+ String "." c) ""))
              || Checkout.innerDot (String y r' +:+ String "." c)).
      rewrite IH by discriminate. apply orb_true_r.
Qed.

(** X16. The test the initiators run on an email decides the regular
    expression [/^[^\s@]+@[^\s@]+\.[^\s@]+$/]: it accepts exactly the
    strings made of three runs without white space and at sign, joined by
    an at sign and a dot. *)
Theorem emailRx_decides_the_pattern s :
  Checkout.emailRx s = true <-> matchesEmailRx s.
Proof.
  unfold Checkout.emailRx, matchesEmailRx, classRun. split.
  - destruct (Checkout.cut "@" s) as [[loc rest]|] eqn:Hc; [|discriminate].
    destruct (cut_spec _ _ _ _ Hc) as [-> Hloc].
    rewrite !andb_true_iff, !negb_true_iff.
    intros ((((Hne & Hw1) & Hw2) & Hat) & Hdot).
    apply innerDot_spec in Hdot. destruct Hdot as (b & c & -> & Hb & Hcn).
    rewrite containsWs_dot in Hw2. apply orb_false_iff in Hw2.
    rewrite containsChar_app in Hat. apply orb_false_iff in Hat.
    destruct Hat as [Hat1 Hat2].
    exists loc, b, c. split; [reflexivity|].
    apply String.eqb_neq in Hne.
    repeat split; tauto.
  - intros (a & b & c & -> & (Ha & Hwa & Hata) & (Hb & Hwb & Hatb)
            & (Hc & Hwc & Hatc)).
    rewrite (cut_app "@" a _ Hata).
    apply String.eqb_neq in Ha. rewrite Ha, Hwa, containsWs_dot, Hwb, Hwc.
    rewrite containsChar_app, Hatb.
    assert (Checkout.containsChar "@" (String "." c) = false) as ->.
    { unfold Checkout.containsChar in *. cbn [list_ascii_of_string existsb].
      rewrite Hatc. reflexivity. }
    cbn [negb andb orb]. apply innerDot_spec. exists b, c. auto.
Qed.

(** ** From the checkout to the activation *)

Lemma append_empty_r (s : string) : s +:+ "" = s.
Proof.
  induction s as [|c r IH]; [reflexivity|].
  rewrite append_cons, IH. reflexivity.
Qed.

Lemma jsonEscape_cons c r :
  Checkout.jsonEscape (String c r)
  = Checkout.jsonEscape (String c "") +:+ Checkout.jsonEscape r.
Proof.
  cbn [Checkout.jsonEscape]. rewrite append_empty_r. reflexivity.
Qed.

(** One escaped character is read back as the character. *)
Lemma readJsonString_one c t :
  Reference.readJsonString (Checkout.jsonEscape (String c "") +:+ t)
  = match Reference.readJsonString t with
    | Some (u, rest) => Some (String c u, rest)
    | None => None
    end.
Proof.
  destruct c as [[] [] [] [] [] [] [] []]; reflexivity.
Qed.

(** An escaped string is read back up to the quote that closes it. *)
Lemma readJsonString_jsonEscape s rest :
  Reference.readJsonString (Checkout.jsonEscape s +:+ Checkout.dq +:+ rest)
  = Some (s, rest).
Proof.
  induction s as [|c r IH].
  - reflexivity.
  - rewrite jsonEscape_cons, append_assoc, readJsonString_one, IH.
    reflexivity.
Qed.

(** A member followed by a comma sets its field and leaves the rest to
    be read; a member followed by the closing brace ends the object. *)
Lemma readMembers_more fuel k v rest acc :
  Reference.readMembers (S fuel)
    (Checkout.dq +:+ Checkout.jsonEscape k +:+ Checkout.dq +:+ ":"
       +:+ Checkout.dq +:+ Checkout.jsonEscape v +:+ Checkout.dq
       +:+ String "," rest) acc
  = Reference.readMembers fuel rest (Reference.setField k v acc).
Proof.
  unfold Checkout.dq at 1. rewrite append_cons, append_nil.
  cbn [Reference.readMembers].
  change (N_of_ascii (ascii_of_N 34) =? 34)%N with true. cbv iota.
  rewrite readJsonString_jsonEscape.
  rewrite append_cons, append_nil. unfold Checkout.dq at 1.
  rewrite append_cons, append_nil.
  change (N_of_ascii (ascii_of_N 34) =? 34)%N with true. cbv iota.
  rewrite readJsonString_jsonEscape. reflexivity.
Qed.

Lemma readMembers_last fuel k v acc :
  Reference.readMembers (S fuel)
    (Checkout.dq +:+ Checkout.jsonEscape k +:+ Checkout.dq +:+ ":"
       +:+ Checkout.dq +:+ Checkout.jsonEscape v +:+ Checkout.dq +:+ "}") acc
  = let '(e, p, d) := Reference.setField k v acc in RefObject e p d.
Proof.
  unfold Checkout.dq at 1. rewrite append_cons, append_nil.
  cbn [Reference.readMembers].
  change (N_of_ascii (ascii_of_N 34) =? 34)%N with true. cbv iota.
  rewrite readJsonString_jsonEscape.
  rewrite append_cons, append_nil. unfold Checkout.dq at 1.
  rewrite append_cons, append_nil.
  change (N_of_ascii (ascii_of_N 34) =? 34)%N with true. cbv iota.
  rewrite readJsonString_jsonEscape. reflexivity.
Qed.

Lemma readReference_members r :
  Reference.readReference (String "{" (Checkout.dq +:+ r))
  = Reference.readMembers (S (S (String.length r))) (Checkout.dq +:+ r)
      (None, None, None).
Proof. reflexivity. Qed.

(** The reference the preference creator writes is read back as the
    three fields it was written from, whatever characters they hold. *)
Lemma readReference_written email plan duration :
  Reference.readReference
    ("{" +:+ Checkout.jsonString "e" +:+ ":" +:+ Checkout.jsonString email
         +:+ "," +:+ Checkout.jsonString "p" +:+ ":"
         +:+ Checkout.jsonString plan +:+ ","
         +:+ Checkout.jsonString "d" +:+ ":"
         +:+ Checkout.jsonString duration +:+ "}")
  = RefObject (Some email) (Some plan) (Some duration).
Proof.
  unfold Checkout.jsonString. rewrite !append_assoc.
  rewrite append_cons, append_nil, readReference_members.
  etransitivity; [apply (readMembers_more _ "e" email)|].
  etransitivity; [apply (readMembers_more _ "p" plan)|].
  etransitivity; [apply (readMembers_last _ "d" duration)|].
  reflexivity.
Qed.

(** X17. Checkout and webhook compose. A preference the creator sends
    to the processor carries the buyer's email, plan and duration in its
    reference; on a host whose [JSON.parse] reads the references the
    creator writes back as their three fields, the approved payment that
    carries this reference activates the license of that plan and
    duration for that email, in both webhooks. *)
Theorem bought_is_activated bt create cev req b rt ev clk id pay :
  In b (snd (CreatePreference.handler bt create cev req)) ->
  (forall email plan duration it,
      rt_JSON_parse rt
        (CreatePreference.pref_external_reference
           (CreatePreference.preferenceOf cev email plan duration it))
      = RefObject (Some email) (Some plan) (Some duration)) ->
  paymentGet ev id = Some pay ->
  pay_status pay = "approved"%string ->
  external_reference pay = Some (CreatePreference.pref_external_reference b) ->
  exists email plan duration,
    CreatePreference.email req = Some email
    /\ CreatePreference.plan req = Some plan
    /\ CreatePreference.duration req = Some duration
    /\ handlePayment rt ev clk id
       = activateLicense rt ev clk email (onetimeGrant id plan duration pay)
    /\ NetlifyWebhook.handlePayment rt ev clk id
       = activateLicense rt ev clk email (onetimeGrant id plan duration pay).
Proof.
  intros Hb Hparse Hget Hst Href.
  unfold CreatePreference.handler in Hb.
  destruct (String.eqb (CreatePreference.method req) "OPTIONS");
    [destruct Hb|].
  destruct (negb (String.eqb (CreatePreference.method req) "POST"));
    [destruct Hb|].
  destruct (present (CreatePreference.email req)) eqn:He;
    [|destruct Hb].
  destruct (present (CreatePreference.plan req)) eqn:Hp;
    [|destruct Hb].
  destruct (present (CreatePreference.duration req)) eqn:Hd;
    [|destruct Hb].
  cbn [negb orb] in Hb.
  destruct (present_true_inv _ He) as (email & Ee & Ne).
  destruct (present_true_inv _ Hp) as (plan & Ep & Np).
  destruct (present_true_inv _ Hd) as (duration & Ed & Nd).
  rewrite Ee, Ep, Ed in Hb. cbn [default from_option Datatypes.id] in Hb.
  exists email, plan, duration.
  split; [exact Ee|]. split; [exact Ep|]. split; [exact Ed|].
  destruct (negb (Checkout.emailRx email)); [destruct Hb|].
  assert (Hr : b = CreatePreference.preferenceOf cev email plan duration
                     (CreatePreference.catalogLookup bt plan duration)).
  { destruct (CreatePreference.catalogLookup bt plan duration) eqn:Hl;
      try destruct Hb;
      destruct (create _) as [[? ?]|]; destruct Hb as [<-|[]]; reflexivity. }
  assert (Hread : parseReference rt (external_reference pay)
                  = Fields (Some email) (Some plan) (Some duration)).
  { unfold parseReference. rewrite Href, Hr.
    set (ref := CreatePreference.pref_external_reference _).
    assert (Hpr : present (Some ref) = true) by reflexivity.
    rewrite Hpr. cbn [default from_option Datatypes.id].
    subst ref. rewrite Hparse. reflexivity. }
  apply String.eqb_neq in Np, Nd, Ne.
  unfold handlePayment, NetlifyWebhook.handlePayment.
  rewrite Hget, Hst, Hread.
  cbn [String.eqb Ascii.eqb Bool.eqb negb andb].
  unfold strOr, present. rewrite Np, Nd, Ne.
  cbn [negb default from_option Datatypes.id]. split; reflexivity.
Qed.

(** The example host reads the creator's references back; the payment
    123 carries the reference of a checkout for three months. *)
Lemma bought_is_activated_witness :
  exists email plan duration,
    Some "a@b.com"%string = Some email
    /\ Some "individual"%string = Some plan
    /\ Some "3m"%string = Some duration
    /\ handlePayment Examples.utcHost Examples.shop Examples.noon "123"
       = activateLicense Examples.utcHost Examples.shop Examples.noon email
           (onetimeGrant "123" plan duration Examples.payment123)
    /\ NetlifyWebhook.handlePayment Examples.utcHost Examples.shop
         Examples.noon "123"
       = activateLicense Examples.utcHost Examples.shop Examples.noon email
           (onetimeGrant "123" plan duration Examples.payment123).
Proof.
  apply (bought_is_activated (fun _ _ => false) (fun _ => None)
           {| Checkout.SITE_URL := None; Checkout.VERCEL_URL := None;
              Checkout.MP_CURRENCY := None |}
           {| CreatePreference.method := "POST";
              CreatePreference.email := Some "a@b.com"%string;
              CreatePreference.plan := Some "individual"%string;
              CreatePreference.duration := Some "3m"%string |}
           (CreatePreference.preferenceOf
              {| Checkout.SITE_URL := None; Checkout.VERCEL_URL := None;
                 Checkout.MP_CURRENCY := None |}
              "a@b.com" "individual" "3m"
              (CreatePreference.catalogLookup (fun _ _ => false)
                 "individual" "3m"))
           Examples.utcHost Examples.shop Examples.noon "123"
           Examples.payment123).
  - left. vm_compute. reflexivity.
  - intros email plan duration it.
    exact (readReference_written email plan duration).
  - reflexivity.
  - reflexivity.
  - vm_compute. reflexivity.
Defined.

(** ** What the handlers pass on *)

(** X18. A notification without an [x-signature] header passes the gate even
    when a secret is configured; and a POST that passes the gate with a
    topic and an id leaves the world as the processing of that topic
    leaves it, whether the processing returns or throws. *)
Theorem accepted_post_is_dispatched rt ev clk req w :
  (strOr (x_signature req) "" = EmptyString ->
   signatureAccepted ev req = true)
  /\ (method req = "POST"%string ->
      signatureAccepted ev req = true ->
      firstPresent (body_type req) (query_topic req) <> EmptyString ->
      firstPresent (body_data_id req) (query_id req) <> EmptyString ->
      handler rt ev clk req w
      = (Ok {| statusCode := 200; body := "" |},
         snd (dispatch rt ev clk
                (firstPresent (body_type req) (query_topic req))
                (firstPresent (body_data_id req) (query_id req)) w))).
Proof.
  split.
  - intros H. unfold signatureAccepted, verifySignature. rewrite H.
    destruct (present _); reflexivity.
  - intros Hm Hs Ht Hi. unfold handler. rewrite Hm, Hs.
    rewrite (eqb_false_of_neq _ _ Ht), (eqb_false_of_neq _ _ Hi).
    cbn [String.eqb Ascii.eqb Bool.eqb negb orb andb].
    unfold tryCatch, bind, ret.
    destruct (dispatch rt ev clk _ _ w) as [[[]|e] w']; reflexivity.
Qed.

Lemma accepted_post_is_dispatched_witness :
  handler Examples.utcHost Examples.shop Examples.noon
    {| method := "POST"; x_signature := None; x_request_id := None;
       body_type := Some "payment"%string;
       body_data_id := Some "999"%string;
       query_topic := None; query_id := None |} Examples.emptyWorld
  = (Ok {| statusCode := 200; body := "" |},
     snd (dispatch Examples.utcHost Examples.shop Examples.noon
            "payment" "999" Examples.emptyWorld)).
Proof.
  apply (proj2 (accepted_post_is_dispatched Examples.utcHost Examples.shop
                  Examples.noon
                  {| method := "POST"; x_signature := None;
                     x_request_id := None;
                     body_type := Some "payment"%string;
                     body_data_id := Some "999"%string;
                     query_topic := None; query_id := None |}
                  Examples.emptyWorld));
    (reflexivity || discriminate).
Defined.

(** The two variants of [handlePayment] do the same with a payment
    whose reference is not decoded. *)
Lemma handlePayment_same_without_reference rt ev clk id w :
  (forall pay,
      paymentGet ev id = Some pay ->
      pay_status pay = "approved"%string ->
      present (external_reference pay) = false) ->
  NetlifyWebhook.handlePayment rt ev clk id w = handlePayment rt ev clk id w.
Proof.
  intros H. unfold NetlifyWebhook.handlePayment, handlePayment.
  destruct (paymentGet ev id) as [pay|] eqn:Hg; [|reflexivity].
  destruct (String.eqb_spec (pay_status pay) "approved") as [Hs|Hs];
    cbn [negb]; [|reflexivity].
  unfold parseReference. rewrite (H pay eq_refl Hs).
  cbv beta iota zeta. cbn [present negb]. reflexivity.
Qed.

(** X19. On every event that does not make it decode a reference, the
    Netlify handler answers as the Vercel handler answers the request
    with the same method, headers, body fields and query, and leaves the
    same world: the signature gate, the choice of topic and id, the
    subscriptions, the renewals, and the payments that cannot be fetched,
    are not approved or carry no reference. *)
Theorem netlify_handler_agrees rt ev clk e ty did w :
  NetlifyWebhook.body e = NetlifyWebhook.BodyFields ty did ->
  (firstPresent ty (NetlifyWebhook.query_topic e) = "payment"%string ->
   forall pay,
     paymentGet ev (firstPresent did (NetlifyWebhook.query_id e)) = Some pay ->
     pay_status pay = "approved"%string ->
     present (external_reference pay) = false) ->
  NetlifyWebhook.handler rt ev clk e w
  = handler rt ev clk
      {| method := NetlifyWebhook.httpMethod e;
         x_signature := NetlifyWebhook.x_signature e;
         x_request_id := NetlifyWebhook.x_request_id e;
         body_type := ty; body_data_id := did;
         query_topic := NetlifyWebhook.query_topic e;
         query_id := NetlifyWebhook.query_id e |} w.
Proof.
  intros Hb Hpay. unfold NetlifyWebhook.handler, handler.
  cbn [method body_type body_data_id query_topic query_id].
  destruct (negb (String.eqb (NetlifyWebhook.httpMethod e) "POST"));
    [reflexivity|].
  unfold signatureAccepted.
  rewrite (netlify_verifySignature_same e ty did _ Hb). rewrite Hb.
  unfold tryCatch.
  destruct (present (MP_WEBHOOK_SECRET ev)); cbn [andb];
    [destruct (verifySignature _ _); cbn [negb]; [|reflexivity]|];
    (destruct (_ || _); [reflexivity|]);
    unfold bind, NetlifyWebhook.dispatch, dispatch;
    (destruct (String.eqb_spec (firstPresent ty (NetlifyWebhook.query_topic e))
                 "payment") as [Et|Et];
     [rewrite (handlePayment_same_without_reference rt ev clk _ w
                 (Hpay Et))|]; reflexivity).
Qed.

(** The authorized preapproval [pre1], delivered to both handlers. *)
Lemma netlify_handler_agrees_witness :
  NetlifyWebhook.handler Examples.utcHost Examples.shop Examples.noon
    {| NetlifyWebhook.httpMethod := "POST";
       NetlifyWebhook.x_signature := None;
       NetlifyWebhook.x_request_id := None;
       NetlifyWebhook.body :=
         NetlifyWebhook.BodyFields (Some "preapproval"%string)
           (Some "pre1"%string);
       NetlifyWebhook.query_topic := None;
       NetlifyWebhook.query_id := None |} Examples.emptyWorld
  = handler Examples.utcHost Examples.shop Examples.noon
      {| method := "POST"; x_signature := None; x_request_id := None;
         body_type := Some "preapproval"%string;
         body_data_id := Some "pre1"%string;
         query_topic := None; query_id := None |} Examples.emptyWorld.
Proof.
  apply (netlify_handler_agrees Examples.utcHost Examples.shop Examples.noon
           {| NetlifyWebhook.httpMethod := "POST";
              NetlifyWebhook.x_signature := None;
              NetlifyWebhook.x_request_id := None;
              NetlifyWebhook.body :=
                NetlifyWebhook.BodyFields (Some "preapproval"%string)
                  (Some "pre1"%string);
              NetlifyWebhook.query_topic := None;
              NetlifyWebhook.query_id := None |}
           (Some "preapproval"%string) (Some "pre1"%string)
           Examples.emptyWorld eq_refl).
  intros Ht. discriminate Ht.
Defined.

(** X20. A body that is not JSON, or that is [null], makes the Netlify
    handler answer 200 and change nothing. *)
Theorem netlify_unreadable_body_dropped rt ev clk e w :
  NetlifyWebhook.body e = NetlifyWebhook.BodySyntaxError
  \/ NetlifyWebhook.body e = NetlifyWebhook.BodyNull ->
  NetlifyWebhook.handler rt ev clk e w
  = (Ok {| statusCode := 200; body := "" |}, w).
Proof.
  intros H. unfold NetlifyWebhook.handler.
  destruct (negb (String.eqb (NetlifyWebhook.httpMethod e) "POST"));
    [reflexivity|].
  unfold tryCatch. destruct H as [-> | ->]; [reflexivity|].
  destruct (present (MP_WEBHOOK_SECRET ev) && _); reflexivity.
Qed.

Lemma netlify_unreadable_body_dropped_witness :
  NetlifyWebhook.handler Examples.utcHost Examples.shop Examples.noon
    {| NetlifyWebhook.httpMethod := "POST";
       NetlifyWebhook.x_signature := None;
       NetlifyWebhook.x_request_id := None;
       NetlifyWebhook.body := NetlifyWebhook.BodyNull;
       NetlifyWebhook.query_topic := Some "payment"%string;
       NetlifyWebhook.query_id := Some "123"%string |} Examples.annWorld
  = (Ok {| statusCode := 200; body := "" |}, Examples.annWorld).
Proof.
  apply netlify_unreadable_body_dropped. right. reflexivity.
Defined.

(** ** Calls that reject *)

Lemma externalCall_fault w b fs :
  faults w = b :: fs ->
  externalCall w
  = (if b then Throw NetworkError else Ok tt,
     {| authUsers := authUsers w; users := users w; outbox := outbox w;
        faults := fs |}).
Proof. intros H. unfold externalCall. rewrite H. reflexivity. Qed.

Lemma readExpiration_step u w fs :
  faults w = false :: fs ->
  readExpiration u w
  = (Ok (ExpirationDate (userAt w u)),
     {| authUsers := authUsers w; users := users w; outbox := outbox w;
        faults := fs |}).
Proof.
  intros H. unfold readExpiration, bind.
  rewrite (externalCall_fault w _ _ H). reflexivity.
Qed.

Lemma putUser_step u f w fs :
  faults w = false :: fs ->
  putUser u f w
  = (Ok tt, {| authUsers := authUsers w;
               users := <[u := f (userAt w u)]> (users w);
               outbox := outbox w; faults := fs |}).
Proof.
  intros H. unfold putUser, bind.
  rewrite (externalCall_fault w _ _ H). reflexivity.
Qed.

Lemma putUser_rejects u f w fs :
  faults w = true :: fs ->
  putUser u f w
  = (Throw NetworkError,
     {| authUsers := authUsers w; users := users w; outbox := outbox w;
        faults := fs |}).
Proof.
  intros H. unfold putUser, bind.
  rewrite (externalCall_fault w _ _ H). reflexivity.
Qed.

(** X21. Any failure of the lookup is taken for an unknown email: when the
    lookup of an existing user rejects, the creation that follows is
    refused, the activation throws, and nothing is written. *)
Theorem failed_lookup_ends_activation rt ev clk email info usr w fs :
  faults w = true :: fs ->
  authUsers w !! email = Some usr ->
  exists e w',
    activateLicense rt ev clk email info w = (Throw e, w')
    /\ authUsers w' = authUsers w
    /\ users w' = users w
    /\ outbox w' = outbox w.
Proof.
  intros Hf Hu. unfold activateLicense, findOrCreateUser, tryCatch.
  unfold bind at 1. unfold bind at 1. unfold getUserByEmail at 1.
  unfold bind at 1. rewrite (externalCall_fault w true fs Hf).
  unfold createUser, bind at 1. unfold bind at 1.
  set (w1 := {| authUsers := authUsers w; users := users w;
                outbox := outbox w; faults := fs |}).
  destruct (externalCall_cases w1) as (w2 & Ha & Hus & Ho & _ & [-> | ->]);
    change (authUsers w1) with (authUsers w) in Ha;
    change (users w1) with (users w) in Hus;
    change (outbox w1) with (outbox w) in Ho.
  - rewrite Ha. cbn [authUsers]. rewrite Hu.
    exists AuthError, w2. repeat split; assumption.
  - exists NetworkError, w2. repeat split; assumption.
Qed.

Lemma failed_lookup_ends_activation_witness :
  exists e w',
    activateLicense Examples.utcHost Examples.shop Examples.noon "ann@b.com"
      Examples.grant3 (Examples.withFaults [true] Examples.annWorld)
    = (Throw e, w')
    /\ authUsers w' = authUsers Examples.annWorld
    /\ users w' = users Examples.annWorld
    /\ outbox w' = outbox Examples.annWorld.
Proof.
  apply (failed_lookup_ends_activation Examples.utcHost Examples.shop
           Examples.noon "ann@b.com" Examples.grant3 Examples.ann
           (Examples.withFaults [true] Examples.annWorld) []);
    [reflexivity | vm_compute; reflexivity].
Defined.

(** X22. The three writes of an activation are separate: when the update of
    the record is stored and the write of the payment entry rejects, the
    activation throws with the expiration already extended and no entry
    in the history. *)
Theorem failed_history_write_keeps_extension
    rt ev clk email info usr w fs m t' lt md pid :
  authUsers w !! email = Some usr ->
  faults w = false :: false :: false :: true :: fs ->
  paymentId info = Some pid -> pid <> EmptyString ->
  months info = VNum m ->
  toDb (licenseType info) = Ok lt ->
  toDb (maxDevices info) = Ok md ->
  plusMonths (rt_LocalTZA rt)
    (baseDateOf rt clk (ExpirationDate (userAt w (uid usr)))) m = Some t' ->
  exists w',
    activateLicense rt ev clk email info w = (Throw NetworkError, w')
    /\ users w'
       = <[uid usr := applyUpdates email lt md (toISOString t')
                        (toISOString (t_now clk)) false
                        (userAt w (uid usr))]> (users w)
    /\ ExpirationDate (userAt w' (uid usr)) = Some (toISOString t')
    /\ payments (userAt w' (uid usr)) = payments (userAt w (uid usr)).
Proof.
  intros Hu Hf Hpid Hne Hm Hlt Hmd Hp.
  unfold activateLicense, findOrCreateUser, tryCatch.
  unfold bind at 1. unfold bind at 1. unfold bind at 1.
  unfold getUserByEmail at 1. unfold bind at 1.
  rewrite (externalCall_fault w _ _ Hf). cbn [authUsers]. rewrite Hu.
  unfold ret at 1. cbn [fst snd].
  set (w1 := {| authUsers := authUsers w; users := users w;
                outbox := outbox w; faults := false :: false :: true :: fs |}).
  rewrite (bind_ok _ _ _ _ _ (readExpiration_step (uid usr) w1 _ eq_refl)).
  change (userAt w1 (uid usr)) with (userAt w (uid usr)).
  unfold extendedDate at 1. rewrite Hm, setMonth_plusMonths, Hp.
  rewrite (bind_ok _ _ _ t' _ eq_refl).
  rewrite Hlt. rewrite (bind_ok _ _ _ lt _ eq_refl).
  rewrite Hmd. rewrite (bind_ok _ _ _ md _ eq_refl).
  cbn [authUsers users outbox faults].
  set (w2 := {| authUsers := authUsers w; users := users w;
                outbox := outbox w; faults := false :: true :: fs |}).
  rewrite (bind_ok _ _ _ _ _ (putUser_step (uid usr) _ w2 _ eq_refl)).
  change (userAt w2 (uid usr)) with (userAt w (uid usr)).
  cbn [authUsers users outbox faults].
  assert (Hpr : present (paymentId info) = true).
  { rewrite Hpid. cbn [present]. apply String.eqb_neq in Hne.
    rewrite Hne. reflexivity. }
  rewrite Hpr.
  match goal with
  | |- context [bind (putUser ?u ?f) ?k ?w3] =>
      rewrite (bind_throw _ _ _ _ _ (putUser_rejects u f w3 fs eq_refl))
  end.
  eexists. split; [reflexivity|].
  cbn [authUsers users outbox faults]. split; [reflexivity|].
  rewrite userAt_written. split; reflexivity.
Qed.

Lemma failed_history_write_keeps_extension_witness :
  exists w',
    activateLicense Examples.utcHost Examples.shop Examples.noon "ann@b.com"
      Examples.grant3
      (Examples.withFaults [false; false; false; true] Examples.annWorld)
    = (Throw NetworkError, w')
    /\ ExpirationDate (userAt w' "u1") = Some "2030-04-15T00:00:00.000Z"%string
    /\ payments (userAt w' "u1") = payments Examples.annRecord.
Proof.
  assert (Hu : authUsers (Examples.withFaults [false; false; false; true]
                            Examples.annWorld) !! "ann@b.com"%string
               = Some Examples.ann) by (vm_compute; reflexivity).
  assert (Hp : plusMonths (rt_LocalTZA Examples.utcHost)
                 (baseDateOf Examples.utcHost Examples.noon
                    (ExpirationDate
                       (userAt (Examples.withFaults
                                  [false; false; false; true]
                                  Examples.annWorld) (uid Examples.ann)))) 3
               = Some 1902441600000) by (vm_compute; reflexivity).
  assert (Hne : "900"%string <> EmptyString) by discriminate.
  destruct (failed_history_write_keeps_extension Examples.utcHost
              Examples.shop Examples.noon "ann@b.com" Examples.grant3
              Examples.ann
              (Examples.withFaults [false; false; false; true]
                 Examples.annWorld)
              [] 3 1902441600000 (Some (DStr "Monthly")) (Some (DNum 1))
              "900" Hu eq_refl eq_refl Hne eq_refl eq_refl eq_refl Hp)
    as (w' & Hrun & _ & Hexp & Hpay).
  change (uid Examples.ann) with "u1"%string in Hexp, Hpay.
  exists w'. split; [exact Hrun|]. split.
  - rewrite Hexp. vm_compute. reflexivity.
  - rewrite Hpay. vm_compute. reflexivity.
Defined.

(** ** The day the extension lands on *)

Ltac month_starts :=
  repeat match goal with
         | |- context [monthStart ?a ?b] =>
             let v := eval vm_compute in (monthStart a b) in
             change (monthStart a b) with v
         | H : context [monthStart ?a ?b] |- _ =>
             let v := eval vm_compute in (monthStart a b) in
             change (monthStart a b) with v in H
         end.

(** The calendar fields of day [d] of month [mo] of year [y]. *)
Lemma civilOf_MakeDate y mo d time :
  0 <= mo <= 11 -> 1 <= d <= DaysInMonth y (mo + 1) ->
  0 <= time < msPerDay ->
  civilOf (MakeDate (firstOfMonth y mo + d - 1) time)
  = {| c_year := y; c_month := mo; c_day := d; c_time := time |}.
Proof.
  intros Hmo Hd Ht.
  set (leap := if isLeapYear y then 1 else 0).
  assert (Hday : Day (MakeDate (firstOfMonth y mo + d - 1) time)
                 = firstOfMonth y mo + d - 1)
    by (unfold Day, MakeDate, msPerDay in *; dlia).
  assert (Htime : TimeWithinDay (MakeDate (firstOfMonth y mo + d - 1) time)
                  = time)
    by (unfold TimeWithinDay, MakeDate, msPerDay in *; dlia).
  assert (Hleap : leap = 0 /\ DaysInYear y = 365
                  \/ leap = 1 /\ DaysInYear y = 366)
    by (unfold leap, DaysInYear; destruct (isLeapYear y); auto).
  assert (Hoff : 0 <= monthStart mo leap + d - 1 < DaysInYear y
                 /\ monthOfYearDay (monthStart mo leap + d - 1) leap = mo).
  { unfold DaysInMonth in Hd. fold leap in Hd.
    replace (mo + 1 - 1) with mo in Hd by lia.
    assert (Hc : mo = 0 \/ mo = 1 \/ mo = 2 \/ mo = 3 \/ mo = 4 \/ mo = 5
                 \/ mo = 6 \/ mo = 7 \/ mo = 8 \/ mo = 9 \/ mo = 10
                 \/ mo = 11) by lia.
    destruct Hleap as [[-> ->]|[-> ->]];
      repeat (destruct Hc as [->|Hc]); try subst mo;
      cbn [Z.add Pos.add Pos.succ] in Hd; month_starts;
      unfold monthOfYearDay; month_starts;
      (split; [lia|]);
      repeat match goal with
             | |- context [if ?a <? ?b then _ else _] =>
                 destruct (Z.ltb_spec a b); try lia
             end. }
  destruct Hoff as [Hr Hmonth].
  assert (Hy : YearFromTime (MakeDate (firstOfMonth y mo + d - 1) time) = y).
  { unfold YearFromTime. rewrite Hday. apply YearFromDay_unique.
    rewrite DayFromYear_next. unfold firstOfMonth. fold leap. lia. }
  unfold civilOf. rewrite Htime, Hy. f_equal.
  - unfold MonthFromTime, DayWithinYear, InLeapYear. rewrite Hy, Hday.
    unfold firstOfMonth. fold leap.
    replace (DayFromYear y + monthStart mo leap + d - 1 - DayFromYear y)
      with (monthStart mo leap + d - 1) by lia.
    exact Hmonth.
  - unfold DateFromTime, MonthFromTime, DayWithinYear, InLeapYear.
    rewrite Hy, Hday. unfold firstOfMonth. fold leap.
    replace (DayFromYear y + monthStart mo leap + d - 1 - DayFromYear y)
      with (monthStart mo leap + d - 1) by lia.
    rewrite Hmonth. lia.
Qed.

Lemma DaysInMonth_cases y mo :
  0 <= mo <= 11 ->
  28 <= DaysInMonth y (mo + 1) <= 31
  /\ (mo = 11 -> DaysInMonth y (mo + 1) = 31)
  /\ (mo <= 10 ->
      firstOfMonth y (mo + 1) = firstOfMonth y mo + DaysInMonth y (mo + 1)).
Proof.
  intros Hmo. unfold DaysInMonth, firstOfMonth.
  replace (mo + 1 - 1) with mo by lia.
  assert (Hc : mo = 0 \/ mo = 1 \/ mo = 2 \/ mo = 3 \/ mo = 4 \/ mo = 5
               \/ mo = 6 \/ mo = 7 \/ mo = 8 \/ mo = 9 \/ mo = 10
               \/ mo = 11) by lia.
  destruct (isLeapYear y);
    repeat (destruct Hc as [->|Hc]); try subst mo;
    cbn [Z.add Pos.add Pos.succ]; month_starts; lia.
Qed.

Lemma rawPlusMonths_civilOf t m :
  rawPlusMonths (civilOf t) m
  = MakeDate (firstOfMonth (YearFromTime t + (MonthFromTime t + m) / 12)
                ((MonthFromTime t + m) mod 12) + DateFromTime t - 1)
      (TimeWithinDay t).
Proof.
  unfold rawPlusMonths, civilOf. cbn [c_year c_month c_day c_time].
  reflexivity.
Qed.

Lemma extendedDate_plusMonths rt base m :
  extendedDate rt base (VNum m)
  = match plusMonths (rt_LocalTZA rt) base m with
    | Some t => ret t
    | None => throw RangeError
    end.
Proof. unfold extendedDate. rewrite setMonth_plusMonths. reflexivity. Qed.

Lemma plusMonths_utc tza t m :
  (forall x b, tza x b = 0) ->
  plusMonths tza t m = TimeClip (rawPlusMonths (civilOf t) m).
Proof.
  intros Hz. unfold plusMonths, UTC, LocalTime.
  rewrite !Hz, Z.add_0_r, Z.sub_0_r. reflexivity.
Qed.

(** X23. Where the new expiration falls, on a host in UTC: [m] months after
    the base date, on the same day of the month and at the same time of
    day, when the month reached has that day; otherwise as many days
    into the following month as the day exceeds the month reached (the
    31st plus one month is the 1st, 2nd or 3rd of the month after). *)
Theorem extension_calendar rt base m t' w w' :
  (forall x b, rt_LocalTZA rt x b = 0) ->
  extendedDate rt base (VNum m) w = (Ok t', w') ->
  let k := MonthFromTime base + m in
  let y := YearFromTime base + k / 12 in
  let len := DaysInMonth y (k mod 12 + 1) in
  w' = w
  /\ (DateFromTime base <= len ->
      civilOf t' = {| c_year := y; c_month := k mod 12;
                      c_day := DateFromTime base;
                      c_time := TimeWithinDay base |})
  /\ (len < DateFromTime base ->
      civilOf t' = {| c_year := y; c_month := k mod 12 + 1;
                      c_day := DateFromTime base - len;
                      c_time := TimeWithinDay base |}).
Proof.
  intros Hz Hrun. cbv zeta.
  rewrite extendedDate_plusMonths, (plusMonths_utc _ _ _ Hz) in Hrun.
  destruct (TimeClip (rawPlusMonths (civilOf base) m)) as [t|] eqn:Hp;
    [|discriminate].
  injection Hrun as <- <-. split; [reflexivity|].
  apply TimeClip_Some in Hp. destruct Hp as [-> _].
  rewrite rawPlusMonths_civilOf.
  pose proof (DateFromTime_range base) as Hd.
  pose proof (MonthFromTime_range base) as Hmo.
  destruct (DaysInMonth_cases (YearFromTime base) (MonthFromTime base) Hmo)
    as [Hown _].
  assert (Ht : 0 <= TimeWithinDay base < msPerDay)
    by (unfold TimeWithinDay, msPerDay; dlia).
  remember (MonthFromTime base + m) as k eqn:Ek.
  remember (YearFromTime base + k / 12) as y eqn:Ey.
  remember (DateFromTime base) as d eqn:Ed.
  remember (TimeWithinDay base) as time eqn:Etime.
  assert (Hk : 0 <= k mod 12 <= 11) by dlia.
  remember (k mod 12) as mo eqn:Emo.
  destruct (DaysInMonth_cases y mo Hk) as (Hlen & Hdec & Hnext).
  split.
  - intros Hle. apply civilOf_MakeDate; [exact Hk | lia | exact Ht].
  - intros Hgt.
    assert (Hk10 : mo <= 10) by lia.
    replace (firstOfMonth y mo + d - 1)
      with (firstOfMonth y (mo + 1) + (d - DaysInMonth y (mo + 1)) - 1)
      by (rewrite (Hnext Hk10); lia).
    destruct (DaysInMonth_cases y (mo + 1) ltac:(lia)) as [Hn _].
    apply civilOf_MakeDate; [lia | lia | exact Ht].
Qed.

Lemma extension_calendar_witness :
  extendedDate Examples.utcHost 1706702400000 (VNum 1) Examples.emptyWorld
  = (Ok 1709380800000, Examples.emptyWorld)
  /\ civilOf 1706702400000
     = {| c_year := 2024; c_month := 0; c_day := 31; c_time := 43200000 |}
  /\ civilOf 1709380800000
     = {| c_year := 2024; c_month := 2; c_day := 2; c_time := 43200000 |}.
Proof.
  assert (Hrun : extendedDate Examples.utcHost 1706702400000 (VNum 1)
                   Examples.emptyWorld
                 = (Ok 1709380800000, Examples.emptyWorld))
    by (vm_compute; reflexivity).
  split; [exact Hrun|]. split; [vm_compute; reflexivity|].
  destruct (extension_calendar Examples.utcHost 1706702400000 1
              1709380800000 Examples.emptyWorld Examples.emptyWorld
              (fun _ _ => eq_refl) Hrun) as (_ & _ & H).
  rewrite H by (vm_compute; reflexivity).
  vm_compute. reflexivity.
Defined.
